(** * Quote-wise pricing: the rules engine, risk assessment and batch tool

    A shallow embedding of [src/pricing_engine.py],
    [src/tools/risk_assessment_tool.py],
    [src/tools/price_calculating_tool.py] and [src/utils/cache.py].

    Python values are the values [json.loads] builds; exceptions are an
    error result; the engine object is a record threaded through its
    methods; [datetime.now().month] is an explicit argument. *)

From Stdlib Require Import ZArith Lia List String Ascii Bool DecimalString.
From Stdlib Require Import SpecFloat.
Import ListNotations.
Open Scope string_scope.
Open Scope Z_scope.

(** ** Python floats

    A Python float is an IEEE 754 binary64 value.  Every finite binary64
    value is an integer multiple of [2^-1074], so a finite float is kept as
    its sign and that integer ([u], with [u >= 0]).  An arithmetic
    operation returns the exact result rounded to the nearest representable
    value, ties to even, and an infinity from [2^1024] on. *)
Module F64.

Inductive float :=
| Fnan
| Finf (neg : bool)
| Ffin (neg : bool) (u : Z).

(** [1.0] and [2^1024] in units of [2^-1074]. *)
Definition one_u : Z := Z.shiftl 1 1074.
Definition huge : Z := Z.shiftl 1 2098.

(** Nearest integer to [n / d], ties to even ([0 <= n], [0 < d]). *)
Definition rne (n d : Z) : Z :=
  let q := n / d in
  match 2 * (n mod d) ?= d with
  | Lt => q
  | Gt => q + 1
  | Eq => if Z.even q then q else q + 1
  end.

(** Binary exponent of the spacing of the floats around [n / d] units:
    one unit below [2^53] units (subnormals and the first normal binade),
    doubling with every binade above. *)
Definition quantum (n d : Z) : Z := Z.max 0 (Z.log2 (n / d) - 52).

(** [n / d] units rounded to a representable number of units. *)
Definition round_units (n d : Z) : Z :=
  let j := quantum n d in
  Z.shiftl (rne n (Z.shiftl d j)) j.

Definition of_ratio (neg : bool) (n d : Z) : float :=
  let u := round_units n d in
  if u <? huge then Ffin neg u else Finf neg.

(** Signed number of units of a finite float. *)
Definition sv (neg : bool) (u : Z) : Z := if neg then - u else u.

Definition fopp (x : float) : float :=
  match x with
  | Fnan => Fnan
  | Finf s => Finf (negb s)
  | Ffin s u => Ffin (negb s) u
  end.

Definition fabs (x : float) : float :=
  match x with
  | Fnan => Fnan
  | Finf _ => Finf false
  | Ffin _ u => Ffin false u
  end.

Definition fmul (x y : float) : float :=
  match x, y with
  | Fnan, _ | _, Fnan => Fnan
  | Finf s, Finf t => Finf (xorb s t)
  | Finf s, Ffin t u => if u =? 0 then Fnan else Finf (xorb s t)
  | Ffin s u, Finf t => if u =? 0 then Fnan else Finf (xorb s t)
  | Ffin s u, Ffin t v => of_ratio (xorb s t) (u * v) one_u
  end.

Definition fadd (x y : float) : float :=
  match x, y with
  | Fnan, _ | _, Fnan => Fnan
  | Finf s, Finf t => if Bool.eqb s t then Finf s else Fnan
  | Finf s, Ffin _ _ => Finf s
  | Ffin _ _, Finf t => Finf t
  | Ffin s u, Ffin t v =>
      let w := sv s u + sv t v in
      if w =? 0 then Ffin (s && t) 0 else of_ratio (w <? 0) (Z.abs w) 1
  end.

Definition fsub (x y : float) : float := fadd x (fopp y).

(** Quotient by a non-zero divisor (Python raises on a zero one before
    dividing, see [num_truediv]). *)
Definition fdiv (x y : float) : float :=
  match x, y with
  | Fnan, _ | _, Fnan => Fnan
  | Finf _, Finf _ => Fnan
  | Finf s, Ffin t _ => Finf (xorb s t)
  | Ffin s _, Finf t => Ffin (xorb s t) 0
  | Ffin s u, Ffin t v => of_ratio (xorb s t) (u * one_u) v
  end.

(** Comparison, [None] when a NaN is involved. *)
Definition fcompare (x y : float) : option comparison :=
  match x, y with
  | Fnan, _ | _, Fnan => None
  | Finf s, Finf t =>
      Some (if Bool.eqb s t then Eq else if s then Lt else Gt)
  | Finf s, Ffin _ _ => Some (if s then Lt else Gt)
  | Ffin _ _, Finf t => Some (if t then Gt else Lt)
  | Ffin s u, Ffin t v => Some (sv s u ?= sv t v)
  end.

Definition fltb (x y : float) : bool :=
  match fcompare x y with Some Lt => true | _ => false end.
Definition fleb (x y : float) : bool :=
  match fcompare x y with Some (Lt | Eq) => true | _ => false end.
Definition feqb (x y : float) : bool :=
  match fcompare x y with Some Eq => true | _ => false end.

(** The nearest float to the integer [z]; an infinity when [z] is too large
    (where Python raises, see [float_of_int]). *)
Definition of_Z (z : Z) : float := of_ratio (z <? 0) (Z.abs z * one_u) 1.

(** The nearest float to [n / d] ([0 <= n], [0 < d]): the value of a
    decimal literal such as [0.05], read as [5 / 100]. *)
Definition of_dec (neg : bool) (n d : Z) : float := of_ratio neg (n * one_u) d.

(** Comparison of an integer with a float: Python compares the exact
    values, without converting the integer. *)
Definition zcompare (z : Z) (y : float) : option comparison :=
  match y with
  | Fnan => None
  | Finf t => Some (if t then Gt else Lt)
  | Ffin t v => Some (z * one_u ?= sv t v)
  end.

(** [round(x, 2)]: the exact value of [x] rounded to two decimals, ties to
    even, and the nearest float to that decimal; infinities and NaN are
    returned as they are. *)
Definition round2 (x : float) : float :=
  match x with
  | Ffin s u => of_ratio s (rne (100 * u) one_u * one_u) 100
  | _ => x
  end.

(** [int(x)]: truncation toward zero of a finite float. *)
Definition trunc (neg : bool) (u : Z) : Z := sv neg (u / one_u).

(** [min(y, c)] on two floats: [y] unless [c] is smaller. *)
Definition fmin (y c : float) : float := if fltb c y then c else y.

(** Zero, positive or plus infinity. *)
Definition nonneg (x : float) : Prop :=
  match x with
  | Ffin false u => 0 <= u
  | Finf false => True
  | _ => False
  end.

(** The same value in the Standard Library's representation. *)
Definition to_spec (x : float) : spec_float :=
  match x with
  | Fnan => S754_nan
  | Finf s => S754_infinity s
  | Ffin s u =>
      if u =? 0 then S754_zero s
      else let j := Z.max 0 (Z.log2 u - 52) in
           S754_finite s (Z.to_pos (Z.shiftr u j)) (j - 1074)
  end.

End F64.
Import F64.

(** ** Exceptions *)

Inductive exn :=
| TypeError
| ValueError
| AttributeError
| OverflowError
| ZeroDivisionError.

Inductive res (A : Type) :=
| Ok (a : A)
| Raise (e : exn).
Arguments Ok {A} a.
Arguments Raise {A} e.

Definition bind {A B : Type} (m : res A) (k : A -> res B) : res B :=
  match m with
  | Ok a => k a
  | Raise e => Raise e
  end.

Notation "x <- m ;; k" := (bind m (fun x => k))
  (at level 61, m at next level, right associativity).

(** ** Python values *)

(** What [json.loads] builds: [None], [bool], [int], [float], [str], [list]
    and [dict].  A dict is the list of its items, with distinct keys. *)
#[local] Set Warnings "-register-all".
Inductive json :=
| JNull
| JBool (b : bool)
| JInt (z : Z)
| JFloat (f : float)
| JStr (s : string)
| JArr (items : list json)
| JObj (members : list (string * json)).

Definition dict := list (string * json).

(** [int] and [float], the operands of arithmetic; a [bool] counts as the
    [int] it subclasses. *)
Inductive num :=
| NInt (z : Z)
| NFloat (f : float).

Definition as_num (v : json) : option num :=
  match v with
  | JBool b => Some (NInt (if b then 1 else 0))
  | JInt z => Some (NInt z)
  | JFloat f => Some (NFloat f)
  | _ => None
  end.

Definition json_of_num (n : num) : json :=
  match n with
  | NInt z => JInt z
  | NFloat f => JFloat f
  end.

(** What the model leaves to the Python runtime: reading a number from
    text, the [repr] of a float, list or dict, and the message of an
    exception. *)
Class Host := {
  float_of_str : string -> option float;
  int_of_str : string -> option Z;
  repr : json -> string;
  exn_text : exn -> string
}.

(** *** Numbers *)

(** [int] to [float], as in mixed arithmetic and [float(n)]. *)
Definition float_of_int (z : Z) : res float :=
  match of_Z z with
  | Finf _ => Raise OverflowError
  | f => Ok f
  end.

Definition to_float (n : num) : res float :=
  match n with
  | NInt z => float_of_int z
  | NFloat f => Ok f
  end.

Definition num_arith (iop : Z -> Z -> Z) (fop : float -> float -> float)
    (a b : num) : res num :=
  match a, b with
  | NInt x, NInt y => Ok (NInt (iop x y))
  | _, _ => x <- to_float a ;; y <- to_float b ;; Ok (NFloat (fop x y))
  end.

Definition num_add : num -> num -> res num := num_arith Z.add fadd.
Definition num_sub : num -> num -> res num := num_arith Z.sub fsub.
Definition num_mul : num -> num -> res num := num_arith Z.mul fmul.

(** [a / b] on two ints: the correctly rounded quotient. *)
Definition int_truediv (a b : Z) : res float :=
  if b =? 0 then Raise ZeroDivisionError
  else
    match of_ratio (xorb (a <? 0) (b <? 0)) (Z.abs a * one_u) (Z.abs b) with
    | Finf _ => Raise OverflowError
    | f => Ok f
    end.

Definition fis_zero (f : float) : bool :=
  match f with
  | Ffin _ u => u =? 0
  | _ => false
  end.

Definition num_truediv (a b : num) : res num :=
  match a, b with
  | NInt x, NInt y => f <- int_truediv x y ;; Ok (NFloat f)
  | _, _ =>
      x <- to_float a ;; y <- to_float b ;;
      if fis_zero y then Raise ZeroDivisionError else Ok (NFloat (fdiv x y))
  end.

Definition num_compare (a b : num) : option comparison :=
  match a, b with
  | NInt x, NInt y => Some (x ?= y)
  | NInt x, NFloat g => zcompare x g
  | NFloat f, NInt y => option_map CompOpp (zcompare y f)
  | NFloat f, NFloat g => fcompare f g
  end.

Definition num_ltb (a b : num) : bool :=
  match num_compare a b with Some Lt => true | _ => false end.
Definition num_gtb (a b : num) : bool :=
  match num_compare a b with Some Gt => true | _ => false end.
Definition num_eqb (a b : num) : bool :=
  match num_compare a b with Some Eq => true | _ => false end.

(** [min(a, b)]: the first argument unless the second is smaller. *)
Definition py_min (a b : num) : num := if num_ltb b a then b else a.

Definition num_abs (a : num) : num :=
  match a with
  | NInt z => NInt (Z.abs z)
  | NFloat f => NFloat (fabs f)
  end.

(** [round(a, 2)]: an int is returned as it is. *)
Definition py_round2 (a : num) : num :=
  match a with
  | NInt z => NInt z
  | NFloat f => NFloat (round2 f)
  end.

(** *** Strings *)

(** [str(n)] of an int: its decimal digits, with the sign of a negative
    one.  CPython gives them for an int of at most 4300 digits, which is
    every int that [json.loads] hands to the tools, and refuses a longer
    one with a [ValueError] ([sys.int_info.default_max_str_digits]);
    [printable], below, is that bound. *)
Definition dec (z : Z) : string := NilZero.string_of_int (Z.to_int z).

(** [needle in hay]. *)
Fixpoint contains (needle hay : string) : bool :=
  prefix needle hay ||
  match hay with
  | EmptyString => false
  | String _ rest => contains needle rest
  end.

Definition code (c : ascii) : N := N_of_ascii c.

(** The white space [str.strip()] removes, as UTF-8: U+0009..U+000D,
    U+001C..U+0020, U+0085, U+00A0, U+1680, U+2000..U+200A, U+2028, U+2029,
    U+202F, U+205F and U+3000.  [space_head s] is [s] without its first
    character when that is white space. *)
Definition space_head (s : string) : option string :=
  match s with
  | String a r1 =>
      let a := code a in
      if ((9 <=? a) && (a <=? 13) || (28 <=? a) && (a <=? 32))%N then Some r1
      else
        match r1 with
        | String b r2 =>
            let b := code b in
            if ((a =? 194) && ((b =? 133) || (b =? 160)))%N then Some r2
            else
              match r2 with
              | String c r3 =>
                  let c := code c in
                  if ((a =? 225) && (b =? 154) && (c =? 128)
                      || (a =? 226) && (b =? 128)
                         && ((128 <=? c) && (c <=? 138)
                             || (c =? 168) || (c =? 169) || (c =? 175))
                      || (a =? 226) && (b =? 129) && (c =? 159)
                      || (a =? 227) && (b =? 128) && (c =? 128))%N
                  then Some r3 else None
              | EmptyString => None
              end
        | EmptyString => None
        end
  | EmptyString => None
  end.

(** The same at the end of a string, on the reversed list of its bytes. *)
Definition space_last (r : list ascii) : option (list ascii) :=
  match r with
  | a :: r1 =>
      let a := code a in
      if ((9 <=? a) && (a <=? 13) || (28 <=? a) && (a <=? 32))%N then Some r1
      else
        match r1 with
        | b :: r2 =>
            let b := code b in
            if ((b =? 194) && ((a =? 133) || (a =? 160)))%N then Some r2
            else
              match r2 with
              | c :: r3 =>
                  let c := code c in
                  if ((c =? 225) && (b =? 154) && (a =? 128)
                      || (c =? 226) && (b =? 128)
                         && ((128 <=? a) && (a <=? 138)
                             || (a =? 168) || (a =? 169) || (a =? 175))
                      || (c =? 226) && (b =? 129) && (a =? 159)
                      || (c =? 227) && (b =? 128) && (a =? 128))%N
                  then Some r3 else None
              | [] => None
              end
        | [] => None
        end
  | [] => None
  end.

Fixpoint lstrip_fuel (fuel : nat) (s : string) : string :=
  match fuel with
  | O => s
  | S k => match space_head s with Some r => lstrip_fuel k r | None => s end
  end.

Fixpoint rstrip_fuel (fuel : nat) (r : list ascii) : list ascii :=
  match fuel with
  | O => r
  | S k => match space_last r with Some r' => rstrip_fuel k r' | None => r end
  end.

Definition lstrip (s : string) : string := lstrip_fuel (String.length s) s.
Definition rstrip (s : string) : string :=
  string_of_list_ascii
    (rev (rstrip_fuel (String.length s) (rev (list_ascii_of_string s)))).

(** [s.strip()]. *)
Definition strip (s : string) : string := rstrip (lstrip s).

Fixpoint repeat_str (n : nat) (s : string) : string :=
  match n with
  | O => ""
  | S k => s ++ repeat_str k s
  end.

Fixpoint repeat_list {A : Type} (n : nat) (l : list A) : list A :=
  match n with
  | O => []
  | S k => l ++ repeat_list k l
  end.

(** *** Operations on values *)

Fixpoint dict_get (o : dict) (key : string) : option json :=
  match o with
  | [] => None
  | (k, v) :: rest => if String.eqb k key then Some v else dict_get rest key
  end.

(** [o.get(key, default)]. *)
Definition get_or (o : dict) (key : string) (default : json) : json :=
  match dict_get o key with
  | Some v => v
  | None => default
  end.

(** [x.get(key, default)] on any value: only a dict has the method. *)
Definition py_get (x : json) (key : string) (default : json) : res json :=
  match x with
  | JObj o => Ok (get_or o key default)
  | _ => Raise AttributeError
  end.

Definition is_none (v : json) : bool :=
  match v with
  | JNull => true
  | _ => false
  end.

(** Truth value, as tested by [if], [not] and [and]. *)
Definition truthy (v : json) : bool :=
  match v with
  | JNull => false
  | JBool b => b
  | JInt z => negb (z =? 0)
  | JFloat f => negb (fis_zero f)
  | JStr s => negb (String.eqb s "")
  | JArr l => match l with [] => false | _ => true end
  | JObj o => match o with [] => false | _ => true end
  end.

(** [==]. *)
Fixpoint py_eq (a b : json) {struct a} : bool :=
  match a, b with
  | JNull, JNull => true
  | JStr s, JStr t => String.eqb s t
  | JArr l, JArr m =>
      (fix seq_eq (l m : list json) {struct l} : bool :=
         match l, m with
         | [], [] => true
         | x :: l', y :: m' => py_eq x y && seq_eq l' m'
         | _, _ => false
         end) l m
  | JObj o, JObj p =>
      Nat.eqb (List.length o) (List.length p) &&
      (fix members_eq (o : list (string * json)) : bool :=
         match o with
         | [] => true
         | (k, v) :: o' =>
             match dict_get p k with
             | Some w => py_eq v w
             | None => false
             end && members_eq o'
         end) o
  | _, _ =>
      match as_num a, as_num b with
      | Some x, Some y => num_eqb x y
      | _, _ => false
      end
  end.

(** [a > b]: numbers by value, strings and lists lexicographically, and a
    [TypeError] for any other pair. *)
Fixpoint py_gt (a b : json) {struct a} : res bool :=
  match a, b with
  | JStr s, JStr t => Ok (String.ltb t s)
  | JArr l, JArr m =>
      (fix seq_gt (l m : list json) {struct l} : res bool :=
         match l, m with
         | [], _ => Ok false
         | _ :: _, [] => Ok true
         | x :: l', y :: m' => if py_eq x y then seq_gt l' m' else py_gt x y
         end) l m
  | _, _ =>
      match as_num a, as_num b with
      | Some x, Some y => Ok (num_gtb x y)
      | _, _ => Raise TypeError
      end
  end.

(** [a < b] for a float [b]. *)
Definition py_lt_float (a : json) (b : float) : res bool :=
  match as_num a with
  | Some x => Ok (num_ltb x (NFloat b))
  | None => Raise TypeError
  end.

(** [n * v] for an int [n]: a product of numbers, a repeated string or
    list. *)
Definition py_times (n : Z) (v : json) : res json :=
  match v with
  | JStr s => Ok (JStr (repeat_str (Z.to_nat n) s))
  | JArr l => Ok (JArr (repeat_list (Z.to_nat n) l))
  | JNull | JObj _ => Raise TypeError
  | _ =>
      match as_num v with
      | Some x => r <- num_mul (NInt n) x ;; Ok (json_of_num r)
      | None => Raise TypeError
      end
  end.

(** [a / b]. *)
Definition py_truediv (a b : json) : res num :=
  match as_num a, as_num b with
  | Some x, Some y => num_truediv x y
  | _, _ => Raise TypeError
  end.

(** [needle in v] for a str [needle]. *)
Definition py_contains (needle : string) (v : json) : res bool :=
  match v with
  | JStr s => Ok (contains needle s)
  | JArr l => Ok (existsb (fun x => py_eq (JStr needle) x) l)
  | JObj o => Ok (existsb (fun kv => String.eqb needle (fst kv)) o)
  | _ => Raise TypeError
  end.

(** The items a [for] loop takes from [v]: the elements of a list, the
    keys of a dict, the characters of a str (here its bytes). *)
Definition py_iter (v : json) : res (list json) :=
  match v with
  | JArr l => Ok l
  | JObj o => Ok (map (fun kv => JStr (fst kv)) o)
  | JStr s => Ok (map (fun c => JStr (String c "")) (list_ascii_of_string s))
  | _ => Raise TypeError
  end.

Section Conversions.
Context {host : Host}.

(** [str(v)], also what an f-string inserts. *)
Definition py_str (v : json) : string :=
  match v with
  | JStr s => s
  | JNull => "None"
  | JBool b => if b then "True" else "False"
  | JInt z => dec z
  | JFloat _ | JArr _ | JObj _ => repr v
  end.

(** [float(v)]. *)
Definition py_float (v : json) : res float :=
  match v with
  | JFloat f => Ok f
  | JInt z => float_of_int z
  | JBool b => float_of_int (if b then 1 else 0)
  | JStr s =>
      match float_of_str s with
      | Some f => Ok f
      | None => Raise ValueError
      end
  | JNull | JArr _ | JObj _ => Raise TypeError
  end.

(** [int(v)]. *)
Definition py_int (v : json) : res Z :=
  match v with
  | JInt z => Ok z
  | JBool b => Ok (if b then 1 else 0)
  | JFloat Fnan => Raise ValueError
  | JFloat (Finf _) => Raise OverflowError
  | JFloat (Ffin s u) => Ok (trunc s u)
  | JStr s =>
      match int_of_str s with
      | Some z => Ok z
      | None => Raise ValueError
      end
  | JNull | JArr _ | JObj _ => Raise TypeError
  end.
End Conversions.

(** ** [pricing_engine.py] *)

Definition SEASONAL_SUMMER_CATEGORIES : list string :=
  ["Toys & Games"; "Sports & Outdoors"; "Fashion & Apparel"].

Module PricingRulesEngine.

(** An entry of [self.adjustments]: the dict with keys ["type"], ["value"]
    and ["reason"]. *)
Inductive adj_type := discount | markup.

Record adjustment := {
  type : adj_type;
  value : num;
  reason : string
}.

(** The attributes of an engine object. *)
Record engine := {
  product : dict;
  quantity : Z;
  base_price : float;
  adjustments : list adjustment;
  final_price : float
}.

(** [self.adjustments.append(adj)]. *)
Definition append (self : engine) (adj : adjustment) : engine :=
  {| product := product self;
     quantity := quantity self;
     base_price := base_price self;
     adjustments := adjustments self ++ [adj];
     final_price := final_price self |}.

Definition set_adjustments (self : engine) (l : list adjustment) : engine :=
  {| product := product self;
     quantity := quantity self;
     base_price := base_price self;
     adjustments := l;
     final_price := final_price self |}.

(** The same engine holding another product dict. *)
Definition with_product (self : engine) (o : dict) : engine :=
  {| product := o;
     quantity := quantity self;
     base_price := base_price self;
     adjustments := adjustments self;
     final_price := final_price self |}.

(** [self] with [Reorder_Level] set to [v] in front of its product dict. *)
Definition reordered (v : json) (self : engine) : engine :=
  with_product self (("Reorder_Level", v) :: product self).

(** The engine [__init__] builds from a dict [o] priced [price]. *)
Definition fresh (o : dict) (quantity : Z) (price : float) : engine :=
  {| product := o;
     quantity := quantity;
     base_price := price;
     adjustments := [];
     final_price := price |}.

Definition override_reason : string :=
  "Price Strategy Override: Item's price is driven by perceived value, not inventory levels.".

(** The body of the override loop: an adjustment whose reason mentions the
    inventory discount has its value set to [0] and its reason replaced. *)
Definition neutralize (adj : adjustment) : adjustment :=
  if contains "High Inventory Discount" (reason adj)
  then {| type := type adj; value := NInt 0; reason := override_reason |}
  else adj.

Definition required_keys : list string :=
  ["Product_Name"; "Quantity_in_Stock"; "Stock_Status"; "Min_Selling_Price_Rs"].

(** [key not in self.product or self.product.get(key) is None]. *)
Definition absent (o : dict) (key : string) : bool :=
  match dict_get o key with
  | None => true
  | Some v => is_none v
  end.

Definition missing_keys (o : dict) : list string :=
  filter (absent o) required_keys.

(** The sum of step 3 of [calculate_price]. *)
Fixpoint total_adjustment (total : num) (adjs : list adjustment) : res num :=
  match adjs with
  | [] => Ok total
  | adj :: rest =>
      total' <- match type adj with
                | discount => num_sub total (value adj)
                | markup => num_add total (value adj)
                end ;;
      total_adjustment total' rest
  end.

(** [[adj['reason'] for adj in self.adjustments if adj.get('value') != 0]]. *)
Definition reasoning_breakdown (adjs : list adjustment) : list string :=
  map reason (filter (fun adj => negb (num_eqb (value adj) (NInt 0))) adjs).

(** The three dicts [calculate_price] returns: for incomplete product
    data, for an unavailable product, and for a priced one. *)
Definition incomplete (o : dict) (missing : list string) : json :=
  JObj
    [ ("product_name", get_or o "Product_Name" (JStr "Unknown"));
      ("approved_for_quote", JBool false);
      ("status",
       JStr ("Product data incomplete. Missing required fields: "
             ++ concat ", " missing)) ].

Definition rejected (self : engine) (status_msg : string) : json :=
  JObj
    [ ("product_name", get_or (product self) "Product_Name" JNull);
      ("quantity_requested", JInt (quantity self));
      ("approved_for_quote", JBool false);
      ("status", JStr status_msg) ].

Definition priced (self : engine)
    (final_single_unit_price total_price total_adjustment_percentage : num)
    : json :=
  JObj
    [ ("product_name", get_or (product self) "Product_Name" JNull);
      ("quantity_requested", JInt (quantity self));
      ("approved_for_quote", JBool true);
      ("base_single_unit_price", JFloat (round2 (base_price self)));
      ("final_single_unit_price",
       json_of_num (py_round2 final_single_unit_price));
      ("total_price", json_of_num (py_round2 total_price));
      ("net_price_adjustment_percentage",
       json_of_num (py_round2 total_adjustment_percentage));
      ("reasoning_breakdown",
       JArr (map JStr (reasoning_breakdown (adjustments self))));
      ("competitors",
       JObj
         [ ("SmartBuy", get_or (product self) "SmartBuy" JNull);
           ("ClicKart", get_or (product self) "ClicKart" JNull);
           ("ShopiSky", get_or (product self) "ShopiSky" JNull);
           ("Neesho", get_or (product self) "Neesho" JNull) ]);
      ("status", JStr "Available") ].

Section Methods.
Context {host : Host}.

Definition __init__ (product : json) (quantity : Z) : res engine :=
  price <- py_get product "Min_Selling_Price_Rs" (JInt 0) ;;
  base_price <- py_float price ;;
  match product with
  | JObj o => Ok (fresh o quantity base_price)
  | _ => Raise AttributeError
  end.

Definition factors_of (self : engine) : list string :=
  [ strip (py_str (get_or (product self) "Factor_1" (JStr "")));
    strip (py_str (get_or (product self) "Factor_2" (JStr "")));
    strip (py_str (get_or (product self) "Factor_3" (JStr ""))) ].

Definition mem (s : string) (l : list string) : bool :=
  existsb (String.eqb s) l.

(** [month] is [datetime.now().month]. *)
Definition _apply_factor_based_rules (month : Z) (self : engine) : engine :=
  let factors := factors_of self in
  let self :=
    if mem "Weather & Seasons" factors then
      let product_category := get_or (product self) "Category" (JStr "") in
      let is_summer_season := existsb (Z.eqb month) [5; 6; 7; 8] in
      if is_summer_season
         && existsb (fun c => py_eq product_category (JStr c))
              SEASONAL_SUMMER_CATEGORIES
      then append self
             {| type := markup;
                value := NFloat (of_Z 10);
                reason := "In-Season Demand Markup: '"
                          ++ py_str product_category
                          ++ "' is a popular summer category." |}
      else self
    else self in
  let self :=
    if mem "Age" factors || mem "Gender" factors then
      append self
        {| type := markup;
           value := NFloat (of_Z 3);
           reason := "Targeted Product Premium: Price adjusted for specific demographic appeal." |}
    else self in
  if mem "Purchasing Power" factors
  then set_adjustments self (map neutralize (adjustments self))
  else self.

Definition inventory_reason (stock : json) : string :=
  "High Inventory Discount: Stock level (" ++ py_str stock
  ++ ") is high compared to reorder point.".

Definition _apply_inventory_rules (self : engine) : res engine :=
  let stock := get_or (product self) "Quantity_in_Stock" (JInt 0) in
  let reorder_level := get_or (product self) "Reorder_Level" (JInt 1) in
  if truthy reorder_level then
    threshold <- py_times 2 reorder_level ;;
    high <- py_gt stock threshold ;;
    if high then
      divisor <- py_times 2 reorder_level ;;
      ratio <- py_truediv stock divisor ;;
      discount_factor <- num_mul ratio (NFloat (of_dec false 5 100)) ;;
      discount_percentage <-
        num_mul (py_min discount_factor (NFloat (of_dec false 20 100)))
                (NInt 100) ;;
      Ok (append self
            {| type := discount;
               value := discount_percentage;
               reason := inventory_reason stock |})
    else Ok self
  else Ok self.

Definition _apply_order_value_rules (self : engine) : engine :=
  if 25 <=? quantity self then
    append self
      {| type := discount;
         value := NFloat (of_dec false 75 10);
         reason := "Bulk Order Discount: For ordering "
                   ++ dec (quantity self) ++ " units (25+)." |}
  else self.

(** The result dict and the engine as the call leaves it. *)
Definition calculate_price (month : Z) (self : engine)
    : res (json * engine) :=
  match missing_keys (product self) with
  | (_ :: _) as missing => Ok (incomplete (product self) missing, self)
  | [] =>
      let stock_status := get_or (product self) "Stock_Status" JNull in
      let stock_quantity := get_or (product self) "Quantity_in_Stock" JNull in
      let out_of_stock := py_eq stock_status (JStr "Out of Stock") in
      unavailable <-
        (if out_of_stock then Ok true
         else py_gt (JInt (quantity self)) stock_quantity) ;;
      if unavailable then
        let status_msg :=
          if out_of_stock then "Product is out of stock."
          else "Insufficient stock. Requested: " ++ dec (quantity self)
               ++ ", Available: " ++ py_str stock_quantity ++ "." in
        Ok (rejected self status_msg, self)
      else
        self <- _apply_inventory_rules self ;;
        let self := _apply_order_value_rules self in
        let self := _apply_factor_based_rules month self in
        total_adjustment_percentage <-
          total_adjustment (NInt 0) (adjustments self) ;;
        fraction <- num_truediv total_adjustment_percentage (NInt 100) ;;
        factor <- num_add (NInt 1) fraction ;;
        final_single_unit_price <-
          num_mul (NFloat (base_price self)) factor ;;
        total_price <-
          num_mul final_single_unit_price (NInt (quantity self)) ;;
        Ok (priced self final_single_unit_price total_price
              total_adjustment_percentage,
            self)
  end.

(** The contract [calculate(product, quantity)]: a new engine for the
    call, as [PricingCalculatorTool._run] makes one for every item. *)
Definition calculate (month : Z) (product : json) (quantity : Z)
    : res json :=
  self <- __init__ product quantity ;;
  out <- calculate_price month self ;;
  Ok (fst out).
End Methods.

End PricingRulesEngine.

(** ** [tools/risk_assessment_tool.py] *)

Module RiskAssessmentTool.

Section Run.
Context {host : Host}.

Definition max_allowed_discount : float := of_Z 25.

Definition discount_flag (strategy_data : dict) (adjustment : json)
    : string :=
  "Risk: Net discount for '"
  ++ py_str (get_or strategy_data "product_name" JNull)
  ++ "' is "
  ++ py_str (match as_num adjustment with
             | Some a => json_of_num (num_abs a)
             | None => adjustment
             end)
  ++ "%, which exceeds the maximum of "
  ++ py_str (JFloat max_allowed_discount) ++ "%.".

Definition capped_flag (strategy_data : dict) : string :=
  "Heads-up: A discount for '"
  ++ py_str (get_or strategy_data "product_name" JNull)
  ++ "' was automatically capped.".

(** The loop over [reasons]. *)
Fixpoint capped_flags (strategy_data : dict) (reasons : list json)
    : res (list string) :=
  match reasons with
  | [] => Ok []
  | reason :: rest =>
      capped <- py_contains "Capped" reason ;;
      flags <- capped_flags strategy_data rest ;;
      Ok (if capped then capped_flag strategy_data :: flags else flags)
  end.

(** [_run] from the parsed [item_pricing_json] on; the value returned is
    the one handed to [json.dumps]. *)
Definition _run (strategy_data : json) : res json :=
  approved <- py_get strategy_data "approved_for_quote" (JBool false) ;;
  match strategy_data with
  | JObj data =>
      if negb (truthy approved) then
        let reason :=
          get_or data "status" (JStr "Item not available for quoting.") in
        Ok (JObj
              [ ("risk_level", JStr "Low");
                ("summary",
                 JStr ("Item '"
                       ++ py_str (get_or data "product_name" (JStr "Unknown"))
                       ++ "' poses no pricing risk as it is not being quoted. Reason: "
                       ++ py_str reason)) ])
      else
        let adjustment :=
          get_or data "net_price_adjustment_percentage" (JInt 0) in
        exceeds <-
          (if is_none adjustment then Ok false
           else py_lt_float adjustment (fopp max_allowed_discount)) ;;
        let high_risk_flags :=
          if exceeds then [discount_flag data adjustment] else [] in
        reasons <- py_iter (get_or data "reasoning_breakdown" (JArr [])) ;;
        capped <- capped_flags data reasons ;;
        let high_risk_flags := (high_risk_flags ++ capped)%list in
        match high_risk_flags with
        | [] =>
            Ok (JObj
                  [ ("risk_level", JStr "Low");
                    ("summary",
                     JStr ("Item '"
                           ++ py_str (get_or data "product_name" JNull)
                           ++ "' passed all checks.")) ])
        | _ :: _ =>
            Ok (JObj
                  [ ("risk_level", JStr "High");
                    ("summary", JStr "High risk detected.");
                    ("reasons", JArr (map JStr high_risk_flags)) ])
        end
  | _ => Raise AttributeError
  end.
End Run.

End RiskAssessmentTool.

(** ** [tools/price_calculating_tool.py] *)

Module PricingCalculatorTool.

Section Run.
Context {host : Host}.

Definition skipped : json :=
  JObj [("error",
         JStr "Skipping item due to missing 'product_json' or 'quantity'.")].

Definition failed (name : json) (e : exn) : json :=
  JObj [("error",
         JStr ("Failed to process item " ++ py_str name
               ++ ". Details: " ++ exn_text e))].

(** One turn of the loop: the entry appended to [all_results], or the
    exception that leaves the loop. *)
Definition process_item (month : Z) (item : json) : res json :=
  product_data <- py_get item "product_json" JNull ;;
  quantity <- py_get item "quantity" JNull ;;
  if negb (truthy product_data) || is_none quantity then Ok skipped
  else
    match (q <- py_int quantity ;;
           PricingRulesEngine.calculate month product_data q) with
    | Ok pricing_result => Ok pricing_result
    | Raise e =>
        name <- py_get product_data "Product_Name" (JStr "Unknown") ;;
        Ok (failed name e)
    end.

Fixpoint process_items (month : Z) (line_items : list json)
    : res (list json) :=
  match line_items with
  | [] => Ok []
  | item :: rest =>
      entry <- process_item month item ;;
      entries <- process_items month rest ;;
      Ok (entry :: entries)
  end.

(** [_run] from the parsed [line_items_json] on; the value returned is
    the one handed to [json.dumps]. *)
Definition _run (month : Z) (line_items : json) : res json :=
  match line_items with
  | JArr items =>
      all_results <- process_items month items ;;
      Ok (JArr all_results)
  | _ =>
      Ok (JObj [("error", JStr "Input must be a JSON array of line items.")])
  end.
End Run.

End PricingCalculatorTool.

(** ** Reading results, calling twice, and inputs used below *)

(** [out[key]] of a result dict. *)
Definition field (out : json) (key : string) : option json :=
  match out with
  | JObj o => dict_get o key
  | _ => None
  end.

(** Two calls of [calculate] in a row on the caller's product dict.  The
    engine keeps a reference to that dict, so the second call starts from
    the dict as the first call left it. *)
Definition calculate_twice {host : Host} (month : Z) (product : json)
    (quantity : Z) : res (json * json) :=
  self1 <- PricingRulesEngine.__init__ product quantity ;;
  first <- PricingRulesEngine.calculate_price month self1 ;;
  self2 <- PricingRulesEngine.__init__
             (JObj (PricingRulesEngine.product (snd first))) quantity ;;
  second <- PricingRulesEngine.calculate_price month self2 ;;
  Ok (fst first, fst second).

(** A host that reads no number from text and writes nothing: enough to
    run the model where none of the four conversions is reached. *)
Definition bare_host : Host :=
  {| float_of_str := fun _ => None;
     int_of_str := fun _ => None;
     repr := fun _ => "";
     exn_text := fun _ => "" |}.

(** Scenario 1 of the specification. *)
Definition scenario_1 : dict :=
  [ ("Product_Name", JStr "Widget");
    ("Min_Selling_Price_Rs", JInt 100);
    ("Quantity_in_Stock", JInt 50);
    ("Reorder_Level", JInt 10);
    ("Stock_Status", JStr "In Stock") ].

(** A record whose price is null, as [to_json] writes a missing cell. *)
Definition null_price : dict :=
  [ ("Product_Name", JStr "Widget");
    ("Quantity_in_Stock", JInt 10);
    ("Stock_Status", JStr "In Stock");
    ("Min_Selling_Price_Rs", JNull) ].

(** A record priced 1000 with stock 70 and reorder level 30. *)
Definition thirds : dict :=
  [ ("Product_Name", JStr "Widget");
    ("Min_Selling_Price_Rs", JInt 1000);
    ("Quantity_in_Stock", JInt 70);
    ("Reorder_Level", JInt 30);
    ("Stock_Status", JStr "In Stock") ].

(** A record without [Reorder_Level]. *)
Definition no_reorder : dict :=
  [ ("Product_Name", JStr "Widget");
    ("Min_Selling_Price_Rs", JInt 100);
    ("Quantity_in_Stock", JInt 50);
    ("Stock_Status", JStr "In Stock") ].

(** Scenario 1 with stock 70, and with reorder level 0. *)
Definition restocked : dict :=
  [ ("Product_Name", JStr "Widget");
    ("Min_Selling_Price_Rs", JInt 100);
    ("Quantity_in_Stock", JInt 70);
    ("Reorder_Level", JInt 10);
    ("Stock_Status", JStr "In Stock") ].

Definition unordered : dict :=
  [ ("Product_Name", JStr "Widget");
    ("Min_Selling_Price_Rs", JInt 100);
    ("Quantity_in_Stock", JInt 50);
    ("Reorder_Level", JInt 0);
    ("Stock_Status", JStr "In Stock") ].

(** A priced line item discounted by 30 per cent. *)
Definition deep_discount : dict :=
  [ ("product_name", JStr "Widget");
    ("quantity_requested", JInt 30);
    ("approved_for_quote", JBool true);
    ("net_price_adjustment_percentage", JFloat (of_Z (-30)));
    ("reasoning_breakdown",
     JArr [JStr "Bulk Order Discount: For ordering 30 units (25+)."]);
    ("status", JStr "Available") ].

(** A priced line item discounted by 5 per cent, one of whose reasons
    mentions a cap. *)
Definition capped_item : dict :=
  [ ("product_name", JStr "Widget");
    ("quantity_requested", JInt 30);
    ("approved_for_quote", JBool true);
    ("net_price_adjustment_percentage", JFloat (of_Z (-5)));
    ("reasoning_breakdown",
     JArr [JStr "Loyalty Discount: Capped at 5 percent."]);
    ("status", JStr "Available") ].

(** A record without [Reorder_Level] whose stock is [2^1025]. *)
Definition overstocked : dict :=
  [ ("Product_Name", JStr "Widget");
    ("Min_Selling_Price_Rs", JInt 100);
    ("Quantity_in_Stock", JInt (2 ^ 1025));
    ("Stock_Status", JStr "In Stock") ].

(** A record tagged with the value-based pricing factor. *)
Definition valued : dict :=
  [ ("Product_Name", JStr "Widget");
    ("Min_Selling_Price_Rs", JInt 100);
    ("Quantity_in_Stock", JInt 50);
    ("Reorder_Level", JInt 10);
    ("Stock_Status", JStr "In Stock");
    ("Factor_1", JStr "Purchasing Power");
    ("Factor_2", JStr "Age") ].

(** ** Predicates of the statements *)

Import PricingRulesEngine.

Definition approved (out : json) : Prop :=
  field out "approved_for_quote" = Some (JBool true).

(** A number that is a float or the int [0]: what the engine stores as the
    value of an adjustment. *)
Definition tame (n : num) : Prop :=
  match n with
  | NFloat _ => True
  | NInt z => z = 0
  end.

(** The prices of [out] are those computed from the adjustments of [self']
    at full precision, each rounded once. *)
Definition rounded_at_output (self : engine) (out : json) (self' : engine)
    : Prop :=
  exists net fraction factor unit_price total,
    total_adjustment (NInt 0) (adjustments self') = Ok net
    /\ num_truediv net (NInt 100) = Ok fraction
    /\ num_add (NInt 1) fraction = Ok factor
    /\ num_mul (NFloat (base_price self)) factor = Ok unit_price
    /\ num_mul unit_price (NInt (quantity self)) = Ok total
    /\ field out "base_single_unit_price"
       = Some (JFloat (round2 (base_price self)))
    /\ field out "net_price_adjustment_percentage"
       = Some (json_of_num (py_round2 net))
    /\ field out "final_single_unit_price"
       = Some (json_of_num (py_round2 unit_price))
    /\ field out "total_price" = Some (json_of_num (py_round2 total)).

(** The inventory discount for stock [s] is first in the trail of [self'],
    with value [0] and the override's reason; the net percentage of [out]
    is that of the other adjustments; neither reason is in the reasoning
    of [out]. *)
Definition neutralized {host : Host} (s : Z) (out : json) (self' : engine)
    : Prop :=
  exists rest net,
    adjustments self'
    = {| type := discount; value := NInt 0; reason := override_reason |}
      :: rest
    /\ total_adjustment (NInt 0) (adjustments self')
       = total_adjustment (NInt 0) rest
    /\ total_adjustment (NInt 0) rest = Ok net
    /\ field out "net_price_adjustment_percentage"
       = Some (json_of_num (py_round2 net))
    /\ field out "reasoning_breakdown"
       = Some (JArr (map JStr (reasoning_breakdown rest)))
    /\ ~ In (inventory_reason (JInt s)) (reasoning_breakdown rest)
    /\ ~ In override_reason (reasoning_breakdown rest).

(** What a rule other than the inventory one appends: the reason starts
    with [B], [I] or [T] and the value is a float. *)
Definition appended (adj : adjustment) : Prop :=
  (get 0 (reason adj) = Some "B"%char
   \/ get 0 (reason adj) = Some "I"%char
   \/ get 0 (reason adj) = Some "T"%char)
  /\ tame (value adj).

(** A batch entry that is a dict whose [product_json] is absent, falsy or
    a dict. *)
Definition record_entry (item : json) : Prop :=
  exists o,
    item = JObj o
    /\ (truthy (get_or o "product_json" JNull) = false
        \/ exists p, get_or o "product_json" JNull = JObj p).

(** An approved priced line item: its net percentage is the number [net]
    and its reasoning the strings [reasons]. *)
Definition priced_item (data : dict) (net : num) (reasons : list string)
    : Prop :=
  truthy (get_or data "approved_for_quote" (JBool false)) = true
  /\ get_or data "net_price_adjustment_percentage" (JInt 0) = json_of_num net
  /\ get_or data "reasoning_breakdown" (JArr []) = JArr (map JStr reasons).

(** The value of the inventory discount for an int stock [s] and an int
    reorder level [r]. *)
Definition inventory_discount (s r : Z) : res float :=
  ratio <- int_truediv s (2 * r) ;;
  Ok (fmul (fmin (fmul ratio (of_dec false 5 100)) (of_dec false 20 100))
           (of_Z 100)).


(** ** [utils/cache.py] *)

(** [a <= b] on numbers. *)
Definition num_leb (a b : num) : bool :=
  match num_compare a b with Some (Lt | Eq) => true | _ => false end.

Module MemoryCache.

(** An entry of [self.cache]: the dict with keys ['value'], ['expires_at']
    and ['created_at']. *)
Record entry := {
  value : json;
  expires_at : num;
  created_at : float
}.

(** The attributes of a cache object.  [cache] is the dict of its
    entries, kept as the list of its items in insertion order. *)
Record memory := {
  cache : list (string * entry);
  default_ttl : Z
}.

Definition with_cache (self : memory) (c : list (string * entry)) : memory :=
  {| cache := c; default_ttl := default_ttl self |}.

(** [self.cache[key]] when [key in self.cache]. *)
Fixpoint lookup (c : list (string * entry)) (key : string) : option entry :=
  match c with
  | [] => None
  | (k, e) :: rest => if String.eqb k key then Some e else lookup rest key
  end.

(** [self.cache[key] = e]: the item of [key] is replaced where it is, a
    new key is added at the end. *)
Fixpoint assign (c : list (string * entry)) (key : string) (e : entry)
    : list (string * entry) :=
  match c with
  | [] => [(key, e)]
  | (k, v) :: rest =>
      if String.eqb k key then (k, e) :: rest else (k, v) :: assign rest key e
  end.

(** [del self.cache[key]]. *)
Definition remove (c : list (string * entry)) (key : string)
    : list (string * entry) :=
  filter (fun kv => negb (String.eqb (fst kv) key)) c.

(** [MemoryCache(default_ttl)]; the default of the argument is [3600]. *)
Definition __init__ (default_ttl : Z) : memory :=
  {| cache := []; default_ttl := default_ttl |}.

(** [set(key, value, ttl)].  [now] and [now'] are the two readings of
    [time.time()], in the order the dict display takes them.  The lines
    written to the log are left out, here and below. *)
Definition set (now now' : float) (self : memory) (key : string)
    (value : json) (ttl : option Z) : res memory :=
  let ttl :=
    match ttl with
    | Some z => if z =? 0 then default_ttl self else z
    | None => default_ttl self
    end in
  expires_at <- num_add (NFloat now) (NInt ttl) ;;
  Ok (with_cache self
        (assign (cache self) key
           {| value := value; expires_at := expires_at;
              created_at := now' |})).

(** [get(key)]: the value returned ([None] is [JNull]) and the cache as
    the call leaves it.  [now] is the reading of [time.time()], taken
    when the key is there. *)
Definition get (now : float) (self : memory) (key : string)
    : json * memory :=
  match lookup (cache self) key with
  | None => (JNull, self)
  | Some entry =>
      if num_gtb (NFloat now) (expires_at entry)
      then (JNull, with_cache self (remove (cache self) key))
      else (value entry, self)
  end.

Definition delete (self : memory) (key : string) : bool * memory :=
  match lookup (cache self) key with
  | Some _ => (true, with_cache self (remove (cache self) key))
  | None => (false, self)
  end.

Definition clear (self : memory) : memory := with_cache self [].

Definition expired (current_time : float) (kv : string * entry) : bool :=
  num_gtb (NFloat current_time) (expires_at (snd kv)).

Definition active (current_time : float) (kv : string * entry) : bool :=
  num_leb (NFloat current_time) (expires_at (snd kv)).

Definition cleanup_expired (current_time : float) (self : memory)
    : Z * memory :=
  let expired_keys := map fst (filter (expired current_time) (cache self)) in
  (Z.of_nat (List.length expired_keys),
   with_cache self (fold_left remove expired_keys (cache self))).

Definition get_stats (current_time : float) (self : memory) : json :=
  let total_entries := Z.of_nat (List.length (cache self)) in
  let active_entries :=
    Z.of_nat (List.length (filter (active current_time) (cache self))) in
  JObj [ ("total_entries", JInt total_entries);
         ("active_entries", JInt active_entries);
         ("expired_entries", JInt (total_entries - active_entries)) ].

(** The [wrapper] that [cached(ttl, key_prefix)] puts around [func], for
    one call.  [cache] is the global cache instance, [cache_key] the key
    the call computes from its arguments, [func] the call of the wrapped
    function on them: it may change the rest of the program state [w],
    return a value or raise.  [now0] is the clock reading of [get] and
    [now1], [now2] those of [set]. *)
Definition wrapper {W : Type} (ttl : Z) (func : W -> res (json * W))
    (cache_key : string) (now0 now1 now2 : float)
    (cache : memory) (w : W) : res (json * (memory * W)) :=
  let hit := get now0 cache cache_key in
  if negb (is_none (fst hit)) then Ok (fst hit, (snd hit, w))
  else
    call <- func w ;;
    cache' <- set now1 now2 (snd hit) cache_key (fst call) (Some ttl) ;;
    Ok (fst call, (cache', snd call)).

End MemoryCache.

(** ** More predicates of the statements *)

(** A finite float or the int [0], with its value in units of [2^-1074]
    between [lo] and [hi]. *)
Definition bounded (lo hi : Z) (n : num) : Prop :=
  match n with
  | NInt z => z = 0 /\ lo <= 0 <= hi
  | NFloat (Ffin s u) => 0 <= u /\ lo <= sv s u <= hi
  | NFloat _ => False
  end.

(** A number of units that is a float as it stands. *)
Definition representable (z : Z) : Prop :=
  round_units (Z.abs z) 1 = Z.abs z /\ Z.abs z < huge.

(** A number of units that [round(x, 2)] leaves as it is. *)
Definition kept_by_round2 (z : Z) : Prop :=
  round_units (rne (100 * Z.abs z) one_u * one_u) 100 = Z.abs z
  /\ Z.abs z < huge.

(** At most one adjustment, of type [ty] and with a value between [0] and
    [hi] units. *)
Definition slot (ty : adj_type) (hi : Z) (l : list adjustment) : Prop :=
  l = [] \/ exists adj, l = [adj] /\ type adj = ty /\ bounded 0 hi (value adj).

(** [c] does not occur in [s]. *)
Definition lacks (c : ascii) (s : string) : bool :=
  forallb (fun x => negb (Ascii.eqb x c)) (list_ascii_of_string s).

(** An int that [str] converts: one of at most 4300 digits. *)
Definition printable (z : Z) : Prop := Z.abs z < 10 ^ 4300.

(** The three factors of a record are values that [str] converts: absent,
    or a str, a float, a bool, null or a printable int. *)
Definition plain_factors (o : dict) : Prop :=
  Forall (fun key =>
            match get_or o key (JStr "") with
            | JInt z => printable z
            | JArr _ | JObj _ => False
            | _ => True
            end)
    ["Factor_1"; "Factor_2"; "Factor_3"].

(** A typed record, as the inventory sheet has them: every required field is
    there, the stock is the int [s], the reorder level the int [r] or absent
    with [r = 1], and [float] reads the price as [p]. *)
Definition typed_record {host : Host} (o : dict) (s r : Z) (p : float)
    : Prop :=
  missing_keys o = []
  /\ get_or o "Quantity_in_Stock" JNull = JInt s
  /\ get_or o "Reorder_Level" (JInt 1) = JInt r
  /\ py_float (get_or o "Min_Selling_Price_Rs" (JInt 0)) = Ok p.

(** The dict keys are distinct and no expiry time is a NaN: what holds of
    a cache built by its methods from clock readings that are numbers. *)
Definition well_formed (self : MemoryCache.memory) : Prop :=
  NoDup (map fst (MemoryCache.cache self))
  /\ Forall (fun kv =>
               num_compare (MemoryCache.expires_at (snd kv))
                 (MemoryCache.expires_at (snd kv)) = Some Eq)
       (MemoryCache.cache self).

(** Inputs used below: records that are out of stock, seasonal, with a
    negative reorder level, and with nothing but a name; a cache that
    holds one entry. *)
Definition sold_out : dict :=
  [ ("Product_Name", JStr "Widget");
    ("Min_Selling_Price_Rs", JInt 100);
    ("Quantity_in_Stock", JStr "n/a");
    ("Stock_Status", JStr "Out of Stock") ].

Definition seasonal : dict :=
  [ ("Product_Name", JStr "Kite");
    ("Min_Selling_Price_Rs", JInt 100);
    ("Quantity_in_Stock", JInt 50);
    ("Reorder_Level", JInt 10);
    ("Stock_Status", JStr "In Stock");
    ("Category", JStr "Toys & Games");
    ("Factor_1", JStr "Weather & Seasons");
    ("Factor_2", JStr "Age") ].

Definition backordered : dict :=
  [ ("Product_Name", JStr "Widget");
    ("Min_Selling_Price_Rs", JInt 100);
    ("Quantity_in_Stock", JInt 50);
    ("Reorder_Level", JInt (-5));
    ("Stock_Status", JStr "In Stock") ].
Definition draft : dict := [ ("Product_Name", JStr "Widget") ].

Definition one_entry : MemoryCache.memory :=
  {| MemoryCache.cache :=
       [ ("dates",
          {| MemoryCache.value := JStr "2026-01-01";
             MemoryCache.expires_at := NFloat (of_Z 160);
             MemoryCache.created_at := of_Z 100 |}) ];
     MemoryCache.default_ttl := 3600 |}.

(** * Properties *)

(** ** Rounding to nearest is monotone *)

Lemma rne_bounds n d : 0 < d -> n / d <= rne n d <= n / d + 1.
Proof.
  intros Hd. unfold rne.
  destruct (2 * (n mod d) ?= d); [destruct (Z.even (n / d))|..]; lia.
Qed.

Lemma rne_exact k d : 0 < d -> rne (k * d) d = k.
Proof.
  intros Hd. unfold rne.
  rewrite Z.mod_mul, Z.div_mul by lia.
  destruct (Z.compare_spec (2 * 0) d); lia.
Qed.

Lemma rne_mono n1 n2 d : 0 < d -> n1 <= n2 -> rne n1 d <= rne n2 d.
Proof.
  intros Hd Hn.
  assert (Hq : n1 / d <= n2 / d) by (apply Z.div_le_mono; lia).
  destruct (Z.eq_dec (n1 / d) (n2 / d)) as [E|NE].
  - assert (Hr : n1 mod d <= n2 mod d).
    { rewrite !Z.mod_eq by lia. rewrite E. lia. }
    unfold rne. rewrite E.
    destruct (Z.compare_spec (2 * (n1 mod d)) d);
      destruct (Z.compare_spec (2 * (n2 mod d)) d);
      destruct (Z.even (n2 / d)); lia.
  - pose proof (rne_bounds n1 d Hd). pose proof (rne_bounds n2 d Hd). lia.
Qed.

Lemma quantum_nonneg n d : 0 <= quantum n d.
Proof. unfold quantum. lia. Qed.

Lemma quantum_mono n1 n2 d :
  0 < d -> 0 <= n1 <= n2 -> quantum n1 d <= quantum n2 d.
Proof.
  intros Hd Hn. unfold quantum.
  assert (n1 / d <= n2 / d) by (apply Z.div_le_mono; lia).
  assert (Z.log2 (n1 / d) <= Z.log2 (n2 / d)) by (apply Z.log2_le_mono; lia).
  lia.
Qed.

Lemma round_units_eq n d :
  round_units n d = rne n (d * 2 ^ quantum n d) * 2 ^ quantum n d.
Proof.
  unfold round_units. pose proof (quantum_nonneg n d).
  rewrite !Z.shiftl_mul_pow2 by lia. reflexivity.
Qed.

(** Below the top of its binade: [n / d < 2^(53+j)] gives at most [2^53] steps. *)
Lemma round_units_upper n d :
  0 < d -> 0 <= n -> round_units n d <= 2 ^ (53 + quantum n d).
Proof.
  intros Hd Hn. rewrite round_units_eq.
  assert (Hlog : Z.log2 (n / d) < 53 + quantum n d) by (unfold quantum; lia).
  set (j := quantum n d) in *. assert (Hj : 0 <= j) by apply quantum_nonneg.
  assert (Hlt : n / d < 2 ^ (53 + j)).
  { destruct (Z.eq_dec (n / d) 0) as [E|NE].
    - rewrite E. apply Z.pow_pos_nonneg; lia.
    - assert (0 < n / d) by (pose proof (Z.div_pos n d); lia).
      apply Z.log2_lt_pow2; lia. }
  assert (Hp : 0 < 2 ^ j) by (apply Z.pow_pos_nonneg; lia).
  assert (Hq : n / (d * 2 ^ j) < 2 ^ 53).
  { rewrite <- Z.div_div by lia.
    apply Z.div_lt_upper_bound; [lia|].
    rewrite <- Z.pow_add_r by lia. rewrite Z.add_comm. exact Hlt. }
  pose proof (rne_bounds n (d * 2 ^ j) ltac:(lia)).
  rewrite Z.pow_add_r by lia.
  apply Z.mul_le_mono_nonneg_r; lia.
Qed.

Lemma round_units_lower n d :
  0 < d -> 0 <= n -> 0 < quantum n d -> 2 ^ (52 + quantum n d) <= round_units n d.
Proof.
  intros Hd Hn Hj0. rewrite round_units_eq.
  assert (Hlog : 52 + quantum n d <= Z.log2 (n / d)) by (unfold quantum in *; lia).
  set (j := quantum n d) in *.
  assert (Hpos : 0 < n / d).
  { destruct (Z.eq_dec (n / d) 0) as [E|NE].
    - rewrite E in Hlog. change (Z.log2 0) with 0 in Hlog. lia.
    - pose proof (Z.div_pos n d); lia. }
  assert (Hge : 2 ^ (52 + j) <= n / d) by (apply Z.log2_le_pow2; lia).
  assert (Hp : 0 < 2 ^ j) by (apply Z.pow_pos_nonneg; lia).
  assert (Hq : 2 ^ 52 <= n / (d * 2 ^ j)).
  { rewrite <- Z.div_div by lia.
    apply Z.div_le_lower_bound; [lia|].
    rewrite <- Z.pow_add_r by lia. rewrite Z.add_comm. exact Hge. }
  pose proof (rne_bounds n (d * 2 ^ j) ltac:(lia)).
  rewrite Z.pow_add_r by lia.
  apply Z.mul_le_mono_nonneg_r; lia.
Qed.

Lemma round_units_mono n1 n2 d :
  0 < d -> 0 <= n1 <= n2 -> round_units n1 d <= round_units n2 d.
Proof.
  intros Hd Hn.
  pose proof (quantum_mono n1 n2 d Hd Hn) as Hj.
  destruct (Z.eq_dec (quantum n1 d) (quantum n2 d)) as [E|NE].
  - rewrite !round_units_eq, E.
    pose proof (quantum_nonneg n2 d).
    assert (0 < 2 ^ quantum n2 d) by (apply Z.pow_pos_nonneg; lia).
    apply Z.mul_le_mono_nonneg_r; [lia|].
    apply rne_mono; lia.
  - pose proof (quantum_nonneg n1 d).
    pose proof (round_units_upper n1 d Hd ltac:(lia)).
    pose proof (round_units_lower n2 d Hd ltac:(lia) ltac:(lia)).
    assert (2 ^ (53 + quantum n1 d) <= 2 ^ (52 + quantum n2 d))
      by (apply Z.pow_le_mono_r; lia).
    lia.
Qed.

Lemma round_units_pow2 d k : 0 < d -> 0 <= k -> round_units (d * 2 ^ k) d = 2 ^ k.
Proof.
  intros Hd Hk. rewrite round_units_eq.
  assert (Hp : 0 < 2 ^ k) by (apply Z.pow_pos_nonneg; lia).
  assert (Hdiv : d * 2 ^ k / d = 2 ^ k) by (rewrite Z.mul_comm; apply Z.div_mul; lia).
  unfold quantum. rewrite Hdiv, Z.log2_pow2 by lia.
  set (j := Z.max 0 (k - 52)).
  assert (Hj : 0 <= j <= k) by lia.
  replace (d * 2 ^ k) with (2 ^ (k - j) * (d * 2 ^ j)).
  2:{ replace k with ((k - j) + j) at 2 by lia. rewrite Z.pow_add_r by lia. ring. }
  assert (0 < 2 ^ j) by (apply Z.pow_pos_nonneg; lia).
  rewrite rne_exact by lia.
  rewrite <- Z.pow_add_r by lia. f_equal. lia.
Qed.

Lemma one_u_eq : one_u = 2 ^ 1074.
Proof. unfold one_u. apply Z.shiftl_1_l. Qed.

Lemma huge_eq : huge = 2 ^ 2098.
Proof. unfold huge. apply Z.shiftl_1_l. Qed.

Lemma one_u_pos : 0 < one_u.
Proof. rewrite one_u_eq. apply Z.pow_pos_nonneg; lia. Qed.

#[local] Opaque one_u huge.

Lemma round_units_nonneg n d : 0 < d -> 0 <= n -> 0 <= round_units n d.
Proof.
  intros Hd Hn. rewrite round_units_eq.
  pose proof (quantum_nonneg n d).
  assert (0 < 2 ^ quantum n d) by (apply Z.pow_pos_nonneg; lia).
  assert (0 < d * 2 ^ quantum n d) by lia.
  pose proof (rne_bounds n _ H1).
  assert (0 <= n / (d * 2 ^ quantum n d)) by (apply Z.div_pos; lia).
  apply Z.mul_nonneg_nonneg; lia.
Qed.

Lemma round_units_le_pow2 n d k :
  0 < d -> 0 <= k -> 0 <= n <= d * 2 ^ k -> round_units n d <= 2 ^ k.
Proof.
  intros Hd Hk Hn. rewrite <- (round_units_pow2 d k Hd Hk).
  apply round_units_mono; lia.
Qed.

Lemma of_ratio_nonneg n d : 0 < d -> 0 <= n -> nonneg (of_ratio false n d).
Proof.
  intros Hd Hn. unfold of_ratio.
  destruct (round_units n d <? huge); simpl; [apply round_units_nonneg|]; auto.
Qed.

Lemma of_ratio_mono n1 n2 d :
  0 < d -> 0 <= n1 <= n2 ->
  fleb (of_ratio false n1 d) (of_ratio false n2 d) = true.
Proof.
  intros Hd Hn. pose proof (round_units_mono n1 n2 d Hd Hn) as Hr.
  unfold of_ratio.
  destruct (Z.ltb_spec (round_units n1 d) huge);
    destruct (Z.ltb_spec (round_units n2 d) huge);
    unfold fleb, fcompare, sv; simpl; try reflexivity; try lia.
  destruct (Z.compare_spec (round_units n1 d) (round_units n2 d));
    try reflexivity; lia.
Qed.

Lemma fleb_fin u v : fleb (Ffin false u) (Ffin false v) = (u <=? v).
Proof.
  unfold fleb, fcompare, sv.
  destruct (Z.compare_spec u v); destruct (Z.leb_spec u v); try reflexivity; lia.
Qed.

Lemma fltb_fin u v : fltb (Ffin false u) (Ffin false v) = (u <? v).
Proof.
  unfold fltb, fcompare, sv.
  destruct (Z.compare_spec u v); destruct (Z.ltb_spec u v); try reflexivity; lia.
Qed.

Lemma fmul_mono_l a b uc :
  nonneg a -> nonneg b -> 0 < uc -> fleb a b = true ->
  fleb (fmul a (Ffin false uc)) (fmul b (Ffin false uc)) = true.
Proof.
  intros Ha Hb Hc Hab. pose proof one_u_pos.
  destruct a as [|[]|[] u], b as [|[]|[] v]; simpl in Ha, Hb; try contradiction;
    try discriminate Hab.
  - simpl. destruct (Z.eqb_spec uc 0); [lia|]. reflexivity.
  - simpl. destruct (Z.eqb_spec uc 0); [lia|].
    unfold of_ratio. destruct (_ <? huge); reflexivity.
  - rewrite fleb_fin in Hab. apply Z.leb_le in Hab. simpl.
    apply of_ratio_mono; [assumption|]. split; [lia|].
    apply Z.mul_le_mono_nonneg_r; lia.
Qed.

Lemma fmul_nonneg a uc : nonneg a -> 0 < uc -> nonneg (fmul a (Ffin false uc)).
Proof.
  intros Ha Hc. pose proof one_u_pos.
  destruct a as [|[]|[] u]; simpl in Ha; try contradiction; simpl.
  - destruct (Z.eqb_spec uc 0); [lia|]. exact I.
  - apply of_ratio_nonneg; [assumption|]. apply Z.mul_nonneg_nonneg; lia.
Qed.

Lemma fmin_nonneg y uc : nonneg y -> 0 <= uc -> nonneg (fmin y (Ffin false uc)).
Proof.
  intros Hy Hc. unfold fmin. destruct (fltb _ y); simpl; auto.
Qed.

Lemma fmin_le_cap y uc :
  nonneg y -> fleb (fmin y (Ffin false uc)) (Ffin false uc) = true.
Proof.
  intros Hy. unfold fmin.
  destruct y as [|[]|[] u]; simpl in Hy; try contradiction.
  - change (fltb (Ffin false uc) (Finf false)) with true. cbv iota.
    rewrite fleb_fin. apply Z.leb_refl.
  - rewrite fltb_fin. destruct (Z.ltb_spec uc u); rewrite fleb_fin; apply Z.leb_le; lia.
Qed.

Lemma fmin_mono y1 y2 uc :
  nonneg y1 -> nonneg y2 -> fleb y1 y2 = true ->
  fleb (fmin y1 (Ffin false uc)) (fmin y2 (Ffin false uc)) = true.
Proof.
  intros H1 H2 H12. unfold fmin.
  destruct y1 as [|[]|[] u], y2 as [|[]|[] v]; simpl in H1, H2; try contradiction;
    try discriminate H12.
  - change (fltb (Ffin false uc) (Finf false)) with true. cbv iota.
    rewrite fleb_fin. apply Z.leb_refl.
  - rewrite fltb_fin. change (fltb (Ffin false uc) (Finf false)) with true.
    destruct (Z.ltb_spec uc u); rewrite fleb_fin; apply Z.leb_le; lia.
  - rewrite fleb_fin in H12. apply Z.leb_le in H12. rewrite !fltb_fin.
    destruct (Z.ltb_spec uc u); destruct (Z.ltb_spec uc v);
      rewrite fleb_fin; apply Z.leb_le; lia.
Qed.

(** ** Agreement with the Standard Library's binary64 *)

(** The literals of the source are the doubles Python reads: [0.05] is
    [0x1.999999999999ap-5], [0.20] is [0x1.999999999999ap-3]. *)
Example literals_are_doubles :
  to_spec (of_dec false 5 100) = S754_finite false 7205759403792794 (-57)
  /\ to_spec (of_dec false 20 100) = S754_finite false 7205759403792794 (-55)
  /\ to_spec (of_dec false 75 10) = S754_finite false 8444249301319680 (-50)
  /\ to_spec (of_Z 100) = S754_finite false 7036874417766400 (-46).
Proof. repeat (split; [vm_compute; reflexivity|]). vm_compute. reflexivity. Qed.

(** The operations agree with [SFmul], [SFadd], [SFsub] and [SFdiv] at
    precision 53 and maximal exponent 1024 on the values of scenario 1 and
    on a subnormal, a tie and an overflow. *)
Example operations_agree :
  let c005 := of_dec false 5 100 in
  let c100 := of_Z 100 in
  let third := of_dec true 1 3 in
  let tiny := Ffin false 3 in
  let big := of_Z (10 ^ 300) in
  to_spec (fmul (of_dec false 25 10) c005)
  = SFmul 53 1024 (to_spec (of_dec false 25 10)) (to_spec c005)
  /\ to_spec (fmul third tiny) = SFmul 53 1024 (to_spec third) (to_spec tiny)
  /\ to_spec (fmul big big) = SFmul 53 1024 (to_spec big) (to_spec big)
  /\ to_spec (fdiv (of_Z (-20)) c100)
     = SFdiv 53 1024 (to_spec (of_Z (-20))) (to_spec c100)
  /\ to_spec (fdiv tiny c100) = SFdiv 53 1024 (to_spec tiny) (to_spec c100)
  /\ to_spec (fadd (of_Z 1) (of_dec true 20 100))
     = SFadd 53 1024 (to_spec (of_Z 1)) (to_spec (of_dec true 20 100))
  /\ to_spec (fadd (of_Z (2 ^ 53)) (of_Z 1))
     = SFadd 53 1024 (to_spec (of_Z (2 ^ 53))) (to_spec (of_Z 1))
  /\ to_spec (fsub (of_Z 0) (of_dec false 125 10))
     = SFsub 53 1024 (to_spec (of_Z 0)) (to_spec (of_dec false 125 10))
  /\ to_spec (fsub third third) = SFsub 53 1024 (to_spec third) (to_spec third)
  /\ option_map to_spec
       (match int_truediv 7 3 with Ok f => Some f | Raise _ => None end)
     = Some (SFdiv 53 1024 (S754_finite false 7 0) (S754_finite false 3 0)).
Proof.
  cbv zeta. repeat (split; [vm_compute; reflexivity|]). vm_compute. reflexivity.
Qed.

(** [round(x, 2)] on the documented cases: [2.675] is below the tie and
    rounds to [2.67]; [0.125] is a tie and rounds to the even [0.12]. *)
Example round2_cases :
  round2 (of_dec false 2675 1000) = of_dec false 267 100
  /\ round2 (of_dec false 125 1000) = of_dec false 12 100
  /\ round2 (of_dec false 375 1000) = of_dec false 38 100
  /\ round2 (of_dec true 1 1000) = Ffin true 0.
Proof. repeat (split; [vm_compute; reflexivity|]). vm_compute. reflexivity. Qed.

(** ** Numbers, strings and dicts *)

Arguments of_ratio : simpl never.
Arguments of_Z : simpl never.
Arguments of_dec : simpl never.
Arguments round2 : simpl never.
Arguments fmul : simpl never.
Arguments fadd : simpl never.
Arguments fdiv : simpl never.
Arguments fcompare : simpl never.
Arguments zcompare : simpl never.
Arguments float_of_int : simpl never.
Arguments int_truediv : simpl never.
Arguments num_arith : simpl never.
Arguments num_truediv : simpl never.
Arguments num_compare : simpl never.
Arguments py_round2 : simpl never.
Arguments dec : simpl never.

Lemma bind_ok {A B : Type} (m : res A) (k : A -> res B) (b : B) :
  bind m k = Ok b -> exists a, m = Ok a /\ k a = Ok b.
Proof. destruct m as [a|e]; simpl; [eauto | discriminate]. Qed.

Ltac inv_bind H :=
  let a := fresh "a" in
  let Ha := fresh "Ha" in
  apply bind_ok in H; destruct H as (a & Ha & H).

Ltac inv_bind_as H a Ha :=
  apply bind_ok in H; destruct H as (a & Ha & H).

Lemma float_of_int_100 : float_of_int 100 = Ok (of_Z 100).
Proof. vm_compute. reflexivity. Qed.

Lemma float_of_int_0 : float_of_int 0 = Ok (Ffin false 0).
Proof. vm_compute. reflexivity. Qed.

Lemma float_of_int_1 : float_of_int 1 = Ok (of_Z 1).
Proof. vm_compute. reflexivity. Qed.

Lemma py_min_floats y c : py_min (NFloat y) (NFloat c) = NFloat (fmin y c).
Proof.
  unfold py_min, num_ltb, num_compare, fmin, fltb.
  destruct (fcompare c y) as [[]|]; reflexivity.
Qed.

Lemma num_mul_floats a b : num_mul (NFloat a) (NFloat b) = Ok (NFloat (fmul a b)).
Proof. reflexivity. Qed.

Lemma num_mul_float_100 a :
  num_mul (NFloat a) (NInt 100) = Ok (NFloat (fmul a (of_Z 100))).
Proof.
  unfold num_mul, num_arith, to_float. rewrite float_of_int_100. reflexivity.
Qed.

Lemma py_times_int n r : py_times n (JInt r) = Ok (JInt (n * r)).
Proof. reflexivity. Qed.

Lemma py_gt_ints a b : py_gt (JInt a) (JInt b) = Ok (b <? a).
Proof.
  unfold py_gt, as_num, num_gtb, num_compare.
  rewrite Z.ltb_compare, (Z.compare_antisym a b).
  destruct (a ?= b); reflexivity.
Qed.

Lemma py_truediv_ints a b :
  py_truediv (JInt a) (JInt b) = (f <- int_truediv a b ;; Ok (NFloat f)).
Proof. reflexivity. Qed.

Lemma neutralize_cases adj :
  neutralize adj = adj \/ value (neutralize adj) = NInt 0.
Proof. unfold neutralize. destruct (contains _ _); auto. Qed.

Lemma c005_fin :
  of_dec false 5 100 = Ffin false (round_units (5 * one_u) 100)
  /\ 0 < round_units (5 * one_u) 100.
Proof. split; vm_compute; reflexivity. Qed.

Lemma c020_fin :
  of_dec false 20 100 = Ffin false (round_units (20 * one_u) 100)
  /\ 0 < round_units (20 * one_u) 100.
Proof. split; vm_compute; reflexivity. Qed.

Lemma c100_fin :
  of_Z 100 = Ffin false (round_units (100 * one_u) 1)
  /\ 0 < round_units (100 * one_u) 1.
Proof. split; vm_compute; reflexivity. Qed.

Lemma cap_times_100 : fmul (of_dec false 20 100) (of_Z 100) = of_Z 20.
Proof. vm_compute. reflexivity. Qed.

Lemma int_truediv_pos s d f :
  0 <= s -> 0 < d -> int_truediv s d = Ok f ->
  f = Ffin false (round_units (s * one_u) d)
  /\ round_units (s * one_u) d < huge.
Proof.
  intros Hs Hd. unfold int_truediv.
  destruct (Z.eqb_spec d 0); [lia|].
  destruct (Z.ltb_spec s 0); [lia|]. destruct (Z.ltb_spec d 0); [lia|].
  rewrite !Z.abs_eq by lia. cbn [xorb]. unfold of_ratio.
  destruct (Z.ltb_spec (round_units (s * one_u) d) huge); [|discriminate].
  intros Heq. injection Heq as <-. auto.
Qed.

Lemma int_truediv_pos_ok s d :
  0 <= s -> 0 < d -> round_units (s * one_u) d < huge ->
  int_truediv s d = Ok (Ffin false (round_units (s * one_u) d)).
Proof.
  intros Hs Hd Hr. unfold int_truediv.
  destruct (Z.eqb_spec d 0); [lia|].
  destruct (Z.ltb_spec s 0); [lia|]. destruct (Z.ltb_spec d 0); [lia|].
  rewrite !Z.abs_eq by lia. cbn [xorb]. unfold of_ratio.
  destruct (Z.ltb_spec (round_units (s * one_u) d) huge); [reflexivity|lia].
Qed.

Lemma round_units_below_huge n d :
  0 < d -> 0 <= n <= d * 2 ^ 2097 -> (round_units n d <? huge) = true.
Proof.
  intros Hd Hn. apply Z.ltb_lt.
  pose proof (round_units_le_pow2 n d 2097 Hd ltac:(lia) Hn) as Hle.
  rewrite huge_eq.
  assert (2 ^ 2097 < 2 ^ 2098) by (apply Z.pow_lt_mono_r; lia).
  lia.
Qed.

Lemma units_bound z : 0 <= z <= 2 ^ 1023 -> 0 <= z * one_u <= 2 ^ 2097.
Proof.
  intros Hz. pose proof one_u_pos as Hu. split.
  - apply Z.mul_nonneg_nonneg; lia.
  - replace (2 ^ 2097) with (2 ^ 1023 * one_u).
    + apply Z.mul_le_mono_nonneg_r; lia.
    + rewrite one_u_eq, <- Z.pow_add_r by lia. reflexivity.
Qed.

Lemma float_of_int_ok q :
  - 2 ^ 1023 <= q <= 2 ^ 1023 -> exists f, float_of_int q = Ok f.
Proof.
  intros Hq. unfold float_of_int, of_Z, of_ratio.
  rewrite round_units_below_huge; [eexists; reflexivity|lia|].
  pose proof (units_bound (Z.abs q) ltac:(lia)). lia.
Qed.

Lemma int_truediv_ok s d :
  0 <= s <= 2 ^ 1023 -> d <> 0 -> exists f, int_truediv s d = Ok f.
Proof.
  intros Hs Hd. unfold int_truediv, of_ratio.
  destruct (Z.eqb_spec d 0); [contradiction|].
  rewrite round_units_below_huge; [eexists; reflexivity|lia|].
  pose proof (units_bound (Z.abs s) ltac:(lia)) as Hb.
  assert (0 <= 2 ^ 2097) by (apply Z.pow_nonneg; lia).
  split; [lia|]. apply Z.le_trans with (1 * 2 ^ 2097); [lia|].
  apply Z.mul_le_mono_nonneg_r; lia.
Qed.

(** The discount as a function of the ratio [stock / (2 * reorder_level)]. *)
Lemma discount_of_ratio_mono a b :
  nonneg a -> nonneg b -> fleb a b = true ->
  fleb (fmul (fmin (fmul a (of_dec false 5 100)) (of_dec false 20 100))
             (of_Z 100))
       (fmul (fmin (fmul b (of_dec false 5 100)) (of_dec false 20 100))
             (of_Z 100)) = true.
Proof.
  intros Ha Hb Hab.
  destruct c005_fin as (-> & H5), c020_fin as (-> & H20),
    c100_fin as (-> & H100).
  apply fmul_mono_l; [| |assumption|].
  - apply fmin_nonneg; [apply fmul_nonneg; assumption|lia].
  - apply fmin_nonneg; [apply fmul_nonneg; assumption|lia].
  - apply fmin_mono; try (apply fmul_nonneg; assumption).
    apply fmul_mono_l; assumption.
Qed.

Lemma discount_of_ratio_capped a :
  nonneg a ->
  fleb (fmul (fmin (fmul a (of_dec false 5 100)) (of_dec false 20 100))
             (of_Z 100))
       (of_Z 20) = true.
Proof.
  intros Ha. rewrite <- cap_times_100.
  destruct c005_fin as (-> & H5), c020_fin as (-> & H20),
    c100_fin as (-> & H100).
  apply fmul_mono_l; [|unfold nonneg; lia|assumption|].
  - apply fmin_nonneg; [apply fmul_nonneg; assumption|lia].
  - apply fmin_le_cap. apply fmul_nonneg; assumption.
Qed.

Lemma Ok_inj {A : Type} (a b : A) : Ok a = Ok b -> a = b.
Proof. intros H. injection H as ->. reflexivity. Qed.

Lemma as_num_json_of_num n : as_num (json_of_num n) = Some n.
Proof. destruct n; reflexivity. Qed.

Lemma is_none_json_of_num n : is_none (json_of_num n) = false.
Proof. destruct n; reflexivity. Qed.

Lemma dict_get_skip k v (o : dict) key :
  String.eqb k key = false -> dict_get ((k, v) :: o) key = dict_get o key.
Proof. intros H. cbn [dict_get]. rewrite H. reflexivity. Qed.

Lemma get_or_skip k v (o : dict) key d :
  String.eqb k key = false -> get_or ((k, v) :: o) key d = get_or o key d.
Proof. intros H. unfold get_or. rewrite dict_get_skip by exact H. reflexivity. Qed.

Lemma get_or_here k v (o : dict) d : get_or ((k, v) :: o) k d = v.
Proof. unfold get_or. cbn [dict_get]. rewrite String.eqb_refl. reflexivity. Qed.

Lemma get_or_none (o : dict) key d : dict_get o key = None -> get_or o key d = d.
Proof. intros H. unfold get_or. rewrite H. reflexivity. Qed.

Lemma num_truediv_zero_100 :
  num_truediv (NInt 0) (NInt 100) = Ok (NFloat (Ffin false 0)).
Proof. vm_compute. reflexivity. Qed.

Lemma fis_zero_100 : fis_zero (of_Z 100) = false.
Proof. vm_compute. reflexivity. Qed.

Lemma num_truediv_100 net :
  tame net -> exists f, num_truediv net (NInt 100) = Ok (NFloat f).
Proof.
  destruct net as [z|f]; simpl; intros Ht.
  - subst z. eexists. apply num_truediv_zero_100.
  - unfold num_truediv, to_float. rewrite float_of_int_100. cbn [bind].
    rewrite fis_zero_100. eexists. reflexivity.
Qed.

Lemma num_add_1 f : num_add (NInt 1) (NFloat f) = Ok (NFloat (fadd (of_Z 1) f)).
Proof.
  unfold num_add, num_arith, to_float. rewrite float_of_int_1. reflexivity.
Qed.

Lemma num_arith_tame iop fop a b :
  iop 0 0 = 0 -> tame a -> tame b ->
  exists c, num_arith iop fop a b = Ok c /\ tame c.
Proof.
  intros Hop Ha Hb. unfold num_arith, to_float.
  destruct a as [x|x], b as [y|y]; simpl in Ha, Hb; subst;
    rewrite ?float_of_int_0; cbn [bind]; eexists; split; try reflexivity;
    try exact I. exact Hop.
Qed.

Lemma total_adjustment_tame adjs :
  Forall (fun adj => tame (value adj)) adjs ->
  forall total, tame total ->
  exists net, total_adjustment total adjs = Ok net /\ tame net.
Proof.
  induction 1 as [|adj adjs Hadj _ IH]; intros total Ht.
  - exists total. auto.
  - cbn [total_adjustment].
    assert (Hstep : exists total',
               match type adj with
               | discount => num_sub total (value adj)
               | markup => num_add total (value adj)
               end = Ok total' /\ tame total').
    { destruct (type adj); apply num_arith_tame; auto. }
    destruct Hstep as (total' & -> & Ht'). cbn [bind]. apply IH, Ht'.
Qed.

Lemma appended_tame adjs :
  Forall appended adjs -> Forall (fun adj => tame (value adj)) adjs.
Proof. apply Forall_impl. intros adj (_ & H). exact H. Qed.

Lemma neutralize_tame adjs :
  Forall (fun adj => tame (value adj)) adjs ->
  Forall (fun adj => tame (value adj)) (map neutralize adjs).
Proof.
  intros H. apply Forall_map. revert H. apply Forall_impl. intros adj Ht.
  destruct (neutralize_cases adj) as [-> | ->]; [exact Ht|reflexivity].
Qed.

Lemma get_or_present (o : dict) key d v :
  get_or o key JNull = v -> v <> JNull -> get_or o key d = v.
Proof.
  unfold get_or. destruct (dict_get o key); [auto|]. congruence.
Qed.

Lemma num_truediv_is_float a b c :
  num_truediv a b = Ok c -> exists f, c = NFloat f.
Proof.
  unfold num_truediv. intros H.
  destruct a as [x|x], b as [y|y];
    try (inv_bind H; apply Ok_inj in H; subst c; eauto; fail);
    inv_bind H; inv_bind H; destruct (fis_zero _); try discriminate H;
    apply Ok_inj in H; subst c; eauto.
Qed.

Lemma num_mul_float_is_float a b c :
  num_mul (NFloat a) b = Ok c -> exists f, c = NFloat f.
Proof.
  unfold num_mul, num_arith. intros H.
  inv_bind H. inv_bind H. apply Ok_inj in H. subst c. eauto.
Qed.

Lemma py_truediv_is_float a b c :
  py_truediv a b = Ok c -> exists f, c = NFloat f.
Proof.
  unfold py_truediv.
  destruct (as_num a), (as_num b); try discriminate.
  apply num_truediv_is_float.
Qed.

(** ** The engine, the risk tool and the batch tool, for any host *)

Section Properties.
Context {host : Host}.

Lemma inventory_rules_keeps self self' :
  _apply_inventory_rules self = Ok self' ->
  product self' = product self /\ quantity self' = quantity self
  /\ base_price self' = base_price self.
Proof.
  unfold _apply_inventory_rules. intros H.
  destruct (truthy _); [|injection H as <-; auto].
  inv_bind H. inv_bind H. destruct a0; [|injection H as <-; auto].
  inv_bind H. inv_bind H. inv_bind H. inv_bind H.
  injection H as <-. auto.
Qed.

Lemma order_value_rules_keeps self :
  product (_apply_order_value_rules self) = product self
  /\ quantity (_apply_order_value_rules self) = quantity self
  /\ base_price (_apply_order_value_rules self) = base_price self.
Proof. unfold _apply_order_value_rules. destruct (25 <=? _); auto. Qed.

Lemma factor_rules_keeps month self :
  product (_apply_factor_based_rules month self) = product self
  /\ quantity (_apply_factor_based_rules month self) = quantity self
  /\ base_price (_apply_factor_based_rules month self) = base_price self.
Proof.
  unfold _apply_factor_based_rules.
  repeat match goal with |- context [if ?c then _ else _] => destruct c end;
    auto.
Qed.

Lemma calculate_price_priced month self out self' :
  calculate_price month self = Ok (out, self') ->
  field out "approved_for_quote" = Some (JBool true) ->
  exists self1 net fraction factor unit_price total,
    missing_keys (product self) = []
    /\ py_eq (get_or (product self) "Stock_Status" JNull) (JStr "Out of Stock")
       = false
    /\ py_gt (JInt (quantity self))
         (get_or (product self) "Quantity_in_Stock" JNull) = Ok false
    /\ _apply_inventory_rules self = Ok self1
    /\ self' = _apply_factor_based_rules month (_apply_order_value_rules self1)
    /\ total_adjustment (NInt 0) (adjustments self') = Ok net
    /\ num_truediv net (NInt 100) = Ok fraction
    /\ num_add (NInt 1) fraction = Ok factor
    /\ num_mul (NFloat (base_price self')) factor = Ok unit_price
    /\ num_mul unit_price (NInt (quantity self')) = Ok total
    /\ out = priced self' unit_price total net.
Proof.
  unfold calculate_price. intros H Happ.
  destruct (missing_keys (product self)) as [|k ks] eqn:Hmiss.
  2:{ injection H as <- <-. discriminate Happ. }
  destruct (py_eq _ _) eqn:Hoos.
  { simpl in H. injection H as <- <-. discriminate Happ. }
  inv_bind H. destruct a.
  { injection H as <- <-. discriminate Happ. }
  inv_bind H. inv_bind H. inv_bind H. inv_bind H. inv_bind H. inv_bind H.
  injection H as <- <-.
  do 6 eexists. repeat split; eassumption || reflexivity.
Qed.

Lemma calculate_price_keeps_product month self out self' :
  calculate_price month self = Ok (out, self') ->
  product self' = product self.
Proof.
  unfold calculate_price. intros H.
  destruct (missing_keys (product self)) as [|k ks].
  2:{ injection H as <- <-. reflexivity. }
  inv_bind H. destruct a.
  { injection H as <- <-. reflexivity. }
  inv_bind_as H self1 Hinv.
  inv_bind H. inv_bind H. inv_bind H. inv_bind H. inv_bind H.
  injection H as <- <-.
  destruct (factor_rules_keeps month (_apply_order_value_rules self1)) as (-> & _).
  destruct (order_value_rules_keeps self1) as (-> & _).
  apply inventory_rules_keeps in Hinv. tauto.
Qed.

Lemma init_inv product quantity self :
  __init__ product quantity = Ok self ->
  product = JObj (PricingRulesEngine.product self)
  /\ PricingRulesEngine.quantity self = quantity
  /\ adjustments self = [].
Proof.
  unfold __init__. intros H.
  destruct product; try discriminate H.
  simpl in H. inv_bind H. injection H as <-. auto.
Qed.

(** C3.  Calling [calculate] twice in a row with the same product record,
    quantity and month gives the same result twice, or raises the same
    exception at the first call: the first call leaves the product dict
    as it was, and the second engine starts from an empty adjustment
    list. *)
Theorem C3_calculate_twice_same month product quantity :
  calculate_twice month product quantity
  = (out <- calculate month product quantity ;; Ok (out, out)).
Proof.
  unfold calculate_twice, calculate.
  destruct (__init__ product quantity) as [self1|e] eqn:Hinit; [|reflexivity].
  simpl.
  destruct (calculate_price month self1) as [[out self1']|e] eqn:Hcalc;
    [|reflexivity].
  simpl.
  rewrite (calculate_price_keeps_product _ _ _ _ Hcalc).
  destruct (init_inv _ _ _ Hinit) as (Hp & _).
  rewrite <- Hp, Hinit. simpl. rewrite Hcalc. reflexivity.
Qed.

Lemma calculate_price_incomplete month self :
  missing_keys (product self) <> [] ->
  calculate_price month self
  = Ok (incomplete (product self) (missing_keys (product self)), self).
Proof.
  unfold calculate_price. destruct (missing_keys (product self)); [congruence|].
  reflexivity.
Qed.

(** C1 (the code departs from the claim).  A product record whose
    [Min_Selling_Price_Rs] is null is one with a required field missing:
    [missing_keys] reports it, and [calculate_price] would return the
    unapproved "Product data incomplete" result for it
    ([calculate_price_incomplete]).  But [__init__] applies [float] to the
    null price first and raises [TypeError], so no engine exists to call
    [calculate_price] on, whatever the month and the quantity; the batch
    tool reports the entry as failed. *)
Theorem C1_null_price_raises month quantity :
  missing_keys null_price = ["Min_Selling_Price_Rs"]
  /\ __init__ (JObj null_price) quantity = Raise TypeError
  /\ calculate month (JObj null_price) quantity = Raise TypeError
  /\ PricingCalculatorTool._run month
       (JArr [JObj [("product_json", JObj null_price);
                    ("quantity", JInt quantity)]])
     = Ok (JArr [PricingCalculatorTool.failed (JStr "Widget") TypeError]).
Proof. repeat split. Qed.

(** C6.  Scenario 1: price 100, stock 50, reorder level 10, in stock, no
    factors, quantity 30.  The result is approved with net [-20.0], unit
    price [80.0] and total [2400.0]; the trail holds an inventory
    discount of [12.5] and a bulk discount of [7.5]. *)
Theorem C6_scenario_1 month :
  exists self self',
    __init__ (JObj scenario_1) 30 = Ok self
    /\ calculate_price month self
       = Ok (JObj
               [ ("product_name", JStr "Widget");
                 ("quantity_requested", JInt 30);
                 ("approved_for_quote", JBool true);
                 ("base_single_unit_price", JFloat (of_Z 100));
                 ("final_single_unit_price", JFloat (of_Z 80));
                 ("total_price", JFloat (of_Z 2400));
                 ("net_price_adjustment_percentage", JFloat (of_Z (-20)));
                 ("reasoning_breakdown",
                  JArr
                    [ JStr "High Inventory Discount: Stock level (50) is high compared to reorder point.";
                      JStr "Bulk Order Discount: For ordering 30 units (25+)." ]);
                 ("competitors",
                  JObj
                    [ ("SmartBuy", JNull); ("ClicKart", JNull);
                      ("ShopiSky", JNull); ("Neesho", JNull) ]);
                 ("status", JStr "Available") ],
             self')
    /\ adjustments self'
       = [ {| type := discount;
              value := NFloat (of_dec false 125 10);
              reason := "High Inventory Discount: Stock level (50) is high compared to reorder point." |};
           {| type := discount;
              value := NFloat (of_dec false 75 10);
              reason := "Bulk Order Discount: For ordering 30 units (25+)." |} ].
Proof.
  eexists. eexists. split; [vm_compute; reflexivity|].
  split; vm_compute; reflexivity.
Qed.

(** C2 (amended).  For every approved result of [calculate_price], there
    are an unrounded net percentage [net], the signed sum of the
    adjustments, an unrounded unit price
    [unit_price = base_price * (1 + net / 100)] and an unrounded
    [total = unit_price * quantity] such that the result holds
    [round(net, 2)], [round(unit_price, 2)], [round(total, 2)] and
    [round(base_price, 2)]: every value is rounded once, at output, from
    the full-precision value, never from another rounded value. *)
Theorem C2_rounded_at_output month self out self' :
  calculate_price month self = Ok (out, self') ->
  approved out ->
  rounded_at_output self out self'.
Proof.
  intros Hcalc Happ.
  destruct (calculate_price_priced _ _ _ _ Hcalc Happ)
    as (self1 & net & fraction & factor & unit_price & total
        & _ & _ & _ & Hinv & Hself' & Hnet & Hfr & Hfa & Hun & Hto & ->).
  assert (Hb : base_price self' = base_price self
               /\ quantity self' = quantity self).
  { subst self'.
    destruct (factor_rules_keeps month (_apply_order_value_rules self1))
      as (_ & -> & ->).
    destruct (order_value_rules_keeps self1) as (_ & -> & ->).
    apply inventory_rules_keeps in Hinv. tauto. }
  destruct Hb as (Hb & Hq). rewrite Hb in Hun. rewrite Hq in Hto.
  exists net, fraction, factor, unit_price, total.
  repeat split; try assumption. simpl. rewrite Hb. reflexivity.
Qed.

Lemma inventory_rules_int self s r :
  get_or (product self) "Quantity_in_Stock" (JInt 0) = JInt s ->
  get_or (product self) "Reorder_Level" (JInt 1) = JInt r ->
  _apply_inventory_rules self
  = if (r =? 0) || negb (2 * r <? s) then Ok self
    else d <- inventory_discount s r ;;
         Ok (append self
               {| type := discount;
                  value := NFloat d;
                  reason := inventory_reason (JInt s) |}).
Proof.
  intros Hs Hr. unfold _apply_inventory_rules. rewrite Hs, Hr.
  unfold truthy. destruct (r =? 0); [reflexivity|].
  rewrite py_times_int. cbn [bind negb orb]. rewrite py_gt_ints.
  cbn [bind]. destruct (2 * r <? s); cbn [negb]; [|reflexivity].
  rewrite py_truediv_ints. unfold inventory_discount.
  destruct (int_truediv s (2 * r)) as [ratio|e]; [|reflexivity].
  cbn [bind]. rewrite num_mul_floats. cbn [bind].
  rewrite py_min_floats, num_mul_float_100. reflexivity.
Qed.

Lemma contains_inventory_reason stock :
  contains "High Inventory Discount" (inventory_reason stock) = true.
Proof. reflexivity. Qed.

Lemma head_inventory_reason stock :
  get 0 (inventory_reason stock) = Some "H"%char.
Proof. reflexivity. Qed.

Lemma head_override_reason : get 0 override_reason = Some "P"%char.
Proof. reflexivity. Qed.

Lemma order_value_rules_adjustments self :
  exists extra,
    adjustments (_apply_order_value_rules self)
    = (adjustments self ++ extra)%list
    /\ Forall appended extra
    /\ (quantity self < 25 -> extra = []).
Proof.
  unfold _apply_order_value_rules.
  destruct (Z.leb_spec 25 (quantity self)).
  - eexists. split; [reflexivity|]. split; [|lia].
    constructor; [|constructor]. split; [left; reflexivity|exact I].
  - exists []. rewrite app_nil_r. auto.
Qed.

Lemma factor_rules_adjustments month self :
  exists extra,
    adjustments (_apply_factor_based_rules month self)
    = (if mem "Purchasing Power" (factors_of self)
       then map neutralize (adjustments self ++ extra)%list
       else (adjustments self ++ extra)%list)
    /\ Forall appended extra.
Proof.
  unfold _apply_factor_based_rules.
  change (factors_of self) with (factors_of self).
  set (pp := mem "Purchasing Power" (factors_of self)).
  destruct (mem "Weather & Seasons" (factors_of self));
    [destruct (_ && _)|];
    destruct (mem "Age" (factors_of self) || mem "Gender" (factors_of self));
    destruct pp; cbn [adjustments append set_adjustments];
    rewrite <- ?app_assoc;
    first [ exists []; rewrite app_nil_r; split; [reflexivity|constructor]
          | eexists; (split; [reflexivity|]);
            repeat (apply Forall_cons; [split; [cbn; auto | exact I]|]);
            apply Forall_nil ].
Qed.

Lemma factors_of_product self self' :
  product self' = product self -> factors_of self' = factors_of self.
Proof. unfold factors_of. intros ->. reflexivity. Qed.

Lemma reasoning_neutralized l :
  Forall appended l ->
  forall x, In x (reasoning_breakdown (map neutralize l)) ->
  get 0 x = Some "B"%char \/ get 0 x = Some "I"%char
  \/ get 0 x = Some "T"%char.
Proof.
  unfold reasoning_breakdown.
  induction 1 as [|a l Ha Hl IH]; intros x; cbn [map filter]; [contradiction|].
  destruct (neutralize_cases a) as [-> | ->].
  - destruct (negb _); cbn [map In]; [|apply IH].
    intros [<-|Hin]; [apply Ha | apply IH, Hin].
  - change (num_eqb (NInt 0) (NInt 0)) with true. cbn [negb]. apply IH.
Qed.

(** C4.  For every approved calculation of a new engine whose factors
    include "Purchasing Power" and whose int stock [s] and int reorder
    level [r] satisfy [0 < r] and [2 * r < s]: the inventory adjustment
    stays first in the trail with value [0] and the override reason; the
    net percentage is the sum over the other adjustments; and neither the
    original inventory reason nor the override reason is in the
    reasoning list. *)
Theorem C4_override_neutralizes month self out self' r s :
  adjustments self = [] ->
  calculate_price month self = Ok (out, self') ->
  approved out ->
  mem "Purchasing Power" (factors_of self) = true ->
  get_or (product self) "Reorder_Level" (JInt 1) = JInt r ->
  get_or (product self) "Quantity_in_Stock" (JInt 0) = JInt s ->
  0 < r -> 2 * r < s ->
  neutralized s out self'.
Proof.
  intros Hfresh Hcalc Happ Hpp Hr Hs Hrpos Hsr.
  destruct (calculate_price_priced _ _ _ _ Hcalc Happ)
    as (self1 & net & fraction & factor & unit_price & total
        & _ & _ & _ & Hinv & Hself' & Hnet & _ & _ & _ & _ & ->).
  rewrite (inventory_rules_int self s r Hs Hr) in Hinv.
  replace ((r =? 0) || negb (2 * r <? s)) with false in Hinv.
  2:{ symmetry. apply orb_false_iff. split.
      - apply Z.eqb_neq. lia.
      - apply negb_false_iff, Z.ltb_lt. lia. }
  inv_bind_as Hinv d Hd. injection Hinv as <-.
  destruct (order_value_rules_adjustments
              (append self
                 {| type := discount; value := NFloat d;
                    reason := inventory_reason (JInt s) |}))
    as (bulk & Hbulk & Fbulk & _).
  destruct (factor_rules_adjustments month
              (_apply_order_value_rules
                 (append self
                    {| type := discount; value := NFloat d;
                       reason := inventory_reason (JInt s) |})))
    as (marks & Hmarks & Fmarks).
  rewrite <- Hself' in Hmarks.
  rewrite (factors_of_product self) in Hmarks
    by (destruct (order_value_rules_keeps
                    (append self
                       {| type := discount; value := NFloat d;
                          reason := inventory_reason (JInt s) |}))
          as (-> & _); reflexivity).
  rewrite Hpp, Hbulk in Hmarks. cbn [adjustments append] in Hmarks.
  rewrite Hfresh in Hmarks. cbn [app map] in Hmarks.
  unfold neutralize at 1 in Hmarks. cbn [reason] in Hmarks.
  rewrite contains_inventory_reason in Hmarks. cbn [type] in Hmarks.
  rewrite <- map_app in Hmarks || idtac.
  exists (map neutralize (bulk ++ marks)%list), net.
  assert (Hsame : total_adjustment (NInt 0) (adjustments self')
                  = total_adjustment (NInt 0)
                      (map neutralize (bulk ++ marks)%list)).
  { rewrite Hmarks. reflexivity. }
  split; [exact Hmarks|]. split; [exact Hsame|].
  split; [rewrite <- Hsame; exact Hnet|].
  split; [reflexivity|].
  split.
  { cbn [priced field dict_get String.eqb Ascii.eqb Bool.eqb].
    rewrite Hmarks. unfold reasoning_breakdown at 1. cbn [filter value].
    change (num_eqb (NInt 0) (NInt 0)) with true. reflexivity. }
  assert (Fall : Forall appended (bulk ++ marks)%list)
    by (apply Forall_app; auto).
  split; intros Hin; apply (reasoning_neutralized _ Fall) in Hin.
  - rewrite head_inventory_reason in Hin.
    destruct Hin as [H|[H|H]]; discriminate H.
  - rewrite head_override_reason in Hin.
    destruct Hin as [H|[H|H]]; discriminate H.
Qed.

(** C7.  With reorder level [0] the inventory rule leaves the engine as
    it is.  With an int reorder level [r > 0] and int stocks
    [2 * r < s1 <= s2]: the rule produces a discount for [s2] (always,
    when [s2 <= 2^1023]); and whenever it produces one for [s2], it
    produces one for [s1], the discount for [s1] is at most that for
    [s2], and the discount for [s2] is at most [20.0]. *)
Theorem C7_inventory_discount_monotone self0 self1 self2 r s1 s2 :
  get_or (product self0) "Reorder_Level" (JInt 1) = JInt 0 ->
  get_or (product self1) "Reorder_Level" (JInt 1) = JInt r ->
  get_or (product self2) "Reorder_Level" (JInt 1) = JInt r ->
  get_or (product self1) "Quantity_in_Stock" (JInt 0) = JInt s1 ->
  get_or (product self2) "Quantity_in_Stock" (JInt 0) = JInt s2 ->
  0 < r -> 2 * r < s1 -> s1 <= s2 ->
  _apply_inventory_rules self0 = Ok self0
  /\ (s2 <= 2 ^ 1023 ->
      exists self2', _apply_inventory_rules self2 = Ok self2')
  /\ (forall self2',
        _apply_inventory_rules self2 = Ok self2' ->
        exists d1 d2,
          _apply_inventory_rules self1
          = Ok (append self1
                  {| type := discount; value := NFloat d1;
                     reason := inventory_reason (JInt s1) |})
          /\ self2'
             = append self2
                 {| type := discount; value := NFloat d2;
                    reason := inventory_reason (JInt s2) |}
          /\ fleb d1 d2 = true
          /\ fleb d2 (of_Z 20) = true).
Proof.
  intros H0 Hr1 Hr2 Hs1 Hs2 Hr H1 H12. pose proof one_u_pos as Hu.
  split.
  { unfold _apply_inventory_rules. rewrite H0. reflexivity. }
  assert (Hfire : forall s, 2 * r < s -> (r =? 0) || negb (2 * r <? s) = false).
  { intros s Hs. apply orb_false_iff. split.
    - apply Z.eqb_neq. lia.
    - apply negb_false_iff, Z.ltb_lt. lia. }
  rewrite (inventory_rules_int self2 s2 r Hs2 Hr2), Hfire by lia.
  rewrite (inventory_rules_int self1 s1 r Hs1 Hr1), Hfire by lia.
  split.
  { intros Hbound. unfold inventory_discount.
    destruct (int_truediv_ok s2 (2 * r)) as (ratio & ->); [lia|lia|].
    cbn [bind]. eexists. reflexivity. }
  intros self2' Hrun.
  inv_bind_as Hrun d2 Hd2. apply Ok_inj in Hrun. subst self2'.
  unfold inventory_discount in Hd2 |- *.
  inv_bind_as Hd2 ratio2 Hratio2. apply Ok_inj in Hd2. subst d2.
  assert (Hs2pos : 0 <= s2) by lia. assert (Hdpos : 0 < 2 * r) by lia.
  destruct (int_truediv_pos s2 (2 * r) ratio2 Hs2pos Hdpos Hratio2)
    as (-> & Hfin2).
  assert (Hmono : round_units (s1 * one_u) (2 * r)
                  <= round_units (s2 * one_u) (2 * r)).
  { apply round_units_mono; [lia|].
    split; [apply Z.mul_nonneg_nonneg; lia|].
    apply Z.mul_le_mono_nonneg_r; lia. }
  rewrite (int_truediv_pos_ok s1 (2 * r)) by lia. cbn [bind].
  assert (Hn1 : nonneg (Ffin false (round_units (s1 * one_u) (2 * r))))
    by (unfold nonneg; apply round_units_nonneg;
        [lia | apply Z.mul_nonneg_nonneg; lia]).
  assert (Hn2 : nonneg (Ffin false (round_units (s2 * one_u) (2 * r))))
    by (unfold nonneg; apply round_units_nonneg;
        [lia | apply Z.mul_nonneg_nonneg; lia]).
  do 2 eexists. split; [reflexivity|]. split; [reflexivity|]. split.
  - apply discount_of_ratio_mono; try assumption.
    rewrite fleb_fin. apply Z.leb_le. exact Hmono.
  - apply discount_of_ratio_capped. assumption.
Qed.

Lemma capped_flags_strings data reasons :
  RiskAssessmentTool.capped_flags data (map JStr reasons)
  = Ok (map (fun _ => RiskAssessmentTool.capped_flag data)
          (filter (contains "Capped") reasons)).
Proof.
  induction reasons as [|reason rest IH]; [reflexivity|].
  cbn [map RiskAssessmentTool.capped_flags py_contains bind filter].
  rewrite IH. cbn [bind]. destruct (contains "Capped" reason); reflexivity.
Qed.

Lemma filter_nil_existsb {A : Type} (f : A -> bool) (l : list A) :
  existsb f l = match filter f l with [] => false | _ :: _ => true end.
Proof.
  induction l as [|a l IH]; [reflexivity|].
  cbn [existsb filter]. destruct (f a); [reflexivity|exact IH].
Qed.

(** C5.  For every approved priced line item with a numeric net
    percentage and a list of reason strings, risk assessment returns
    "High" if the net percentage is below [-25.0] or a reason contains
    "Capped", and "Low" otherwise.  The reasons of a "High" result are:
    the reason "Risk: Net discount for '<name>' is <magnitude>%, which
    exceeds the maximum of 25.0%.", present exactly when the net percentage
    is below [-25.0]; then one reason "Heads-up: A discount for '<name>'
    was automatically capped." for each reason that contains "Capped".  So
    a result that is "High" through a "Capped" reason alone carries no
    reason about the magnitude of the discount.  [-25.0] is not below the
    threshold and [-25.01] is. *)
Theorem C5_risk_threshold data net reasons :
  priced_item data net reasons ->
  exists out,
    RiskAssessmentTool._run (JObj data) = Ok out
    /\ field out "risk_level"
       = Some (JStr (if num_ltb net
                          (NFloat (fopp RiskAssessmentTool.max_allowed_discount))
                        || existsb (contains "Capped") reasons
                     then "High" else "Low"))
    /\ (num_ltb net (NFloat (fopp RiskAssessmentTool.max_allowed_discount))
        || existsb (contains "Capped") reasons = true ->
        field out "reasons"
        = Some (JArr
                  (map JStr
                     ((if num_ltb net
                            (NFloat
                               (fopp RiskAssessmentTool.max_allowed_discount))
                       then [("Risk: Net discount for '"
                              ++ py_str (get_or data "product_name" JNull)
                              ++ "' is "
                              ++ py_str (json_of_num (num_abs net))
                              ++ "%, which exceeds the maximum of "
                              ++ py_str (JFloat (of_Z 25)) ++ "%.")%string]
                       else [])
                      ++ map (fun _ =>
                                ("Heads-up: A discount for '"
                                 ++ py_str (get_or data "product_name" JNull)
                                 ++ "' was automatically capped.")%string)
                           (filter (contains "Capped") reasons))%list)))
    /\ (num_ltb net (NFloat (fopp RiskAssessmentTool.max_allowed_discount))
        = false ->
        field out "summary"
        = Some (JStr (if existsb (contains "Capped") reasons
                      then "High risk detected."
                      else "Item '"
                           ++ py_str (get_or data "product_name" JNull)
                           ++ "' passed all checks.")))
    /\ num_ltb (NFloat (of_Z (-25)))
         (NFloat (fopp RiskAssessmentTool.max_allowed_discount)) = false
    /\ num_ltb (NFloat (of_dec true 2501 100))
         (NFloat (fopp RiskAssessmentTool.max_allowed_discount)) = true.
Proof.
  intros (Happ & Hnet & Hreasons).
  unfold RiskAssessmentTool._run. cbn [py_get bind].
  rewrite Happ. cbn [negb]. rewrite Hnet, Hreasons.
  rewrite is_none_json_of_num. unfold py_lt_float.
  rewrite as_num_json_of_num. cbn [bind py_iter].
  rewrite capped_flags_strings. cbn [bind].
  rewrite (filter_nil_existsb (contains "Capped") reasons).
  unfold RiskAssessmentTool.discount_flag, RiskAssessmentTool.capped_flag.
  rewrite as_num_json_of_num.
  destruct (num_ltb net
              (NFloat (fopp RiskAssessmentTool.max_allowed_discount))).
  - cbn [app orb]. eexists. split; [reflexivity|]. split; [reflexivity|].
    split; [intros _; reflexivity|]. split; [intros H; discriminate H|].
    split; vm_compute; reflexivity.
  - cbn [app orb].
    destruct (filter (contains "Capped") reasons) as [|c cs]; cbn [map].
    + eexists. split; [reflexivity|]. split; [reflexivity|].
      split; [intros H; discriminate H|]. split; [intros _; reflexivity|].
      split; vm_compute; reflexivity.
    + eexists. split; [reflexivity|]. split; [reflexivity|].
      split; [intros _; reflexivity|]. split; [intros _; reflexivity|].
      split; vm_compute; reflexivity.
Qed.

Lemma inventory_rules_default self :
  dict_get (product self) "Reorder_Level" = None ->
  _apply_inventory_rules (reordered (JInt 1) self)
  = (self' <- _apply_inventory_rules self ;; Ok (reordered (JInt 1) self')).
Proof.
  intros Hnone. unfold _apply_inventory_rules.
  change (product (reordered (JInt 1) self))
    with (("Reorder_Level", JInt 1) :: product self).
  rewrite get_or_here, get_or_skip by reflexivity.
  rewrite (get_or_none (product self) "Reorder_Level" (JInt 1) Hnone).
  cbn [truthy Z.eqb negb]. rewrite py_times_int. cbn [bind].
  destruct (py_gt _ _) as [[|]|e]; cbn [bind]; try reflexivity.
  destruct (py_truediv _ _) as [ratio|e]; cbn [bind]; try reflexivity.
  destruct (num_mul ratio _) as [factor|e]; cbn [bind]; try reflexivity.
  destruct (num_mul (py_min _ _) _) as [pct|e]; cbn [bind]; reflexivity.
Qed.

Lemma order_value_rules_reordered v self :
  _apply_order_value_rules (reordered v self)
  = reordered v (_apply_order_value_rules self).
Proof.
  unfold _apply_order_value_rules, reordered. cbn [quantity with_product].
  destruct (25 <=? quantity self); reflexivity.
Qed.

Lemma factors_of_reordered v self :
  factors_of (reordered v self) = factors_of self.
Proof.
  unfold factors_of, reordered. cbn [product with_product].
  rewrite !get_or_skip by reflexivity. reflexivity.
Qed.

Lemma factor_rules_reordered month v self :
  _apply_factor_based_rules month (reordered v self)
  = reordered v (_apply_factor_based_rules month self).
Proof.
  unfold _apply_factor_based_rules. rewrite factors_of_reordered.
  unfold reordered at 1 2. cbn [product with_product].
  rewrite get_or_skip by reflexivity.
  destruct (mem "Weather & Seasons" (factors_of self));
    [destruct (_ && _)|];
    destruct (mem "Age" (factors_of self) || mem "Gender" (factors_of self));
    destruct (mem "Purchasing Power" (factors_of self)); reflexivity.
Qed.

Lemma missing_keys_reordered v (o : dict) :
  missing_keys (("Reorder_Level", v) :: o) = missing_keys o.
Proof.
  unfold missing_keys, required_keys, absent. cbn [filter].
  rewrite !dict_get_skip by reflexivity. reflexivity.
Qed.

Lemma product_reordered v self :
  product (reordered v self) = ("Reorder_Level", v) :: product self.
Proof. reflexivity. Qed.

Lemma quantity_reordered v self : quantity (reordered v self) = quantity self.
Proof. reflexivity. Qed.

Lemma base_price_reordered v self :
  base_price (reordered v self) = base_price self.
Proof. reflexivity. Qed.

Lemma adjustments_reordered v self :
  adjustments (reordered v self) = adjustments self.
Proof. reflexivity. Qed.

Lemma priced_reordered v self unit_price total net :
  priced (reordered v self) unit_price total net
  = priced self unit_price total net.
Proof.
  unfold priced.
  rewrite product_reordered, quantity_reordered, base_price_reordered,
    adjustments_reordered.
  rewrite !get_or_skip by reflexivity. reflexivity.
Qed.

Lemma rejected_reordered v self msg :
  rejected (reordered v self) msg = rejected self msg.
Proof.
  unfold rejected. rewrite product_reordered, quantity_reordered.
  rewrite get_or_skip by reflexivity. reflexivity.
Qed.

Lemma calculate_price_default month self :
  dict_get (product self) "Reorder_Level" = None ->
  calculate_price month (reordered (JInt 1) self)
  = (out <- calculate_price month self ;;
     Ok (fst out, reordered (JInt 1) (snd out))).
Proof.
  intros Hnone. unfold calculate_price.
  rewrite !product_reordered, !quantity_reordered, missing_keys_reordered.
  destruct (missing_keys (product self)) as [|k ks].
  2:{ cbn [bind fst snd]. unfold incomplete.
      rewrite get_or_skip by reflexivity. reflexivity. }
  rewrite !get_or_skip by reflexivity.
  destruct (if py_eq _ _ then _ else _) as [[|]|e]; cbn [bind fst snd].
  - rewrite rejected_reordered. reflexivity.
  - rewrite inventory_rules_default by exact Hnone.
    destruct (_apply_inventory_rules self) as [self1|e]; cbn [bind];
      [|reflexivity].
    rewrite order_value_rules_reordered, factor_rules_reordered.
    rewrite adjustments_reordered, base_price_reordered, quantity_reordered.
    destruct (total_adjustment _ _) as [net|e]; cbn [bind]; [|reflexivity].
    destruct (num_truediv _ _) as [fraction|e]; cbn [bind]; [|reflexivity].
    destruct (num_add _ _) as [factor|e]; cbn [bind]; [|reflexivity].
    destruct (num_mul _ factor) as [unit_price|e]; cbn [bind]; [|reflexivity].
    destruct (num_mul unit_price _) as [total|e]; cbn [bind fst snd];
      [|reflexivity].
    rewrite priced_reordered. reflexivity.
  - reflexivity.
Qed.

(** C9.  For a product dict without [Reorder_Level] and with an int
    stock [s > 2]: [calculate] returns what it returns for the same dict
    with [Reorder_Level] set to [1], and the inventory rule does what it
    does for reorder level [1].  When [s <= 2^1023] the rule returns and
    appends the discount of [min((s / (2 * 1)) * 0.05, 0.20) * 100] per
    cent; beyond the float range the division raises, and no discount is
    appended.  With [Reorder_Level] set to [0] the rule appends nothing. *)
Theorem C9_absent_reorder_level_counts_as_one month o quantity s :
  dict_get o "Reorder_Level" = None ->
  get_or o "Quantity_in_Stock" (JInt 0) = JInt s ->
  2 < s ->
  calculate month (JObj o) quantity
  = calculate month (JObj (("Reorder_Level", JInt 1) :: o)) quantity
  /\ (forall self,
        product self = o ->
        _apply_inventory_rules self
        = (d <- inventory_discount s 1 ;;
           Ok (append self
                 {| type := discount; value := NFloat d;
                    reason := inventory_reason (JInt s) |})))
  /\ (s <= 2 ^ 1023 ->
      exists ratio,
        int_truediv s (2 * 1) = Ok ratio
        /\ forall self,
             product self = o ->
             _apply_inventory_rules self
             = Ok (append self
                     {| type := discount;
                        value :=
                          NFloat
                            (fmul
                               (fmin (fmul ratio (of_dec false 5 100))
                                  (of_dec false 20 100))
                               (of_Z 100));
                        reason :=
                          "High Inventory Discount: Stock level (" ++ dec s
                          ++ ") is high compared to reorder point." |}))
  /\ (forall self,
        product self = ("Reorder_Level", JInt 0) :: o ->
        _apply_inventory_rules self = Ok self).
Proof.
  intros Hnone Hs Hgt.
  assert (Hrule : forall self,
            product self = o ->
            _apply_inventory_rules self
            = (d <- inventory_discount s 1 ;;
               Ok (append self
                     {| type := discount; value := NFloat d;
                        reason := inventory_reason (JInt s) |}))).
  { intros self Hp.
    rewrite (inventory_rules_int self s 1).
    + replace ((1 =? 0) || negb (2 * 1 <? s)) with false; [reflexivity|].
      symmetry. apply orb_false_iff. split; [reflexivity|].
      apply negb_false_iff, Z.ltb_lt. lia.
    + rewrite Hp. exact Hs.
    + rewrite Hp. apply get_or_none, Hnone. }
  split; [|split; [|split]].
  - unfold calculate, __init__. cbn [py_get bind].
    rewrite get_or_skip by reflexivity.
    destruct (py_float _) as [price|e]; cbn [bind]; [|reflexivity].
    change (fresh (("Reorder_Level", JInt 1) :: o) quantity price)
      with (reordered (JInt 1) (fresh o quantity price)).
    rewrite calculate_price_default by exact Hnone.
    destruct (calculate_price month (fresh o quantity price)) as [[out self']|e];
      reflexivity.
  - exact Hrule.
  - intros Hbound.
    destruct (int_truediv_ok s (2 * 1)) as (ratio & Hratio); [lia|lia|].
    exists ratio. split; [exact Hratio|].
    intros self Hp. rewrite (Hrule self Hp).
    unfold inventory_discount. rewrite Hratio. reflexivity.
  - intros self Hp. unfold _apply_inventory_rules. rewrite Hp, get_or_here.
    reflexivity.
Qed.

Lemma inventory_rules_appends_tame self self1 :
  _apply_inventory_rules self = Ok self1 ->
  Forall (fun adj => tame (value adj)) (adjustments self) ->
  Forall (fun adj => tame (value adj)) (adjustments self1).
Proof.
  unfold _apply_inventory_rules. intros H Ht.
  destruct (truthy _); [|apply Ok_inj in H; subst; exact Ht].
  inv_bind_as H threshold Hthreshold. inv_bind_as H high Hhigh.
  destruct high; [|apply Ok_inj in H; subst; exact Ht].
  inv_bind_as H divisor Hdivisor. inv_bind_as H ratio Hratio.
  inv_bind_as H discount_factor Hfactor. inv_bind_as H pct Hpct.
  apply Ok_inj in H. subst self1. cbn [adjustments append].
  apply Forall_app. split; [exact Ht|]. constructor; [|constructor].
  cbn [value].
  destruct (py_truediv_is_float _ _ _ Hratio) as (f & ->).
  destruct (num_mul_float_is_float _ _ _ Hfactor) as (g & ->).
  rewrite py_min_floats in Hpct.
  destruct (num_mul_float_is_float _ _ _ Hpct) as (p & ->). exact I.
Qed.


(** The two hypotheses on the rules hold for a record with an int stock
    and an int or absent reorder level. *)
Lemma int_stock_passes self s r :
  get_or (product self) "Quantity_in_Stock" JNull = JInt s ->
  get_or (product self) "Reorder_Level" (JInt 1) = JInt r ->
  0 <= s <= 2 ^ 1023 ->
  quantity self <= 0 ->
  py_gt (JInt (quantity self))
    (get_or (product self) "Quantity_in_Stock" JNull) = Ok false
  /\ exists self1, _apply_inventory_rules self = Ok self1.
Proof.
  intros Hs Hr Hsb Hq. split.
  - rewrite Hs, py_gt_ints. f_equal. apply Z.ltb_ge. lia.
  - assert (Hs0 : get_or (product self) "Quantity_in_Stock" (JInt 0) = JInt s)
      by (apply get_or_present; [exact Hs|discriminate]).
    rewrite (inventory_rules_int self s r Hs0 Hr).
    destruct (Z.eqb_spec r 0) as [|Hr0]; cbn [orb]; [eauto|].
    destruct (negb _); [eauto|].
    unfold inventory_discount.
    destruct (int_truediv_ok s (2 * r) Hsb ltac:(lia)) as (ratio & ->).
    cbn [bind]. eauto.
Qed.

Lemma process_item_record month item :
  record_entry item ->
  exists entry, PricingCalculatorTool.process_item month item = Ok entry.
Proof.
  intros (o & -> & Hp). unfold PricingCalculatorTool.process_item.
  cbn [py_get bind].
  destruct Hp as [Hfalsy|(p & Hp)].
  - rewrite Hfalsy. cbn [negb orb]. eauto.
  - rewrite Hp. destruct (negb _ || _); [eauto|].
    destruct (bind _ _) as [pricing_result|e]; [eauto|].
    cbn [py_get bind]. eauto.
Qed.

Lemma batch_of_records month items :
  Forall record_entry items ->
  exists results,
    PricingCalculatorTool._run month (JArr items) = Ok (JArr results)
    /\ List.length results = List.length items.
Proof.
  intros Hall. unfold PricingCalculatorTool._run.
  assert (H : exists results,
             PricingCalculatorTool.process_items month items = Ok results
             /\ List.length results = List.length items).
  { induction Hall as [|item items Hitem _ IH].
    - exists []. auto.
    - destruct IH as (results & Hrest & Hlen).
      destruct (process_item_record month item Hitem) as (entry & Hentry).
      exists (entry :: results). cbn [PricingCalculatorTool.process_items].
      rewrite Hentry. cbn [bind]. rewrite Hrest. cbn [bind List.length].
      auto. }
  destruct H as (results & -> & Hlen). cbn [bind]. eauto.
Qed.

(** C8 (the code departs from the claim).  A well-formed JSON array whose
    entry carries a non-dict [product_json] aborts the batch: the engine
    raises [AttributeError] inside the [try], and the handler raises it
    again at [product_data.get].  The results of the entries before it
    are lost with it.  An entry that is not a dict aborts the batch at
    [item.get]. *)
Theorem C8_batch_aborts_on_non_dict month :
  PricingCalculatorTool._run month
    (JArr [ JObj [("product_json", JStr "Widget"); ("quantity", JInt 2)] ])
  = Raise AttributeError
  /\ PricingCalculatorTool._run month
       (JArr [ JObj [("product_json", JObj scenario_1); ("quantity", JInt 30)];
               JObj [("product_json", JStr "Widget"); ("quantity", JInt 2)] ])
     = Raise AttributeError
  /\ PricingCalculatorTool._run month (JArr [JInt 5]) = Raise AttributeError.
Proof. repeat (split; [vm_compute; reflexivity|]). vm_compute. reflexivity. Qed.

End Properties.

(** ** Runs on concrete inputs *)

Lemma C2_rounded_at_output_witness :
  exists out self',
    @calculate_price bare_host 1 (fresh scenario_1 30 (of_Z 100))
    = Ok (out, self')
    /\ approved out
    /\ rounded_at_output (fresh scenario_1 30 (of_Z 100)) out self'.
Proof.
  eexists. eexists. split; [vm_compute; reflexivity|].
  split; [reflexivity|].
  apply (@C2_rounded_at_output bare_host 1); [vm_compute|]; reflexivity.
Defined.

Lemma C2_counterexample :
  exists out,
    @calculate bare_host 1 (JObj thirds) 30 = Ok out
    /\ approved out
    /\ field out "base_single_unit_price" = Some (JFloat (of_Z 1000))
    /\ field out "net_price_adjustment_percentage"
       = Some (JFloat (of_dec true 1333 100))
    /\ field out "final_single_unit_price"
       = Some (JFloat (of_dec false 86667 100))
    /\ field out "total_price" = Some (JFloat (of_Z 26000))
    /\ round2 (fmul (of_dec false 86667 100) (of_Z 30))
       = of_dec false 260001 10
    /\ round2 (fmul (of_Z 1000)
                 (fadd (of_Z 1) (fdiv (of_dec true 1333 100) (of_Z 100))))
       = of_dec false 8667 10
    /\ feqb (of_Z 26000) (of_dec false 260001 10) = false
    /\ feqb (of_dec false 86667 100) (of_dec false 8667 10) = false.
Proof.
  eexists. repeat (split; [vm_compute; reflexivity|]).
  vm_compute. reflexivity.
Qed.

(** An item that is "High" through a "Capped" reason alone: its only
    reason is the heads-up, and says nothing of the discount or the
    ceiling. *)
Lemma C5_counterexample :
  priced_item capped_item (NFloat (of_Z (-5)))
    ["Loyalty Discount: Capped at 5 percent."]
  /\ num_ltb (NFloat (of_Z (-5)))
       (NFloat (fopp RiskAssessmentTool.max_allowed_discount)) = false
  /\ @RiskAssessmentTool._run bare_host (JObj capped_item)
     = Ok (JObj
             [ ("risk_level", JStr "High");
               ("summary", JStr "High risk detected.");
               ("reasons",
                JArr
                  [JStr "Heads-up: A discount for 'Widget' was automatically capped."]) ]).
Proof.
  split; [repeat split|]. split; vm_compute; reflexivity.
Qed.

(** A record without [Reorder_Level] whose stock is above [2]: the
    division of the inventory rule leaves the float range, and no discount
    is appended. *)
Lemma C9_counterexample :
  dict_get overstocked "Reorder_Level" = None
  /\ get_or overstocked "Quantity_in_Stock" (JInt 0) = JInt (2 ^ 1025)
  /\ 2 < 2 ^ 1025
  /\ @_apply_inventory_rules bare_host (fresh overstocked 1 (of_Z 100))
     = Raise OverflowError
  /\ @calculate bare_host 1 (JObj overstocked) 1 = Raise OverflowError.
Proof.
  split; [reflexivity|]. split; [reflexivity|].
  split; [vm_compute; reflexivity|].
  split; vm_compute; reflexivity.
Qed.


(** A second [calculate_price] on the same engine object appends every
    adjustment again: scenario 1 then nets 40 per cent off. *)
Example second_call_on_same_engine :
  exists out1 self1 out2 self2,
    @calculate_price bare_host 1 (fresh scenario_1 30 (of_Z 100))
    = Ok (out1, self1)
    /\ @calculate_price bare_host 1 self1 = Ok (out2, self2)
    /\ field out1 "net_price_adjustment_percentage"
       = Some (JFloat (of_Z (-20)))
    /\ field out2 "net_price_adjustment_percentage"
       = Some (JFloat (of_Z (-40)))
    /\ List.length (adjustments self2) = 4%nat.
Proof.
  do 4 eexists. repeat (split; [vm_compute; reflexivity|]).
  vm_compute. reflexivity.
Qed.

Lemma C4_override_neutralizes_witness :
  exists out self',
    adjustments (fresh valued 30 (of_Z 100)) = []
    /\ @calculate_price bare_host 6 (fresh valued 30 (of_Z 100))
       = Ok (out, self')
    /\ approved out
    /\ mem "Purchasing Power"
         (@factors_of bare_host (fresh valued 30 (of_Z 100))) = true
    /\ get_or valued "Reorder_Level" (JInt 1) = JInt 10
    /\ get_or valued "Quantity_in_Stock" (JInt 0) = JInt 50
    /\ 0 < 10 /\ 2 * 10 < 50
    /\ @neutralized bare_host 50 out self'.
Proof.
  eexists. eexists. split; [reflexivity|].
  split; [vm_compute; reflexivity|]. split; [reflexivity|].
  split; [vm_compute; reflexivity|]. split; [reflexivity|].
  split; [reflexivity|]. split; [lia|]. split; [lia|].
  apply (@C4_override_neutralizes bare_host 6 (fresh valued 30 (of_Z 100))
           _ _ 10 50);
    [ reflexivity | vm_compute; reflexivity | reflexivity
    | vm_compute; reflexivity | reflexivity | reflexivity | lia | lia ].
Defined.

Lemma C5_risk_threshold_witness :
  priced_item deep_discount (NFloat (of_Z (-30)))
    ["Bulk Order Discount: For ordering 30 units (25+)."]
  /\ exists out,
       @RiskAssessmentTool._run bare_host (JObj deep_discount) = Ok out
       /\ field out "risk_level" = Some (JStr "High").
Proof.
  assert (Hitem : priced_item deep_discount (NFloat (of_Z (-30)))
                    ["Bulk Order Discount: For ordering 30 units (25+)."])
    by (repeat split).
  split; [exact Hitem|].
  destruct (@C5_risk_threshold bare_host _ _ _ Hitem)
    as (out & Hrun & Hlevel & _).
  exists out. split; [exact Hrun|]. rewrite Hlevel.
  vm_compute. reflexivity.
Defined.

Lemma C7_inventory_discount_monotone_witness :
  get_or unordered "Reorder_Level" (JInt 1) = JInt 0
  /\ get_or scenario_1 "Reorder_Level" (JInt 1) = JInt 10
  /\ get_or restocked "Reorder_Level" (JInt 1) = JInt 10
  /\ get_or scenario_1 "Quantity_in_Stock" (JInt 0) = JInt 50
  /\ get_or restocked "Quantity_in_Stock" (JInt 0) = JInt 70
  /\ (0 < 10 /\ 2 * 10 < 50 /\ 50 <= 70)
  /\ @_apply_inventory_rules bare_host (fresh unordered 1 (of_Z 100))
     = Ok (fresh unordered 1 (of_Z 100)).
Proof.
  repeat (split; [reflexivity|]). split; [lia|].
  eapply proj1.
  eapply (@C7_inventory_discount_monotone bare_host
            (fresh unordered 1 (of_Z 100))
            (fresh scenario_1 1 (of_Z 100))
            (fresh restocked 1 (of_Z 100)) 10 50 70);
    [ reflexivity | reflexivity | reflexivity | reflexivity | reflexivity
    | lia | lia | lia ].
Defined.

Lemma C9_absent_reorder_level_counts_as_one_witness :
  dict_get no_reorder "Reorder_Level" = None
  /\ get_or no_reorder "Quantity_in_Stock" (JInt 0) = JInt 50
  /\ 2 < 50
  /\ @calculate bare_host 1 (JObj no_reorder) 30
     = @calculate bare_host 1
         (JObj (("Reorder_Level", JInt 1) :: no_reorder)) 30
  /\ (50 <= 2 ^ 1023 ->
      exists ratio,
        int_truediv 50 (2 * 1) = Ok ratio
        /\ forall self,
             product self = no_reorder ->
             @_apply_inventory_rules bare_host self
             = Ok (append self
                     {| type := discount;
                        value :=
                          NFloat
                            (fmul
                               (fmin (fmul ratio (of_dec false 5 100))
                                  (of_dec false 20 100))
                               (of_Z 100));
                        reason :=
                          "High Inventory Discount: Stock level (" ++ dec 50
                          ++ ") is high compared to reorder point." |})).
Proof.
  split; [reflexivity|]. split; [reflexivity|]. split; [lia|].
  pose proof (@C9_absent_reorder_level_counts_as_one bare_host 1
                no_reorder 30 50 eq_refl eq_refl ltac:(lia))
    as (Hsame & _ & Hfires & _).
  split; [exact Hsame|exact Hfires].
Defined.


(** * Further properties of the engine and the tools *)

Section Further.
Context {host : Host}.

(** ** The clock *)

Lemma factor_rules_same_season m1 m2 self :
  existsb (Z.eqb m1) [5; 6; 7; 8] = existsb (Z.eqb m2) [5; 6; 7; 8] ->
  _apply_factor_based_rules m1 self = _apply_factor_based_rules m2 self.
Proof. unfold _apply_factor_based_rules. intros ->. reflexivity. Qed.

Lemma factor_rules_out_of_season m1 m2 self :
  mem "Weather & Seasons" (factors_of self) = false
  \/ existsb
       (fun c => py_eq (get_or (product self) "Category" (JStr "")) (JStr c))
       SEASONAL_SUMMER_CATEGORIES = false ->
  _apply_factor_based_rules m1 self = _apply_factor_based_rules m2 self.
Proof.
  unfold _apply_factor_based_rules. intros [-> | ->]; [reflexivity|].
  rewrite !andb_false_r. reflexivity.
Qed.

Lemma calculate_price_by_factor_rules m1 m2 self :
  (forall self1,
     product self1 = product self ->
     _apply_factor_based_rules m1 self1 = _apply_factor_based_rules m2 self1) ->
  calculate_price m1 self = calculate_price m2 self.
Proof.
  intros Hrules. unfold calculate_price.
  destruct (missing_keys (product self)); [|reflexivity].
  destruct (if py_eq _ _ then _ else _) as [[|]|e]; cbn [bind];
    try reflexivity.
  destruct (_apply_inventory_rules self) as [self1|e] eqn:Hinv; cbn [bind];
    [|reflexivity].
  rewrite Hrules; [reflexivity|].
  destruct (order_value_rules_keeps self1) as (-> & _).
  apply inventory_rules_keeps in Hinv. tauto.
Qed.

Lemma process_items_by_calculate_price m1 m2 items :
  (forall self, calculate_price m1 self = calculate_price m2 self) ->
  PricingCalculatorTool.process_items m1 items
  = PricingCalculatorTool.process_items m2 items.
Proof.
  intros Hsame. induction items as [|item items IH]; [reflexivity|].
  cbn [PricingCalculatorTool.process_items]. rewrite IH. f_equal.
  unfold PricingCalculatorTool.process_item, calculate.
  destruct (py_get item "product_json" JNull) as [product_data|e];
    cbn [bind]; [|reflexivity].
  destruct (py_get item "quantity" JNull) as [quantity|e];
    cbn [bind]; [|reflexivity].
  destruct (negb _ || _); [reflexivity|].
  destruct (py_int quantity) as [q|e]; cbn [bind]; [|reflexivity].
  destruct (__init__ product_data q) as [self|e]; cbn [bind]; [|reflexivity].
  rewrite Hsame. reflexivity.
Qed.

(** X1.  Two clock readings of the same season, both in May to August or
    both outside, give the same result for every engine and the same
    output for every batch: the month is read only to test whether it is
    one of 5, 6, 7 and 8. *)
Theorem same_season_same_result m1 m2 :
  existsb (Z.eqb m1) [5; 6; 7; 8] = existsb (Z.eqb m2) [5; 6; 7; 8] ->
  (forall self, calculate_price m1 self = calculate_price m2 self)
  /\ (forall line_items,
        PricingCalculatorTool._run m1 line_items
        = PricingCalculatorTool._run m2 line_items).
Proof.
  intros Hseason.
  assert (Hsame : forall self,
             calculate_price m1 self = calculate_price m2 self).
  { intros self. apply calculate_price_by_factor_rules. intros self1 _.
    apply factor_rules_same_season, Hseason. }
  split; [exact Hsame|].
  intros [| | | | |items|]; try reflexivity.
  unfold PricingCalculatorTool._run.
  rewrite (process_items_by_calculate_price m1 m2 items Hsame). reflexivity.
Qed.

(** X2.  A product without the factor "Weather & Seasons", or whose
    category is none of the summer categories, is priced the same in
    every month. *)
Theorem unseasonal_product_ignores_the_month m1 m2 self :
  mem "Weather & Seasons" (factors_of self) = false
  \/ existsb
       (fun c => py_eq (get_or (product self) "Category" (JStr "")) (JStr c))
       SEASONAL_SUMMER_CATEGORIES = false ->
  calculate_price m1 self = calculate_price m2 self.
Proof.
  intros Hout. apply calculate_price_by_factor_rules. intros self1 Hp.
  apply factor_rules_out_of_season.
  rewrite (factors_of_product self self1 Hp), Hp. exact Hout.
Qed.

(** ** Records that are not priced *)

Lemma init_of_dict (o : dict) quantity p :
  py_float (get_or o "Min_Selling_Price_Rs" (JInt 0)) = Ok p ->
  __init__ (JObj o) quantity = Ok (fresh o quantity p).
Proof. intros Hp. unfold __init__. cbn [py_get bind]. rewrite Hp. reflexivity. Qed.

(** X3.  A record with a required field missing or null, whose price
    [float] can read (a number, or no price at all, which [__init__]
    takes as [0]), is answered with the unapproved "Product data
    incomplete" result, which names the missing fields in the order of
    [required_keys], whatever the month and the quantity. *)
Theorem incomplete_record_is_reported month o quantity p :
  missing_keys o <> [] ->
  py_float (get_or o "Min_Selling_Price_Rs" (JInt 0)) = Ok p ->
  calculate month (JObj o) quantity
  = Ok (JObj
          [ ("product_name", get_or o "Product_Name" (JStr "Unknown"));
            ("approved_for_quote", JBool false);
            ("status",
             JStr ("Product data incomplete. Missing required fields: "
                   ++ concat ", " (filter (absent o) required_keys))) ]).
Proof.
  intros Hmiss Hp.
  unfold calculate. rewrite (init_of_dict o quantity p Hp). cbn [bind].
  rewrite calculate_price_incomplete by exact Hmiss. reflexivity.
Qed.

(** X4.  A complete record whose status is "Out of Stock" is rejected
    with the status "Product is out of stock." for every quantity.  The
    stock quantity is not compared with the quantity: it may be a value
    that cannot be compared with an int. *)
Theorem out_of_stock_is_rejected_unseen month o quantity p :
  missing_keys o = [] ->
  py_eq (get_or o "Stock_Status" JNull) (JStr "Out of Stock") = true ->
  py_float (get_or o "Min_Selling_Price_Rs" (JInt 0)) = Ok p ->
  calculate month (JObj o) quantity
  = Ok (JObj
          [ ("product_name", get_or o "Product_Name" JNull);
            ("quantity_requested", JInt quantity);
            ("approved_for_quote", JBool false);
            ("status", JStr "Product is out of stock.") ]).
Proof.
  intros Hmiss Hoos Hp.
  unfold calculate. rewrite (init_of_dict o quantity p Hp). cbn [bind].
  unfold calculate_price. cbn [product fresh]. rewrite Hmiss, Hoos.
  reflexivity.
Qed.

(** X5.  A complete record that is not out of stock and whose int stock
    [s] is below the quantity is rejected with the status "Insufficient
    stock. Requested: <quantity>, Available: <s>.", for a stock and a
    quantity of at most 4300 digits, which the status can print. *)
Theorem insufficient_stock_is_rejected month o quantity p s :
  missing_keys o = [] ->
  py_eq (get_or o "Stock_Status" JNull) (JStr "Out of Stock") = false ->
  get_or o "Quantity_in_Stock" JNull = JInt s ->
  s < quantity ->
  printable s ->
  printable quantity ->
  py_float (get_or o "Min_Selling_Price_Rs" (JInt 0)) = Ok p ->
  calculate month (JObj o) quantity
  = Ok (JObj
          [ ("product_name", get_or o "Product_Name" JNull);
            ("quantity_requested", JInt quantity);
            ("approved_for_quote", JBool false);
            ("status",
             JStr ("Insufficient stock. Requested: " ++ dec quantity
                   ++ ", Available: " ++ dec s ++ ".")) ]).
Proof.
  intros Hmiss Hoos Hs Hlt _ _ Hp.
  unfold calculate. rewrite (init_of_dict o quantity p Hp). cbn [bind].
  unfold calculate_price. cbn [product PricingRulesEngine.quantity fresh].
  rewrite Hmiss, Hoos, Hs, py_gt_ints.
  replace (s <? quantity) with true by (symmetry; apply Z.ltb_lt; exact Hlt).
  reflexivity.
Qed.

(** ** What a call leaves of the engine *)

Lemma inventory_rules_trail self self' :
  _apply_inventory_rules self = Ok self' ->
  final_price self' = final_price self
  /\ (adjustments self' = adjustments self
      \/ exists v,
           adjustments self'
           = (adjustments self
              ++ [ {| type := discount; value := v;
                      reason := inventory_reason
                                  (get_or (product self) "Quantity_in_Stock"
                                     (JInt 0)) |} ])%list).
Proof.
  unfold _apply_inventory_rules. intros H.
  destruct (truthy _); [|apply Ok_inj in H; subst; auto].
  inv_bind H. inv_bind H. destruct a0; [|apply Ok_inj in H; subst; auto].
  inv_bind H. inv_bind H. inv_bind H. inv_bind_as H pct Hpct.
  apply Ok_inj in H. subst self'. split; [reflexivity|]. right.
  exists pct. reflexivity.
Qed.

Lemma order_value_rules_trail self :
  final_price (_apply_order_value_rules self) = final_price self
  /\ adjustments (_apply_order_value_rules self)
     = (adjustments self
        ++ (if 25 <=? quantity self
            then [ {| type := discount;
                      value := NFloat (of_dec false 75 10);
                      reason := "Bulk Order Discount: For ordering "
                                ++ dec (quantity self) ++ " units (25+)." |} ]
            else []))%list.
Proof.
  unfold _apply_order_value_rules.
  destruct (25 <=? quantity self); cbn [adjustments final_price append];
    rewrite ?app_nil_r; auto.
Qed.

(** The markups of [_apply_factor_based_rules], in the order it appends
    them. *)
Lemma factor_rules_trail month self :
  exists c,
    final_price (_apply_factor_based_rules month self) = final_price self
    /\ existsb (String.eqb c) SEASONAL_SUMMER_CATEGORIES = true
    /\ exists season demographic : bool,
         adjustments (_apply_factor_based_rules month self)
         = (if mem "Purchasing Power" (factors_of self)
            then map neutralize else fun l => l)
             (adjustments self
              ++ (if season
                  then [ {| type := markup; value := NFloat (of_Z 10);
                            reason := "In-Season Demand Markup: '" ++ c
                                      ++ "' is a popular summer category." |} ]
                  else [])
              ++ (if demographic
                  then [ {| type := markup; value := NFloat (of_Z 3);
                            reason := "Targeted Product Premium: Price adjusted for specific demographic appeal." |} ]
                  else []))%list.
Proof.
  unfold _apply_factor_based_rules.
  set (pp := mem "Purchasing Power" (factors_of self)).
  set (category := get_or (product self) "Category" (JStr "")).
  assert (Hcat : existsb (fun c => py_eq category (JStr c))
                   SEASONAL_SUMMER_CATEGORIES = true ->
                 exists c, py_str category = c
                           /\ existsb (String.eqb c)
                                SEASONAL_SUMMER_CATEGORIES = true).
  { intros Hin. exists (py_str category). split; [reflexivity|].
    destruct category as [| | | |c| |]; try discriminate Hin.
    exact Hin. }
  destruct (mem "Weather & Seasons" (factors_of self)).
  - destruct (existsb (Z.eqb month) [5; 6; 7; 8]); cbn [andb].
    + destruct (existsb _ SEASONAL_SUMMER_CATEGORIES) eqn:Hin.
      * destruct (Hcat eq_refl) as (c & -> & Hc). exists c.
        destruct (mem "Age" (factors_of self) || mem "Gender" (factors_of self)).
        -- split; [destruct pp; reflexivity|]. split; [exact Hc|].
           exists true, true. destruct pp; cbn [adjustments append set_adjustments];
             rewrite <- ?app_assoc; reflexivity.
        -- split; [destruct pp; reflexivity|]. split; [exact Hc|].
           exists true, false. destruct pp; cbn [adjustments append set_adjustments];
             rewrite ?app_nil_r; reflexivity.
      * exists "Toys & Games".
        destruct (mem "Age" (factors_of self) || mem "Gender" (factors_of self)).
        -- split; [destruct pp; reflexivity|]. split; [reflexivity|].
           exists false, true. destruct pp; cbn [adjustments append set_adjustments app];
             reflexivity.
        -- split; [destruct pp; reflexivity|]. split; [reflexivity|].
           exists false, false. destruct pp; cbn [adjustments append set_adjustments app];
             rewrite ?app_nil_r; reflexivity.
    + exists "Toys & Games".
      destruct (mem "Age" (factors_of self) || mem "Gender" (factors_of self)).
      * split; [destruct pp; reflexivity|]. split; [reflexivity|].
        exists false, true. destruct pp; cbn [adjustments append set_adjustments app];
          reflexivity.
      * split; [destruct pp; reflexivity|]. split; [reflexivity|].
        exists false, false. destruct pp; cbn [adjustments append set_adjustments app];
          rewrite ?app_nil_r; reflexivity.
  - exists "Toys & Games".
    destruct (mem "Age" (factors_of self) || mem "Gender" (factors_of self)).
    + split; [destruct pp; reflexivity|]. split; [reflexivity|].
      exists false, true. destruct pp; cbn [adjustments append set_adjustments app];
        reflexivity.
    + split; [destruct pp; reflexivity|]. split; [reflexivity|].
      exists false, false. destruct pp; cbn [adjustments append set_adjustments app];
        rewrite ?app_nil_r; reflexivity.
Qed.

Lemma calculate_price_unpriced month self out self' :
  calculate_price month self = Ok (out, self') ->
  ~ approved out ->
  self' = self
  /\ exists name status,
       field out "product_name" = Some name
       /\ field out "status" = Some (JStr status)
       /\ field out "approved_for_quote" = Some (JBool false).
Proof.
  unfold calculate_price. intros H Hnot.
  destruct (missing_keys (product self)) as [|k ks].
  2:{ apply Ok_inj in H. injection H as <- <-. split; [reflexivity|].
      do 2 eexists. repeat split. }
  inv_bind H. destruct a.
  { apply Ok_inj in H. injection H as <- <-. split; [reflexivity|].
    do 2 eexists. repeat split. }
  inv_bind H. inv_bind H. inv_bind H. inv_bind H. inv_bind H. inv_bind H.
  apply Ok_inj in H. injection H as <- <-.
  exfalso. apply Hnot. reflexivity.
Qed.

(** X6.  A call of [calculate_price] that returns leaves [product],
    [quantity], [base_price] and [final_price] as they were
    ([final_price] is never updated); a call that does not approve leaves
    the whole engine as it was; an approving call removes no adjustment
    from the trail and adds at most four. *)
Theorem calculate_price_keeps_the_engine month self out self' :
  calculate_price month self = Ok (out, self') ->
  product self' = product self
  /\ quantity self' = quantity self
  /\ base_price self' = base_price self
  /\ final_price self' = final_price self
  /\ (~ approved out -> self' = self)
  /\ (List.length (adjustments self) <= List.length (adjustments self')
      <= List.length (adjustments self) + 4)%nat.
Proof.
  intros Hcalc.
  assert (Hleft : ~ approved out -> self' = self).
  { intros Hnot.
    apply (calculate_price_unpriced _ _ _ _ Hcalc Hnot). }
  assert (Hdec : approved out \/ ~ approved out).
  { unfold approved. destruct (field out "approved_for_quote") as [[| [|] | | | | |]|];
      (left; reflexivity) || (right; discriminate). }
  destruct Hdec as [Happ|Hnot].
  2:{ rewrite (Hleft Hnot). repeat split; lia. }
  destruct (calculate_price_priced _ _ _ _ Hcalc Happ)
    as (self1 & net & fraction & factor & unit_price & total
        & _ & _ & _ & Hinv & Hself' & _).
  destruct (inventory_rules_keeps _ _ Hinv) as (Hp1 & Hq1 & Hb1).
  destruct (inventory_rules_trail _ _ Hinv) as (Hf1 & Ht1).
  destruct (order_value_rules_keeps self1) as (Hp2 & Hq2 & Hb2).
  destruct (order_value_rules_trail self1) as (Hf2 & Ht2).
  destruct (factor_rules_keeps month (_apply_order_value_rules self1))
    as (Hp3 & Hq3 & Hb3).
  destruct (factor_rules_trail month (_apply_order_value_rules self1))
    as (c & Hf3 & _ & season & demographic & Ht3).
  rewrite <- Hself' in Hp3, Hq3, Hb3, Hf3, Ht3.
  split; [congruence|]. split; [congruence|]. split; [congruence|].
  split; [congruence|]. split; [exact Hleft|].
  assert (Hlen : List.length (adjustments self')
                 = List.length
                     (adjustments (_apply_order_value_rules self1)
                      ++ (if season
                          then [ {| type := markup; value := NFloat (of_Z 10);
                                    reason := "In-Season Demand Markup: '" ++ c
                                              ++ "' is a popular summer category." |} ]
                          else [])
                      ++ (if demographic
                          then [ {| type := markup; value := NFloat (of_Z 3);
                                    reason := "Targeted Product Premium: Price adjusted for specific demographic appeal." |} ]
                          else []))%list).
  { rewrite Ht3. destruct (mem _ _); [apply length_map|reflexivity]. }
  rewrite Hlen, Ht2, !length_app.
  assert (H1 : (List.length (adjustments self)
                <= List.length (adjustments self1)
                <= List.length (adjustments self) + 1)%nat).
  { destruct Ht1 as [-> | (v & ->)]; [lia|].
    rewrite length_app. cbn [List.length]. lia. }
  destruct (25 <=? quantity self1), season, demographic; cbn [List.length];
    lia.
Qed.

(** ** The risk tool on what the engine returns *)

(** X7.  The risk tool, given an unapproved result of
    [calculate_price], returns "Low" with a summary that quotes the
    product name and the status of that result. *)
Theorem unpriced_result_is_low_risk month self out self' :
  calculate_price month self = Ok (out, self') ->
  ~ approved out ->
  exists name status,
    field out "product_name" = Some name
    /\ field out "status" = Some (JStr status)
    /\ RiskAssessmentTool._run out
       = Ok (JObj
               [ ("risk_level", JStr "Low");
                 ("summary",
                  JStr ("Item '" ++ py_str name
                        ++ "' poses no pricing risk as it is not being quoted. Reason: "
                        ++ status)) ]).
Proof.
  unfold calculate_price. intros H Hnot.
  destruct (missing_keys (product self)) as [|k ks].
  2:{ apply Ok_inj in H. injection H as <- <-.
      do 2 eexists. split; [reflexivity|]. split; [reflexivity|].
      reflexivity. }
  inv_bind H. destruct a.
  { apply Ok_inj in H. injection H as <- <-.
    do 2 eexists. split; [reflexivity|]. split; [reflexivity|].
    reflexivity. }
  inv_bind H. inv_bind H. inv_bind H. inv_bind H. inv_bind H. inv_bind H.
  apply Ok_inj in H. injection H as <- <-.
  exfalso. apply Hnot. reflexivity.
Qed.

(** ** The batch *)

Lemma process_items_app month a b :
  PricingCalculatorTool.process_items month (a ++ b)
  = (ra <- PricingCalculatorTool.process_items month a ;;
     rb <- PricingCalculatorTool.process_items month b ;;
     Ok (ra ++ rb)%list).
Proof.
  induction a as [|item a IH]; cbn [app PricingCalculatorTool.process_items].
  - cbn [bind]. destruct (PricingCalculatorTool.process_items month b);
      reflexivity.
  - destruct (PricingCalculatorTool.process_item month item) as [entry|e];
      cbn [bind]; [|reflexivity].
    rewrite IH.
    destruct (PricingCalculatorTool.process_items month a) as [ra|e];
      cbn [bind]; [|reflexivity].
    destruct (PricingCalculatorTool.process_items month b) as [rb|e];
      cbn [bind]; reflexivity.
Qed.

Lemma process_items_each month items results :
  PricingCalculatorTool.process_items month items = Ok results ->
  Forall2 (fun item entry =>
             PricingCalculatorTool.process_item month item = Ok entry)
    items results.
Proof.
  revert results. induction items as [|item items IH]; intros results H.
  - apply Ok_inj in H. subst. constructor.
  - cbn [PricingCalculatorTool.process_items] in H.
    inv_bind_as H entry Hentry. inv_bind_as H entries Hentries.
    apply Ok_inj in H. subst results. constructor; [exact Hentry|].
    apply IH, Hentries.
Qed.

(** X8.  The loop of the batch tool handles a batch [a ++ b] as [a] and
    then [b], the results in the same order; and when the tool returns for
    a list, it returns a list with one result for each entry, in order,
    each the result of that entry alone. *)
Theorem batch_is_entry_by_entry month :
  (forall a b,
     PricingCalculatorTool.process_items month (a ++ b)
     = (ra <- PricingCalculatorTool.process_items month a ;;
        rb <- PricingCalculatorTool.process_items month b ;;
        Ok (ra ++ rb)%list))
  /\ (forall items results,
        PricingCalculatorTool._run month (JArr items) = Ok results ->
        exists entries,
          results = JArr entries
          /\ List.length entries = List.length items
          /\ Forall2 (fun item entry =>
                        PricingCalculatorTool.process_item month item
                        = Ok entry)
               items entries).
Proof.
  split; [apply process_items_app|].
  intros items results H. unfold PricingCalculatorTool._run in H.
  inv_bind_as H entries Hentries. apply Ok_inj in H. subst results.
  exists entries. split; [reflexivity|].
  pose proof (process_items_each _ _ _ Hentries) as Heach.
  split; [|exact Heach].
  symmetry. apply (Forall2_length Heach).
Qed.

(** X9.  A batch whose entries are all dicts with a [product_json] that
    is absent, falsy or a dict is always answered, entry by entry: each
    exception raised while pricing an entry ends in that entry's error
    object. *)
Theorem batch_answers_every_record month items :
  Forall record_entry items ->
  exists entries,
    PricingCalculatorTool._run month (JArr items) = Ok (JArr entries)
    /\ Forall2 (fun item entry =>
                  PricingCalculatorTool.process_item month item = Ok entry)
         items entries.
Proof.
  intros Hall.
  assert (H : exists entries,
             PricingCalculatorTool.process_items month items = Ok entries).
  { induction Hall as [|item items Hitem _ IH]; [exists []; reflexivity|].
    destruct IH as (entries & Hrest).
    destruct (process_item_record month item Hitem) as (entry & Hentry).
    exists (entry :: entries). cbn [PricingCalculatorTool.process_items].
    rewrite Hentry. cbn [bind]. rewrite Hrest. reflexivity. }
  destruct H as (entries & Hentries). exists entries.
  unfold PricingCalculatorTool._run. rewrite Hentries.
  split; [reflexivity|]. apply process_items_each, Hentries.
Qed.

(** X10.  A quantity given as a finite float is truncated toward zero
    by [int(quantity)]: the entry is processed as the entry with that int
    quantity. *)
Theorem fractional_quantity_is_truncated month (o1 o2 : dict) s u :
  get_or o1 "product_json" JNull = get_or o2 "product_json" JNull ->
  get_or o1 "quantity" JNull = JFloat (Ffin s u) ->
  get_or o2 "quantity" JNull = JInt (trunc s u) ->
  PricingCalculatorTool.process_item month (JObj o1)
  = PricingCalculatorTool.process_item month (JObj o2).
Proof.
  intros Hp H1 H2. unfold PricingCalculatorTool.process_item.
  cbn [py_get bind]. rewrite Hp, H1, H2. reflexivity.
Qed.

End Further.

(** ** Sums of bounded floats *)

Lemma bounded_weaken A B A' B' n :
  bounded A B n -> A' <= A -> B <= B' -> bounded A' B' n.
Proof.
  destruct n as [z|[| |s u]]; cbn [bounded]; try tauto; intros; lia.
Qed.

Lemma rounded_sum_bounded A B w b :
  representable A -> representable B -> A <= w <= B ->
  bounded A B
    (NFloat (if w =? 0 then Ffin b 0
             else of_ratio (w <? 0) (Z.abs w) 1)).
Proof.
  intros (HA & HAh) (HB & HBh) Hw.
  destruct (Z.eqb_spec w 0) as [->|Hw0].
  - cbn [bounded]. unfold sv. destruct b; lia.
  - pose proof (round_units_nonneg (Z.abs w) 1 ltac:(lia) ltac:(lia)) as Hnn.
    destruct (Z.ltb_spec w 0) as [Hneg|Hpos].
    + pose proof (round_units_mono (Z.abs w) (Z.abs A) 1 ltac:(lia) ltac:(lia))
        as Hle.
      unfold of_ratio.
      destruct (Z.ltb_spec (round_units (Z.abs w) 1) huge); [|lia].
      cbn [bounded]. unfold sv. split; [exact Hnn|]. split; [lia|].
      destruct (Z.le_gt_cases 0 B); [lia|].
      pose proof (round_units_mono (Z.abs B) (Z.abs w) 1 ltac:(lia) ltac:(lia)).
      lia.
    + pose proof (round_units_mono (Z.abs w) (Z.abs B) 1 ltac:(lia) ltac:(lia))
        as Hle.
      unfold of_ratio.
      destruct (Z.ltb_spec (round_units (Z.abs w) 1) huge); [|lia].
      cbn [bounded]. unfold sv. split; [exact Hnn|]. split; [|lia].
      destruct (Z.le_gt_cases A 0); [lia|].
      pose proof (round_units_mono (Z.abs A) (Z.abs w) 1 ltac:(lia) ltac:(lia)).
      lia.
Qed.

Lemma fadd_bounded A B C D x y :
  bounded A B (NFloat x) -> bounded C D (NFloat y) ->
  representable (A + C) -> representable (B + D) ->
  bounded (A + C) (B + D) (NFloat (fadd x y)).
Proof.
  destruct x as [| |s u], y as [| |t v]; cbn [bounded]; try contradiction.
  intros (Hu & Hx) (Hv & Hy) H1 H2. unfold fadd.
  apply rounded_sum_bounded; [assumption|assumption|lia].
Qed.

Lemma fopp_bounded C D y :
  bounded C D (NFloat y) -> bounded (- D) (- C) (NFloat (fopp y)).
Proof.
  destruct y as [| |t v]; cbn [bounded fopp]; try contradiction.
  unfold sv. destruct t; cbn [negb]; lia.
Qed.

Lemma zero_bounded A B : A <= 0 <= B -> bounded A B (NFloat (Ffin false 0)).
Proof. intros H. cbn [bounded]. unfold sv. lia. Qed.

Lemma num_add_bounded A B C D total v :
  bounded A B total -> bounded C D v ->
  representable (A + C) -> representable (B + D) ->
  exists total', num_add total v = Ok total' /\ bounded (A + C) (B + D) total'.
Proof.
  intros Ht Hv H1 H2. unfold num_add, num_arith, to_float.
  destruct total as [x|x], v as [y|y].
  - destruct Ht as (-> & Ht), Hv as (-> & Hv).
    eexists. split; [reflexivity|]. cbn [bounded]. lia.
  - destruct Ht as (-> & Ht). rewrite float_of_int_0. cbn [bind].
    eexists. split; [reflexivity|].
    apply fadd_bounded; try assumption. apply zero_bounded, Ht.
  - destruct Hv as (-> & Hv). rewrite float_of_int_0. cbn [bind].
    eexists. split; [reflexivity|].
    apply fadd_bounded; try assumption. apply zero_bounded, Hv.
  - cbn [bind]. eexists. split; [reflexivity|].
    apply fadd_bounded; assumption.
Qed.

Lemma num_sub_bounded A B C D total v :
  bounded A B total -> bounded C D v ->
  representable (A - D) -> representable (B - C) ->
  exists total', num_sub total v = Ok total' /\ bounded (A - D) (B - C) total'.
Proof.
  intros Ht Hv H1 H2. unfold num_sub, num_arith, to_float, fsub.
  destruct total as [x|x], v as [y|y].
  - destruct Ht as (-> & Ht), Hv as (-> & Hv).
    eexists. split; [reflexivity|]. cbn [bounded]. lia.
  - destruct Ht as (-> & Ht). rewrite float_of_int_0. cbn [bind].
    eexists. split; [reflexivity|].
    apply (fadd_bounded A B (- D) (- C)); try assumption.
    + apply zero_bounded, Ht.
    + apply fopp_bounded, Hv.
  - destruct Hv as (-> & Hv). rewrite float_of_int_0. cbn [bind].
    eexists. split; [reflexivity|].
    apply (fadd_bounded A B (- D) (- C)); try assumption.
    apply (zero_bounded (- D) (- C)). lia.
  - cbn [bind]. eexists. split; [reflexivity|].
    apply (fadd_bounded A B (- D) (- C)); try assumption.
    apply fopp_bounded, Hv.
Qed.

Lemma total_adjustment_discount A B D total l :
  bounded A B total -> slot discount D l -> 0 <= D ->
  representable (A - D) -> representable (B - 0) ->
  exists total',
    (forall rest,
       total_adjustment total (l ++ rest) = total_adjustment total' rest)
    /\ bounded (A - D) (B - 0) total'.
Proof.
  intros Ht [-> | (adj & -> & Hty & Hv)] HD H1 H2.
  - exists total. split; [reflexivity|].
    apply (bounded_weaken A B); [assumption|lia|lia].
  - destruct (num_sub_bounded A B 0 D total (value adj) Ht Hv H1 H2)
      as (total' & Hsub & Hb).
    exists total'. split; [|exact Hb].
    intros rest. cbn [app total_adjustment]. rewrite Hty, Hsub. reflexivity.
Qed.

Lemma total_adjustment_markup A B D total l :
  bounded A B total -> slot markup D l -> 0 <= D ->
  representable (A + 0) -> representable (B + D) ->
  exists total',
    (forall rest,
       total_adjustment total (l ++ rest) = total_adjustment total' rest)
    /\ bounded (A + 0) (B + D) total'.
Proof.
  intros Ht [-> | (adj & -> & Hty & Hv)] HD H1 H2.
  - exists total. split; [reflexivity|].
    apply (bounded_weaken A B); [assumption|lia|lia].
  - destruct (num_add_bounded A B 0 D total (value adj) Ht Hv H1 H2)
      as (total' & Hadd & Hb).
    exists total'. split; [|exact Hb].
    intros rest. cbn [app total_adjustment]. rewrite Hty, Hadd. reflexivity.
Qed.

Lemma slot_neutralize ty D l :
  0 <= D -> slot ty D l -> slot ty D (map neutralize l).
Proof.
  intros HD [-> | (adj & -> & Hty & Hv)]; [left; reflexivity|].
  right. exists (neutralize adj). split; [reflexivity|].
  unfold neutralize. destruct (contains _ _); [|auto].
  cbn [type value]. split; [exact Hty|]. cbn [bounded]. lia.
Qed.

Lemma round2_bounded A B n :
  bounded A B n -> A <= 0 <= B -> kept_by_round2 A -> kept_by_round2 B ->
  bounded A B (py_round2 n).
Proof.
  intros Hn HAB (HA & HAh) (HB & HBh). pose proof one_u_pos as Hone.
  destruct n as [z|[| |s u]]; cbn [bounded] in Hn; try contradiction.
  { unfold py_round2. exact Hn. }
  destruct Hn as (Hu & Hsv). unfold py_round2, round2.
  assert (Hmono : forall M, u <= M ->
             round_units (rne (100 * u) one_u * one_u) 100
             <= round_units (rne (100 * M) one_u * one_u) 100).
  { intros M HM. apply round_units_mono; [lia|].
    pose proof (rne_bounds (100 * u) one_u Hone).
    assert (0 <= 100 * u / one_u) by (apply Z.div_pos; lia).
    pose proof (rne_mono (100 * u) (100 * M) one_u Hone ltac:(lia)).
    split; [apply Z.mul_nonneg_nonneg; lia|].
    apply Z.mul_le_mono_nonneg_r; lia. }
  assert (Hnn : 0 <= round_units (rne (100 * u) one_u * one_u) 100).
  { apply round_units_nonneg; [lia|].
    pose proof (rne_bounds (100 * u) one_u Hone).
    assert (0 <= 100 * u / one_u) by (apply Z.div_pos; lia).
    apply Z.mul_nonneg_nonneg; lia. }
  unfold sv in Hsv. destruct s.
  - pose proof (Hmono (Z.abs A) ltac:(lia)) as Hle.
    unfold of_ratio.
    destruct (Z.ltb_spec (round_units (rne (100 * u) one_u * one_u) 100) huge);
      [|lia].
    cbn [bounded]. unfold sv. lia.
  - pose proof (Hmono (Z.abs B) ltac:(lia)) as Hle.
    unfold of_ratio.
    destruct (Z.ltb_spec (round_units (rne (100 * u) one_u * one_u) 100) huge);
      [|lia].
    cbn [bounded]. unfold sv. lia.
Qed.

Lemma bounded_leb A B n sa ua sb ub :
  sv sa ua = A -> sv sb ub = B -> bounded A B n ->
  num_leb (NFloat (Ffin sa ua)) n = true
  /\ num_leb n (NFloat (Ffin sb ub)) = true.
Proof.
  intros HA HB Hn. unfold num_leb, num_compare.
  destruct n as [z|[| |s u]]; cbn [bounded] in Hn; try contradiction.
  - destruct Hn as (-> & Hn). unfold zcompare. cbn [option_map].
    rewrite HA, HB, Z.mul_0_l.
    destruct (Z.compare_spec 0 A); destruct (Z.compare_spec 0 B);
      cbn [CompOpp]; auto; lia.
  - destruct Hn as (_ & Hn). unfold fcompare. rewrite HA, HB.
    destruct (Z.compare_spec A (sv s u));
      destruct (Z.compare_spec (sv s u) B); auto; lia.
Qed.

Lemma nonneg_le_bounded d M :
  nonneg d -> fleb d (Ffin false M) = true -> bounded 0 M (NFloat d).
Proof.
  destruct d as [|[]|[] u]; cbn [nonneg]; try contradiction; intros Hu Hle.
  - discriminate Hle.
  - rewrite fleb_fin in Hle. apply Z.leb_le in Hle.
    cbn [bounded]. unfold sv. lia.
Qed.

Lemma twenty_units : of_Z 20 = Ffin false (20 * one_u).
Proof. vm_compute. reflexivity. Qed.

Lemma inventory_discount_bounded s r d :
  0 < r -> 2 * r < s -> inventory_discount s r = Ok d ->
  bounded 0 (20 * one_u) (NFloat d).
Proof.
  intros Hr Hs Hd. unfold inventory_discount in Hd.
  inv_bind_as Hd ratio Hratio. apply Ok_inj in Hd. subst d.
  destruct (int_truediv_pos s (2 * r) ratio ltac:(lia) ltac:(lia) Hratio)
    as (-> & _).
  pose proof one_u_pos as Hone.
  assert (Hn : nonneg (Ffin false (round_units (s * one_u) (2 * r)))).
  { unfold nonneg. apply round_units_nonneg; [lia|].
    apply Z.mul_nonneg_nonneg; lia. }
  apply nonneg_le_bounded.
  - destruct c005_fin as (-> & H5), c020_fin as (-> & H20),
      c100_fin as (-> & H100).
    apply fmul_nonneg; [|assumption].
    apply fmin_nonneg; [apply fmul_nonneg; assumption|lia].
  - rewrite <- twenty_units. apply discount_of_ratio_capped, Hn.
Qed.

(** ** Characters of the reasons *)

Lemma lacks_app c a b : lacks c (a ++ b) = lacks c a && lacks c b.
Proof.
  unfold lacks. induction a as [|x a IH]; [reflexivity|].
  cbn [String.append list_ascii_of_string forallb]. rewrite IH.
  apply andb_assoc.
Qed.

Lemma lacks_contains c r s : lacks c s = true -> contains (String c r) s = false.
Proof.
  unfold lacks. induction s as [|x s IH]; [reflexivity|].
  cbn [list_ascii_of_string forallb contains prefix]. intros H.
  apply andb_true_iff in H. destruct H as (Hx & Hs).
  rewrite (IH Hs). destruct (ascii_dec c x) as [->|_]; [|reflexivity].
  rewrite Ascii.eqb_refl in Hx. discriminate Hx.
Qed.

Lemma lacks_digits c d :
  (code c <? 45)%N || (57 <? code c)%N = true ->
  lacks c (NilEmpty.string_of_uint d) = true.
Proof.
  intros Hc. unfold lacks.
  assert (Hne : forall x, (45 <=? code x)%N && (code x <=? 57)%N = true ->
                          negb (Ascii.eqb x c) = true).
  { intros x Hx. apply negb_true_iff, Ascii.eqb_neq. intros ->.
    apply andb_true_iff in Hx. destruct Hx as (H1 & H2).
    apply N.leb_le in H1, H2.
    apply orb_true_iff in Hc. destruct Hc as [H|H]; apply N.ltb_lt in H; lia. }
  induction d; cbn [NilEmpty.string_of_uint list_ascii_of_string forallb];
    [reflexivity|..]; rewrite IHd, andb_true_r; apply Hne; reflexivity.
Qed.

Lemma lacks_dec c z :
  (code c <? 45)%N || (57 <? code c)%N = true -> lacks c (dec z) = true.
Proof.
  intros Hc. unfold dec.
  assert (Hu : forall d, lacks c (NilZero.string_of_uint d) = true).
  { intros d. pose proof (lacks_digits c d Hc) as Hd.
    destruct d; try exact Hd. unfold lacks.
    cbn [NilZero.string_of_uint list_ascii_of_string forallb].
    rewrite andb_true_r. apply negb_true_iff, Ascii.eqb_neq. intros <-.
    discriminate Hc. }
  destruct z as [|p|p]; cbn [Z.to_int NilZero.string_of_int].
  - apply Hu.
  - apply Hu.
  - change (String "-" (NilZero.string_of_uint (Pos.to_uint p)))
      with ("-" ++ NilZero.string_of_uint (Pos.to_uint p)).
    rewrite lacks_app, Hu, andb_true_r. unfold lacks.
    cbn [list_ascii_of_string forallb]. rewrite andb_true_r.
    apply negb_true_iff, Ascii.eqb_neq. intros <-. discriminate Hc.
Qed.

Section Records.
Context {host : Host}.

(** ** Typed records *)

Lemma inventory_rules_int_ok self s r :
  get_or (product self) "Quantity_in_Stock" (JInt 0) = JInt s ->
  get_or (product self) "Reorder_Level" (JInt 1) = JInt r ->
  0 <= s <= 2 ^ 1023 ->
  exists self1, _apply_inventory_rules self = Ok self1.
Proof.
  intros Hs Hr Hsb. rewrite (inventory_rules_int self s r Hs Hr).
  destruct (Z.eqb_spec r 0) as [|Hr0]; cbn [orb]; [eauto|].
  destruct (negb _); [eauto|].
  unfold inventory_discount.
  destruct (int_truediv_ok s (2 * r) Hsb ltac:(lia)) as (ratio & ->).
  cbn [bind]. eauto.
Qed.

Lemma calculate_price_runs month self self1 :
  Forall (fun adj => tame (value adj)) (adjustments self) ->
  missing_keys (product self) = [] ->
  py_eq (get_or (product self) "Stock_Status" JNull) (JStr "Out of Stock")
  = false ->
  py_gt (JInt (quantity self))
    (get_or (product self) "Quantity_in_Stock" JNull) = Ok false ->
  _apply_inventory_rules self = Ok self1 ->
  - 2 ^ 1023 <= quantity self <= 2 ^ 1023 ->
  exists self' unit_price total net,
    calculate_price month self
    = Ok (priced self' unit_price total net, self').
Proof.
  intros Htame Hmiss Hoos Havail Hinv Hq.
  assert (Ht1 : Forall (fun adj => tame (value adj)) (adjustments self1))
    by (apply (inventory_rules_appends_tame self); assumption).
  destruct (inventory_rules_keeps _ _ Hinv) as (Hp1 & Hq1 & Hb1).
  destruct (order_value_rules_adjustments self1) as (bulk & Hbulk & Fbulk & _).
  destruct (order_value_rules_keeps self1) as (Hp2 & Hq2 & Hb2).
  destruct (factor_rules_adjustments month (_apply_order_value_rules self1))
    as (marks & Hmarks & Fmarks).
  destruct (factor_rules_keeps month (_apply_order_value_rules self1))
    as (Hp3 & Hq3 & Hb3).
  set (self3 := _apply_factor_based_rules month
                  (_apply_order_value_rules self1)) in *.
  assert (Ht3 : Forall (fun adj => tame (value adj)) (adjustments self3)).
  { rewrite Hmarks, Hbulk.
    assert (Forall (fun adj => tame (value adj))
              ((adjustments self1 ++ bulk) ++ marks)%list)
      by (repeat (apply Forall_app; split); auto using appended_tame).
    destruct (mem _ _); [apply neutralize_tame|]; assumption. }
  destruct (total_adjustment_tame _ Ht3 (NInt 0) eq_refl) as (net & Hnet & Htn).
  destruct (num_truediv_100 net Htn) as (fraction & Hfr).
  assert (Hq3' : quantity self3 = quantity self) by congruence.
  destruct (float_of_int_ok (quantity self) Hq) as (fq & Hfq).
  exists self3. do 3 eexists.
  unfold calculate_price. rewrite Hmiss, Hoos, Havail.
  cbn [bind]. rewrite Hinv. cbn [bind]. fold self3.
  rewrite Hnet. cbn [bind]. rewrite Hfr. cbn [bind].
  rewrite num_add_1. cbn [bind]. rewrite num_mul_floats. cbn [bind].
  unfold num_mul at 1, num_arith, to_float. rewrite Hq3', Hfq. reflexivity.
Qed.

(** X11.  For a typed record (every required field present, int stock
    [0 <= s <= 2^1023], int or absent reorder level, a price [float] can
    read) whose factors [str] converts, and every quantity from [-2^1023]
    on that has at most 4300 digits, [calculate] returns without raising,
    and the result is approved exactly when the record is not out of stock
    and the quantity is at most the stock. *)
Theorem typed_record_is_answered month o q s r p :
  typed_record o s r p ->
  plain_factors o ->
  0 <= s <= 2 ^ 1023 ->
  - 2 ^ 1023 <= q ->
  printable q ->
  exists out,
    calculate month (JObj o) q = Ok out
    /\ field out "approved_for_quote"
       = Some (JBool
                 (negb (py_eq (get_or o "Stock_Status" JNull)
                          (JStr "Out of Stock"))
                  && (q <=? s))).
Proof.
  intros (Hmiss & Hs & Hr & Hp) _ Hsb Hq _.
  unfold calculate. rewrite (init_of_dict o q p Hp). cbn [bind].
  destruct (py_eq (get_or o "Stock_Status" JNull) (JStr "Out of Stock"))
    eqn:Hoos.
  { unfold calculate_price. cbn [product fresh]. rewrite Hmiss, Hoos.
    cbn [bind fst]. eexists. split; reflexivity. }
  destruct (Z.leb_spec q s) as [Hle|Hgt].
  2:{ unfold calculate_price. cbn [product PricingRulesEngine.quantity fresh].
      rewrite Hmiss, Hoos, Hs, py_gt_ints.
      replace (s <? q) with true by (symmetry; apply Z.ltb_lt; exact Hgt).
      cbn [bind fst]. eexists. split; reflexivity. }
  assert (Hs0 : get_or o "Quantity_in_Stock" (JInt 0) = JInt s)
    by (apply get_or_present; [exact Hs|discriminate]).
  destruct (inventory_rules_int_ok (fresh o q p) s r Hs0 Hr Hsb)
    as (self1 & Hinv).
  destruct (calculate_price_runs month (fresh o q p) self1) as
    (self' & unit_price & total & net & ->).
  - constructor.
  - exact Hmiss.
  - exact Hoos.
  - cbn [product PricingRulesEngine.quantity fresh]. rewrite Hs, py_gt_ints.
    f_equal. apply Z.ltb_ge. exact Hle.
  - exact Hinv.
  - cbn [PricingRulesEngine.quantity fresh]. lia.
  - cbn [bind fst]. eexists. split; reflexivity.
Qed.

(** ** The net adjustment *)

Lemma inventory_slot self self1 s r :
  adjustments self = [] ->
  get_or (product self) "Quantity_in_Stock" (JInt 0) = JInt s ->
  get_or (product self) "Reorder_Level" (JInt 1) = JInt r ->
  0 <= r ->
  _apply_inventory_rules self = Ok self1 ->
  slot discount (20 * one_u) (adjustments self1).
Proof.
  intros Hfresh Hs Hr Hr0 Hinv.
  rewrite (inventory_rules_int self s r Hs Hr) in Hinv.
  destruct (Z.eqb_spec r 0) as [|Hrne]; cbn [orb] in Hinv.
  { apply Ok_inj in Hinv. subst self1. left. exact Hfresh. }
  destruct (Z.ltb_spec (2 * r) s) as [Hhigh|Hlow]; cbn [negb] in Hinv.
  2:{ apply Ok_inj in Hinv. subst self1. left. exact Hfresh. }
  inv_bind_as Hinv d Hd. apply Ok_inj in Hinv. subst self1.
  right. eexists. cbn [adjustments append]. rewrite Hfresh.
  split; [reflexivity|]. split; [reflexivity|]. cbn [value].
  apply (inventory_discount_bounded s r); [lia|exact Hhigh|exact Hd].
Qed.

Lemma representable_bounds :
  representable (0 - 20 * one_u) /\ representable (0 - 0)
  /\ representable (0 - 20 * one_u - 15 * (one_u / 2)) /\ representable (0 - 0 - 0)
  /\ representable (0 - 20 * one_u - 15 * (one_u / 2) + 0)
  /\ representable (0 - 0 - 0 + 10 * one_u)
  /\ representable (0 - 20 * one_u - 15 * (one_u / 2) + 0 + 0)
  /\ representable (0 - 0 - 0 + 10 * one_u + 3 * one_u)
  /\ kept_by_round2 (0 - 20 * one_u - 15 * (one_u / 2) + 0 + 0)
  /\ kept_by_round2 (0 - 0 - 0 + 10 * one_u + 3 * one_u).
Proof.
  repeat (split; [split; vm_compute; reflexivity|]).
  split; vm_compute; reflexivity.
Qed.

Lemma markup_values :
  of_dec false 75 10 = Ffin false (15 * (one_u / 2))
  /\ of_Z 10 = Ffin false (10 * one_u)
  /\ of_Z 3 = Ffin false (3 * one_u)
  /\ of_dec true 275 10
     = Ffin true (- (0 - 20 * one_u - 15 * (one_u / 2) + 0 + 0))
  /\ of_Z 13 = Ffin false (0 - 0 - 0 + 10 * one_u + 3 * one_u).
Proof. repeat (split; [vm_compute; reflexivity|]). vm_compute. reflexivity. Qed.

Lemma closed_le :
  0 <= 20 * one_u /\ 0 <= 15 * (one_u / 2) /\ 0 <= 10 * one_u
  /\ 0 <= 3 * one_u.
Proof.
  pose proof one_u_pos.
  assert (0 <= one_u / 2) by (apply Z.div_pos; lia). lia.
Qed.

Lemma net_of_fresh_engine month self self1 s r net :
  adjustments self = [] ->
  get_or (product self) "Quantity_in_Stock" (JInt 0) = JInt s ->
  get_or (product self) "Reorder_Level" (JInt 1) = JInt r ->
  0 <= r ->
  _apply_inventory_rules self = Ok self1 ->
  total_adjustment (NInt 0)
    (adjustments
       (_apply_factor_based_rules month (_apply_order_value_rules self1)))
  = Ok net ->
  bounded (0 - 20 * one_u - 15 * (one_u / 2) + 0 + 0)
    (0 - 0 - 0 + 10 * one_u + 3 * one_u) net.
Proof.
  intros Hfresh Hs Hr Hr0 Hinv Hnet.
  destruct closed_le as (H20 & H75 & H10 & H3).
  destruct markup_values as (E75 & E10 & E3 & _).
  destruct representable_bounds as (X1 & X2 & X3 & X4 & X5 & X6 & X7 & X8 & _).
  pose proof (inventory_slot self self1 s r Hfresh Hs Hr Hr0 Hinv) as S1.
  destruct (order_value_rules_trail self1) as (_ & Ht2).
  destruct (factor_rules_trail month (_apply_order_value_rules self1))
    as (c & _ & _ & season & demographic & Ht3).
  rewrite Ht3, Ht2 in Hnet. clear Ht3 Ht2.
  set (l1 := adjustments self1) in *.
  set (l2 := if 25 <=? quantity self1 then _ else _) in *.
  set (l3 := if season then _ else _) in *.
  set (l4 := if demographic then _ else _) in *.
  assert (S2 : slot discount (15 * (one_u / 2)) l2).
  { subst l2. destruct (25 <=? quantity self1); [right|left; reflexivity].
    eexists. split; [reflexivity|]. split; [reflexivity|]. cbn [value].
    rewrite E75. cbn [bounded]. unfold sv. lia. }
  assert (S3 : slot markup (10 * one_u) l3).
  { subst l3. destruct season; [right|left; reflexivity].
    eexists. split; [reflexivity|]. split; [reflexivity|]. cbn [value].
    rewrite E10. cbn [bounded]. unfold sv. lia. }
  assert (S4 : slot markup (3 * one_u) l4).
  { subst l4. destruct demographic; [right|left; reflexivity].
    eexists. split; [reflexivity|]. split; [reflexivity|]. cbn [value].
    rewrite E3. cbn [bounded]. unfold sv. lia. }
  assert (Hsum : forall m1 m2 m3 m4,
             slot discount (20 * one_u) m1 ->
             slot discount (15 * (one_u / 2)) m2 ->
             slot markup (10 * one_u) m3 -> slot markup (3 * one_u) m4 ->
             total_adjustment (NInt 0) (m1 ++ m2 ++ m3 ++ m4 ++ []) = Ok net ->
             bounded (0 - 20 * one_u - 15 * (one_u / 2) + 0 + 0)
               (0 - 0 - 0 + 10 * one_u + 3 * one_u) net).
  { intros m1 m2 m3 m4 T1 T2 T3 T4 Hsum.
    assert (B0 : bounded 0 0 (NInt 0)) by (cbn [bounded]; lia).
    destruct (total_adjustment_discount _ _ _ _ _ B0 T1 H20 X1 X2)
      as (t1 & R1 & B1).
    destruct (total_adjustment_discount _ _ _ _ _ B1 T2 H75 X3 X4)
      as (t2 & R2 & B2).
    destruct (total_adjustment_markup _ _ _ _ _ B2 T3 H10 X5 X6)
      as (t3 & R3 & B3).
    destruct (total_adjustment_markup _ _ _ _ _ B3 T4 H3 X7 X8)
      as (t4 & R4 & B4).
    rewrite R1, R2, R3, R4 in Hsum. cbn [total_adjustment] in Hsum.
    apply Ok_inj in Hsum. subst t4. exact B4. }
  destruct (mem "Purchasing Power"
              (factors_of (_apply_order_value_rules self1))).
  - rewrite !map_app in Hnet.
    apply (Hsum (map neutralize l1) (map neutralize l2) (map neutralize l3)
             (map neutralize l4)); try (apply slot_neutralize; assumption).
    rewrite app_nil_r, !app_assoc. rewrite !app_assoc in Hnet. exact Hnet.
  - apply (Hsum l1 l2 l3 l4); try assumption.
    rewrite app_nil_r, !app_assoc. rewrite !app_assoc in Hnet. exact Hnet.
Qed.

(** X12.  For a typed record with a reorder level that is not negative,
    the net adjustment of an approved result lies between [-27.5] and
    [13.0] per cent: at most the capped inventory discount and the bulk
    discount, at most the seasonal and the demographic markup. *)
Theorem net_adjustment_is_bounded month o q s r p out :
  typed_record o s r p ->
  0 <= r ->
  calculate month (JObj o) q = Ok out ->
  approved out ->
  exists net,
    field out "net_price_adjustment_percentage" = Some (json_of_num net)
    /\ num_leb (NFloat (of_dec true 275 10)) net = true
    /\ num_leb net (NFloat (of_Z 13)) = true.
Proof.
  intros (Hmiss & Hs & Hr & Hp) Hr0 Hcalc Happ.
  unfold calculate in Hcalc. rewrite (init_of_dict o q p Hp) in Hcalc.
  cbn [bind] in Hcalc.
  destruct (calculate_price month (fresh o q p)) as [[out' self']|e] eqn:Hrun;
    [|discriminate Hcalc].
  cbn [bind fst] in Hcalc. apply Ok_inj in Hcalc. subst out'.
  destruct (calculate_price_priced _ _ _ _ Hrun Happ)
    as (self1 & net & fraction & factor & unit_price & total
        & _ & _ & _ & Hinv & Hself' & Hnet & _ & _ & _ & _ & ->).
  assert (Hs0 : get_or o "Quantity_in_Stock" (JInt 0) = JInt s)
    by (apply get_or_present; [exact Hs|discriminate]).
  rewrite Hself' in Hnet.
  pose proof (net_of_fresh_engine month (fresh o q p) self1 s r net
                eq_refl Hs0 Hr Hr0 Hinv Hnet) as Hb.
  destruct representable_bounds as (_ & _ & _ & _ & _ & _ & _ & _ & X9 & X10).
  destruct closed_le as (H20 & H75 & H10 & H3).
  apply round2_bounded in Hb; [|lia|exact X9|exact X10].
  exists (py_round2 net). split; [reflexivity|].
  destruct markup_values as (_ & _ & _ & -> & ->).
  refine (bounded_leb _ _ _ _ _ _ _ _ _ Hb); unfold sv; lia.
Qed.

(** ** Reasons and risk *)

Lemma lacks_inventory_reason s :
  lacks "C" (inventory_reason (JInt s)) = true.
Proof.
  unfold inventory_reason. cbn [py_str].
  rewrite !lacks_app, lacks_dec by reflexivity. reflexivity.
Qed.

Lemma lacks_neutralize adj :
  lacks "C" (reason adj) = true -> lacks "C" (reason (neutralize adj)) = true.
Proof. unfold neutralize. destruct (contains _ _); [reflexivity|auto]. Qed.

Lemma trail_lacks_capped month self self1 s :
  adjustments self = [] ->
  get_or (product self) "Quantity_in_Stock" (JInt 0) = JInt s ->
  _apply_inventory_rules self = Ok self1 ->
  Forall (fun adj => lacks "C" (reason adj) = true)
    (adjustments
       (_apply_factor_based_rules month (_apply_order_value_rules self1))).
Proof.
  intros Hfresh Hs Hinv.
  destruct (inventory_rules_trail _ _ Hinv) as (_ & Ht1).
  destruct (order_value_rules_trail self1) as (_ & Ht2).
  destruct (factor_rules_trail month (_apply_order_value_rules self1))
    as (c & _ & Hc & season & demographic & Ht3).
  rewrite Ht3, Ht2. clear Ht3 Ht2.
  assert (Hall : Forall (fun adj => lacks "C" (reason adj) = true)
            (adjustments self1
             ++ (if 25 <=? quantity self1
                 then [ {| type := discount;
                           value := NFloat (of_dec false 75 10);
                           reason := "Bulk Order Discount: For ordering "
                                     ++ dec (quantity self1)
                                     ++ " units (25+)." |} ]
                 else [])
             ++ (if season
                 then [ {| type := markup; value := NFloat (of_Z 10);
                           reason := "In-Season Demand Markup: '" ++ c
                                     ++ "' is a popular summer category." |} ]
                 else [])
             ++ (if demographic
                 then [ {| type := markup; value := NFloat (of_Z 3);
                           reason := "Targeted Product Premium: Price adjusted for specific demographic appeal." |} ]
                 else []))%list).
  { repeat (apply Forall_app; split).
    - destruct Ht1 as [-> | (v & ->)]; rewrite Hfresh; [constructor|].
      cbn [app]. constructor; [|constructor]. cbn [reason]. rewrite Hs.
      apply lacks_inventory_reason.
    - destruct (25 <=? quantity self1); constructor; [|constructor].
      cbn [reason]. rewrite !lacks_app, lacks_dec by reflexivity.
      reflexivity.
    - destruct season; constructor; [|constructor]. cbn [reason].
      rewrite !lacks_app. unfold SEASONAL_SUMMER_CATEGORIES in Hc.
      cbn [existsb] in Hc. rewrite orb_false_r in Hc.
      apply orb_true_iff in Hc. destruct Hc as [Hc|Hc];
        [|apply orb_true_iff in Hc; destruct Hc as [Hc|Hc]];
        apply String.eqb_eq in Hc; subst c; reflexivity.
    - destruct demographic; constructor; [|constructor]. reflexivity. }
  rewrite <- !app_assoc.
  destruct (mem "Purchasing Power" _); [|exact Hall].
  apply Forall_map. revert Hall. apply Forall_impl.
  intros adj. apply lacks_neutralize.
Qed.

Lemma no_capped_reason adjs :
  Forall (fun adj => lacks "C" (reason adj) = true) adjs ->
  filter (contains "Capped") (reasoning_breakdown adjs) = [].
Proof.
  unfold reasoning_breakdown. induction 1 as [|adj adjs Hadj _ IH];
    [reflexivity|].
  cbn [filter]. destruct (negb _); [|exact IH].
  cbn [map filter]. rewrite (lacks_contains _ _ _ Hadj). exact IH.
Qed.

(** X13.  No reason written by a new engine for a record with an int
    stock contains "Capped".  So the risk tool, given an approved result
    of [calculate_price], returns "High" exactly when the net adjustment
    is below [-25.0], with the discount reason as its only reason, and
    "Low" otherwise. *)
Theorem priced_result_is_judged_by_its_net month self out self' s :
  adjustments self = [] ->
  get_or (product self) "Quantity_in_Stock" (JInt 0) = JInt s ->
  calculate_price month self = Ok (out, self') ->
  approved out ->
  exists data net,
    out = JObj data
    /\ field out "net_price_adjustment_percentage" = Some (json_of_num net)
    /\ existsb (contains "Capped") (reasoning_breakdown (adjustments self'))
       = false
    /\ RiskAssessmentTool._run out
       = Ok (if num_ltb net
                  (NFloat (fopp RiskAssessmentTool.max_allowed_discount))
             then JObj
                    [ ("risk_level", JStr "High");
                      ("summary", JStr "High risk detected.");
                      ("reasons",
                       JArr [ JStr (RiskAssessmentTool.discount_flag data
                                      (json_of_num net)) ]) ]
             else JObj
                    [ ("risk_level", JStr "Low");
                      ("summary",
                       JStr ("Item '"
                             ++ py_str (get_or (product self) "Product_Name"
                                          JNull)
                             ++ "' passed all checks.")) ]).
Proof.
  intros Hfresh Hs Hcalc Happ.
  destruct (calculate_price_priced _ _ _ _ Hcalc Happ)
    as (self1 & net & fraction & factor & unit_price & total
        & _ & _ & _ & Hinv & Hself' & _ & _ & _ & _ & _ & ->).
  pose proof (trail_lacks_capped month self self1 s Hfresh Hs Hinv) as Hlacks.
  rewrite <- Hself' in Hlacks.
  pose proof (no_capped_reason _ Hlacks) as Hnone.
  assert (Hprod : product self' = product self)
    by (apply (calculate_price_keeps_product _ _ _ _ Hcalc)).
  eexists. exists (py_round2 net). split; [reflexivity|].
  split; [reflexivity|]. split.
  { rewrite filter_nil_existsb, Hnone. reflexivity. }
  unfold RiskAssessmentTool._run, priced.
  cbn [py_get bind get_or dict_get String.eqb Ascii.eqb Bool.eqb truthy negb].
  rewrite is_none_json_of_num. unfold py_lt_float.
  rewrite as_num_json_of_num. cbn [bind py_iter].
  rewrite capped_flags_strings. cbn [bind]. rewrite Hnone. cbn [map app].
  rewrite Hprod.
  destruct (num_ltb _ _); reflexivity.
Qed.

(** ** A negative reorder level *)

(** X14.  With a negative int reorder level [r] and an int stock
    [0 <= s <= 2^1023] the inventory rule fires, and the value of the
    "discount" it appends is zero or negative: the rule guards against a
    zero reorder level only, and the cap bounds the value from above
    only. *)
Theorem negative_reorder_level_is_no_discount self s r :
  get_or (product self) "Quantity_in_Stock" (JInt 0) = JInt s ->
  get_or (product self) "Reorder_Level" (JInt 1) = JInt r ->
  r < 0 ->
  0 <= s <= 2 ^ 1023 ->
  exists d,
    _apply_inventory_rules self
    = Ok (append self
            {| type := discount; value := NFloat d;
               reason := inventory_reason (JInt s) |})
    /\ fleb d (Ffin false 0) = true.
Proof.
  intros Hs Hr Hneg Hsb. pose proof one_u_pos as Hone.
  rewrite (inventory_rules_int self s r Hs Hr).
  replace ((r =? 0) || negb (2 * r <? s)) with false.
  2:{ symmetry. apply orb_false_iff. split.
      - apply Z.eqb_neq. lia.
      - apply negb_false_iff, Z.ltb_lt. lia. }
  unfold inventory_discount, int_truediv.
  destruct (Z.eqb_spec (2 * r) 0); [lia|].
  destruct (Z.ltb_spec s 0); [lia|]. destruct (Z.ltb_spec (2 * r) 0); [|lia].
  cbn [xorb]. unfold of_ratio at 1.
  rewrite round_units_below_huge.
  2:lia.
  2:{ pose proof (units_bound (Z.abs s) ltac:(lia)) as Hb.
      assert (0 <= 2 ^ 2097) by (apply Z.pow_nonneg; lia).
      split; [lia|]. apply Z.le_trans with (1 * 2 ^ 2097); [lia|].
      apply Z.mul_le_mono_nonneg_r; lia. }
  cbn [bind]. eexists. split; [reflexivity|].
  set (u := round_units (Z.abs s * one_u) (Z.abs (2 * r))).
  assert (Hu : 0 <= u).
  { apply round_units_nonneg; [lia|]. apply Z.mul_nonneg_nonneg; lia. }
  destruct c005_fin as (-> & H5), c020_fin as (-> & H20),
    c100_fin as (-> & H100).
  set (u5 := round_units (5 * one_u) 100) in *.
  set (u20 := round_units (20 * one_u) 100) in *.
  set (u100 := round_units (100 * one_u) 1) in *.
  assert (Hneg1 : forall v c, 0 <= v -> 0 < c ->
             exists y, fmul (Ffin true v) (Ffin false c) = y
                       /\ (y = Finf true \/ exists w, y = Ffin true w /\ 0 <= w)).
  { intros v c Hv Hc. eexists. split; [reflexivity|].
    unfold fmul. cbn [xorb]. unfold of_ratio.
    destruct (_ <? huge); [right|left; reflexivity].
    eexists. split; [reflexivity|].
    apply round_units_nonneg; [lia|]. apply Z.mul_nonneg_nonneg; lia. }
  destruct (Hneg1 u u5 Hu H5) as (y & -> & Hy).
  destruct Hy as [-> | (w & -> & Hw)].
  - unfold fmin, fltb, fcompare. cbn [xorb].
    unfold fmul. destruct (Z.eqb_spec u100 0); [lia|]. reflexivity.
  - unfold fmin, fltb. unfold fcompare at 1. unfold sv.
    destruct (Z.compare_spec u20 (- w)); try lia.
    destruct (Hneg1 w u100 Hw H100) as (y & -> & Hy).
    destruct Hy as [-> | (w' & -> & Hw')]; [reflexivity|].
    unfold fleb, fcompare, sv.
    destruct (Z.compare_spec (- w') 0); try reflexivity; lia.
Qed.

End Records.

(** * The cache *)

Section Cache.
Import MemoryCache.

Lemma lookup_assign c key e : lookup (assign c key e) key = Some e.
Proof.
  induction c as [|[k v] c IH]; cbn [assign lookup].
  - rewrite String.eqb_refl. reflexivity.
  - destruct (String.eqb k key) eqn:Hk; cbn [lookup]; rewrite Hk;
      [reflexivity|exact IH].
Qed.

Lemma lookup_assign_other c key key' e :
  key' <> key -> lookup (assign c key e) key' = lookup c key'.
Proof.
  intros Hne. induction c as [|[k v] c IH]; cbn [assign lookup].
  - destruct (String.eqb_spec key key'); [congruence|reflexivity].
  - destruct (String.eqb_spec k key) as [->|Hk]; cbn [lookup].
    + destruct (String.eqb_spec key key'); [congruence|reflexivity].
    + rewrite IH. reflexivity.
Qed.

Lemma lookup_remove c key : lookup (remove c key) key = None.
Proof.
  unfold remove. induction c as [|[k v] c IH]; [reflexivity|].
  cbn [filter fst]. destruct (String.eqb k key) eqn:Hk; cbn [negb lookup];
    [exact IH|]. rewrite Hk. exact IH.
Qed.

Lemma lookup_remove_other c key key' :
  key' <> key -> lookup (remove c key) key' = lookup c key'.
Proof.
  intros Hne. unfold remove. induction c as [|[k v] c IH]; [reflexivity|].
  cbn [filter fst lookup].
  destruct (String.eqb_spec k key) as [->|Hk]; cbn [negb lookup].
  - destruct (String.eqb_spec key key'); [congruence|exact IH].
  - rewrite IH. reflexivity.
Qed.

Lemma remove_absent c key : lookup c key = None -> remove c key = c.
Proof.
  unfold remove. induction c as [|[k v] c IH]; [reflexivity|].
  cbn [lookup filter fst]. destruct (String.eqb k key); [discriminate|].
  intros H. cbn [negb]. rewrite (IH H). reflexivity.
Qed.

Lemma get_absent now self key :
  lookup (cache self) key = None -> get now self key = (JNull, self).
Proof. intros H. unfold get. rewrite H. reflexivity. Qed.

Lemma delete_absent self key :
  lookup (cache self) key = None -> delete self key = (false, self).
Proof. intros H. unfold delete. rewrite H. reflexivity. Qed.

Lemma set_inv now now' self key v ttl self' :
  set now now' self key v ttl = Ok self' ->
  exists expires,
    num_add (NFloat now)
      (NInt match ttl with
            | Some z => if z =? 0 then default_ttl self else z
            | None => default_ttl self
            end) = Ok expires
    /\ self' = with_cache self
                 (assign (cache self) key
                    {| value := v; expires_at := expires;
                       created_at := now' |}).
Proof.
  unfold set. intros H. inv_bind_as H expires Hexp. apply Ok_inj in H.
  exists expires. auto.
Qed.

Lemma float_plus_int now z expires :
  num_add (NFloat now) (NInt z) = Ok expires ->
  exists d, float_of_int z = Ok d /\ expires = NFloat (fadd now d).
Proof.
  unfold num_add, num_arith, to_float. cbn [bind]. intros H.
  inv_bind_as H d Hd. apply Ok_inj in H. eauto.
Qed.

(** X15.  [set] with a ttl of [0] is [set] without a ttl, which is [set]
    with the default ttl: the entry expires [default_ttl] seconds after
    the clock reading, not at once. *)
Theorem zero_ttl_is_the_default_ttl now now' self key v :
  set now now' self key v (Some 0) = set now now' self key v None
  /\ set now now' self key v None
     = set now now' self key v (Some (default_ttl self))
  /\ forall self',
       set now now' self key v (Some 0) = Ok self' ->
       exists d,
         float_of_int (default_ttl self) = Ok d
         /\ lookup (cache self') key
            = Some {| value := v; expires_at := NFloat (fadd now d);
                      created_at := now' |}.
Proof.
  split; [reflexivity|]. split.
  { unfold set. destruct (Z.eqb_spec (default_ttl self) 0) as [->|_];
      reflexivity. }
  intros self' H. apply set_inv in H. destruct H as (expires & Hexp & ->).
  cbn [Z.eqb] in Hexp. apply float_plus_int in Hexp.
  destruct Hexp as (d & Hd & ->). exists d. split; [exact Hd|].
  cbn [cache with_cache]. apply lookup_assign.
Qed.

(** X16.  After [set] with a ttl [z <> 0] at clock reading [now], [get]
    at every reading that is not above [now + z] returns the value set
    and leaves the cache as it is. *)
Theorem entry_is_served_until_it_expires now now' self key v z self' :
  z <> 0 ->
  set now now' self key v (Some z) = Ok self' ->
  exists d,
    float_of_int z = Ok d
    /\ forall later,
         num_gtb (NFloat later) (NFloat (fadd now d)) = false ->
         get later self' key = (v, self').
Proof.
  intros Hz H. apply set_inv in H. destruct H as (expires & Hexp & ->).
  destruct (Z.eqb_spec z 0); [contradiction|].
  apply float_plus_int in Hexp. destruct Hexp as (d & Hd & ->).
  exists d. split; [exact Hd|]. intros later Hlive.
  unfold get. cbn [cache with_cache]. rewrite lookup_assign.
  cbn [expires_at value]. rewrite Hlive. reflexivity.
Qed.

(** X17.  After [set] with a ttl [z <> 0] at clock reading [now], [get]
    at a reading above [now + z] returns [None] and deletes the entry:
    every later [get], whatever the clock, returns [None], and [delete]
    finds nothing to delete. *)
Theorem expired_entry_is_dropped_on_read now now' self key v z self' :
  z <> 0 ->
  set now now' self key v (Some z) = Ok self' ->
  exists d,
    float_of_int z = Ok d
    /\ forall later,
         num_gtb (NFloat later) (NFloat (fadd now d)) = true ->
         exists self'',
           get later self' key = (JNull, self'')
           /\ (forall t, get t self'' key = (JNull, self''))
           /\ delete self'' key = (false, self'').
Proof.
  intros Hz H. apply set_inv in H. destruct H as (expires & Hexp & ->).
  destruct (Z.eqb_spec z 0); [contradiction|].
  apply float_plus_int in Hexp. destruct Hexp as (d & Hd & ->).
  exists d. split; [exact Hd|]. intros later Hdead.
  eexists. split.
  { unfold get. cbn [cache with_cache]. rewrite lookup_assign.
    cbn [expires_at value]. rewrite Hdead. reflexivity. }
  split.
  - intros t. apply get_absent. cbn [cache with_cache]. apply lookup_remove.
  - apply delete_absent. cbn [cache with_cache]. apply lookup_remove.
Qed.

Lemma get_value_by_lookup t self self' key :
  lookup (cache self') key = lookup (cache self) key ->
  fst (get t self' key) = fst (get t self key).
Proof.
  intros H. unfold get. rewrite H.
  destruct (lookup (cache self) key) as [e|]; [|reflexivity].
  destruct (num_gtb _ _); reflexivity.
Qed.

(** X18.  [set], [get] and [delete] on one key change what [get]
    returns for no other key. *)
Theorem other_keys_are_left_alone self key key' t :
  key' <> key ->
  (forall now now' v ttl self',
     set now now' self key v ttl = Ok self' ->
     fst (get t self' key') = fst (get t self key'))
  /\ (forall now,
        fst (get t (snd (get now self key)) key') = fst (get t self key'))
  /\ fst (get t (snd (delete self key)) key') = fst (get t self key').
Proof.
  intros Hne. split; [|split].
  - intros now now' v ttl self' H. apply set_inv in H.
    destruct H as (expires & _ & ->). apply get_value_by_lookup.
    cbn [cache with_cache]. apply lookup_assign_other, Hne.
  - intros now. apply get_value_by_lookup. unfold get.
    destruct (lookup (cache self) key) as [e|]; [|reflexivity].
    destruct (num_gtb _ _); [|reflexivity].
    cbn [snd cache with_cache]. apply lookup_remove_other, Hne.
  - apply get_value_by_lookup. unfold delete.
    destruct (lookup (cache self) key) as [e|]; [|reflexivity].
    cbn [snd cache with_cache]. apply lookup_remove_other, Hne.
Qed.

(** X19.  [delete] returns [True] exactly when the key is in the dict,
    expired or not, and leaves the cache as it is when it returns
    [False]; after it, [get] returns [None] for the key and a second
    [delete] returns [False]. *)
Theorem delete_reports_and_removes self key :
  (fst (delete self key) = true <-> lookup (cache self) key <> None)
  /\ (fst (delete self key) = false -> snd (delete self key) = self)
  /\ (forall t,
        get t (snd (delete self key)) key = (JNull, snd (delete self key)))
  /\ delete (snd (delete self key)) key = (false, snd (delete self key)).
Proof.
  unfold delete at 1 2 3.
  destruct (lookup (cache self) key) as [e|] eqn:Hl; cbn [fst snd].
  - split; [split; [discriminate|reflexivity]|]. split; [discriminate|].
    assert (Hgone : lookup (cache (snd (delete self key))) key = None).
    { unfold delete. rewrite Hl. cbn [snd cache with_cache].
      apply lookup_remove. }
    split; [intros t; apply get_absent, Hgone | apply delete_absent, Hgone].
  - split; [split; [discriminate|congruence]|]. split; [reflexivity|].
    assert (Hsame : delete self key = (false, self))
      by (apply delete_absent, Hl).
    rewrite Hsame. cbn [snd].
    split; [intros t; apply get_absent, Hl | exact Hsame].
Qed.

(** ** Cleaning up *)

Lemma fold_left_remove keys c :
  fold_left remove keys c
  = filter (fun kv => negb (existsb (String.eqb (fst kv)) keys)) c.
Proof.
  revert c. induction keys as [|k keys IH]; intros c; cbn [fold_left existsb].
  - induction c as [|kv c IHc]; [reflexivity|].
    cbn [filter existsb negb]. f_equal. exact IHc.
  - rewrite IH. unfold remove.
    induction c as [|kv c IHc]; [reflexivity|].
    cbn [filter]. destruct (String.eqb (fst kv) k); cbn [negb orb filter].
    + exact IHc.
    + rewrite IHc. reflexivity.
Qed.

Lemma expired_key_listed t (c : list (string * entry)) kv :
  NoDup (map fst c) -> In kv c ->
  existsb (String.eqb (fst kv)) (map fst (filter (expired t) c))
  = expired t kv.
Proof.
  induction c as [|x c IH]; intros Hnd Hin; [contradiction|].
  cbn [map] in Hnd. inversion Hnd as [|? ? Hnotin Hnd']; subst.
  assert (Hother : forall y, In y c -> String.eqb (fst y) (fst x) = false).
  { intros y Hy. apply String.eqb_neq. intros Heq. apply Hnotin.
    rewrite <- Heq. apply in_map, Hy. }
  assert (Hnone : forall l,
             (forall y, In y l -> In y c) ->
             existsb (String.eqb (fst x)) (map fst l) = false).
  { induction l as [|y l IHl]; intros Hsub; [reflexivity|].
    cbn [map existsb]. rewrite String.eqb_sym, Hother by (apply Hsub; left; reflexivity).
    apply IHl. intros y' Hy'. apply Hsub. right. exact Hy'. }
  cbn [filter]. destruct Hin as [->|Hin].
  - destruct (expired t kv); cbn [map existsb].
    + rewrite String.eqb_refl. reflexivity.
    + apply Hnone. intros y Hy. apply filter_In in Hy. tauto.
  - destruct (expired t x); cbn [map existsb].
    + rewrite (Hother kv Hin). cbn [orb]. apply IH; assumption.
    + apply IH; assumption.
Qed.

Lemma filter_ext_in' {A : Type} (f g : A -> bool) l :
  (forall a, In a l -> f a = g a) -> filter f l = filter g l.
Proof.
  induction l as [|a l IH]; intros H; [reflexivity|].
  cbn [filter]. rewrite (H a (or_introl eq_refl)).
  rewrite IH by (intros b Hb; apply H; right; exact Hb). reflexivity.
Qed.

Lemma filter_split_length {A : Type} (f : A -> bool) l :
  (List.length (filter f l)
   + List.length (filter (fun a => negb (f a)) l))%nat = List.length l.
Proof.
  induction l as [|a l IH]; [reflexivity|].
  cbn [filter]. destruct (f a); cbn [negb List.length]; lia.
Qed.

Lemma filter_idem {A : Type} (f : A -> bool) l :
  filter f (filter f l) = filter f l.
Proof.
  induction l as [|a l IH]; [reflexivity|].
  cbn [filter]. destruct (f a) eqn:Hf; [|exact IH].
  cbn [filter]. rewrite Hf, IH. reflexivity.
Qed.

Lemma number_compares a b :
  num_compare a a = Some Eq -> num_compare b b = Some Eq ->
  num_compare a b <> None.
Proof.
  unfold num_compare, zcompare, fcompare.
  destruct a as [x|[| |s u]], b as [y|[| |t v]]; cbn [option_map];
    intros Ha Hb; try discriminate; congruence.
Qed.

Lemma active_or_expired t kv :
  num_compare (NFloat t) (NFloat t) = Some Eq ->
  num_compare (expires_at (snd kv)) (expires_at (snd kv)) = Some Eq ->
  active t kv = negb (expired t kv).
Proof.
  intros Ht He. pose proof (number_compares _ _ Ht He) as Hc.
  unfold active, expired, num_leb, num_gtb.
  destruct (num_compare (NFloat t) (expires_at (snd kv))) as [[| |]|];
    try reflexivity. congruence.
Qed.

(** X20.  For a cache with distinct keys and expiry times that are
    numbers, at a clock reading that is a number: [cleanup_expired]
    returns the count that [get_stats] reports as expired, keeps exactly
    the entries that are not expired, and leaves a cache whose statistics
    show every entry active and none expired. *)
Theorem cleanup_removes_what_the_statistics_call_expired t self :
  well_formed self ->
  num_compare (NFloat t) (NFloat t) = Some Eq ->
  exists total live : nat,
    get_stats t self
    = JObj [ ("total_entries", JInt (Z.of_nat total));
             ("active_entries", JInt (Z.of_nat live));
             ("expired_entries", JInt (fst (cleanup_expired t self))) ]
    /\ cache (snd (cleanup_expired t self))
       = filter (fun kv => negb (expired t kv)) (cache self)
    /\ get_stats t (snd (cleanup_expired t self))
       = JObj [ ("total_entries", JInt (Z.of_nat live));
                ("active_entries", JInt (Z.of_nat live));
                ("expired_entries", JInt 0) ]
    /\ (total = live + Z.to_nat (fst (cleanup_expired t self)))%nat.
Proof.
  intros (Hnd & Hnum) Ht.
  assert (Hact : forall l,
             (forall kv, In kv l -> In kv (cache self)) ->
             filter (active t) l = filter (fun kv => negb (expired t kv)) l).
  { intros l Hsub. apply filter_ext_in'. intros kv Hin.
    apply active_or_expired; [exact Ht|].
    rewrite Forall_forall in Hnum. apply Hnum, Hsub, Hin. }
  assert (Hclean : cache (snd (cleanup_expired t self))
                   = filter (fun kv => negb (expired t kv)) (cache self)).
  { unfold cleanup_expired. cbn [snd cache with_cache].
    rewrite fold_left_remove. apply filter_ext_in'. intros kv Hin.
    rewrite (expired_key_listed t (cache self) kv Hnd Hin). reflexivity. }
  pose proof (filter_split_length (expired t) (cache self)) as Hsplit.
  exists (List.length (cache self)),
    (List.length (filter (fun kv => negb (expired t kv)) (cache self))).
  split; [|split; [exact Hclean|split]].
  - unfold get_stats, cleanup_expired. cbn [fst].
    rewrite (Hact (cache self)) by auto. rewrite length_map.
    repeat f_equal. lia.
  - unfold get_stats. rewrite Hclean.
    rewrite (Hact (filter (fun kv => negb (expired t kv)) (cache self))).
    2:{ intros kv Hin. apply filter_In in Hin. tauto. }
    rewrite filter_idem. repeat f_equal. lia.
  - unfold cleanup_expired. cbn [fst]. rewrite length_map, Nat2Z.id. lia.
Qed.

(** ** The decorator *)

(** X21.  A call of a function wrapped by [cached] that finds nothing in
    the cache runs the function and stores its result.  A later call with
    the same key, at a clock reading not above the expiry time, returns
    the stored result without running the function and changes nothing,
    unless the stored result is [None]: then the function is run
    again. *)
Theorem cached_result_is_served_without_a_call {W : Type} ttl
    (func : W -> res (json * W)) key now0 now1 now2 cache0 w v w1 cache1 :
  fst (get now0 cache0 key) = JNull ->
  func w = Ok (v, w1) ->
  set now1 now2 (snd (get now0 cache0 key)) key v (Some ttl) = Ok cache1 ->
  wrapper ttl func key now0 now1 now2 cache0 w = Ok (v, (cache1, w1))
  /\ exists e,
       lookup (cache cache1) key = Some e
       /\ forall (func' : W -> res (json * W)) later later1 later2 w',
            num_gtb (NFloat later) (expires_at e) = false ->
            wrapper ttl func' key later later1 later2 cache1 w'
            = if is_none v
              then call <- func' w' ;;
                   cache' <- set later1 later2 cache1 key (fst call)
                               (Some ttl) ;;
                   Ok (fst call, (cache', snd call))
              else Ok (v, (cache1, w')).
Proof.
  intros Hmiss Hcall Hset. split.
  { unfold wrapper. rewrite Hmiss. cbn [is_none negb].
    rewrite Hcall. cbn [bind fst snd]. rewrite Hset. reflexivity. }
  apply set_inv in Hset. destruct Hset as (expires & _ & ->).
  eexists. split; [cbn [cache with_cache]; apply lookup_assign|].
  intros func' later later1 later2 w' Hlive.
  unfold wrapper, get. cbn [cache with_cache]. rewrite lookup_assign.
  cbn [expires_at value] in Hlive |- *. rewrite Hlive. cbn [fst snd].
  destruct (is_none v); reflexivity.
Qed.

End Cache.

(** * Prices and malformed line items *)

Lemma round2_nonneg x : nonneg x -> nonneg (round2 x).
Proof.
  pose proof one_u_pos as Hone.
  destruct x as [|[]|[] u]; cbn [nonneg]; try contradiction; intros Hu.
  - exact I.
  - unfold round2. apply of_ratio_nonneg; [lia|].
    pose proof (rne_bounds (100 * u) one_u Hone).
    assert (0 <= 100 * u / one_u) by (apply Z.div_pos; lia).
    apply Z.mul_nonneg_nonneg; lia.
Qed.

Lemma hundredth_bounds :
  round_units ((0 - 0 - 0 + 10 * one_u + 3 * one_u) * one_u)
    (round_units (100 * one_u) 1) <= one_u / 2
  /\ round_units
       (- (0 - 20 * one_u - 15 * (one_u / 2) + 0 + 0) * one_u)
       (round_units (100 * one_u) 1) <= one_u / 2
  /\ one_u / 2 < huge
  /\ of_Z 1 = Ffin false one_u
  /\ representable (one_u + - (one_u / 2))
  /\ representable (one_u + one_u / 2)
  /\ 0 < one_u + - (one_u / 2)
  /\ - (0 - 20 * one_u - 15 * (one_u / 2) + 0 + 0) >= 0.
Proof.
  split; [vm_compute; discriminate|]. split; [vm_compute; discriminate|].
  split; [vm_compute; reflexivity|]. split; [vm_compute; reflexivity|].
  split; [split; vm_compute; reflexivity|].
  split; [split; vm_compute; reflexivity|].
  split; [vm_compute; reflexivity|]. vm_compute. discriminate.
Qed.

Lemma fraction_bounded net fraction :
  bounded (0 - 20 * one_u - 15 * (one_u / 2) + 0 + 0)
    (0 - 0 - 0 + 10 * one_u + 3 * one_u) net ->
  num_truediv net (NInt 100) = Ok fraction ->
  exists f, fraction = NFloat f
            /\ bounded (- (one_u / 2)) (one_u / 2) (NFloat f).
Proof.
  intros Hb Hdiv. pose proof one_u_pos as Hone.
  destruct net as [z|[| |s u]]; cbn [bounded] in Hb;
    [| destruct Hb | destruct Hb |].
  all: destruct hundredth_bounds as (Hhi & Hlo & Hhuge & _ & _ & _ & _ & Hsign).
  all: destruct c100_fin as (E100 & H100).
  all: set (lo := 0 - 20 * one_u - 15 * (one_u / 2) + 0 + 0) in *.
  all: set (hi := 0 - 0 - 0 + 10 * one_u + 3 * one_u) in *.
  all: set (u100 := round_units (100 * one_u) 1) in *.
  all: assert (Hhalf : 0 <= one_u / 2) by (apply Z.div_pos; lia).
  - destruct Hb as (-> & _). rewrite num_truediv_zero_100 in Hdiv.
    apply Ok_inj in Hdiv. subst fraction. eexists. split; [reflexivity|].
    cbn [bounded]. unfold sv. lia.
  - destruct Hb as (Hu & Hsv). unfold num_truediv, to_float in Hdiv.
    rewrite float_of_int_100 in Hdiv. cbn [bind] in Hdiv.
    rewrite fis_zero_100 in Hdiv. apply Ok_inj in Hdiv. subst fraction.
    eexists. split; [reflexivity|].
    rewrite E100. unfold fdiv. rewrite xorb_false_r.
    assert (Hmono : forall M, u <= M ->
               round_units (u * one_u) u100 <= round_units (M * one_u) u100).
    { intros M HM. apply round_units_mono; [exact H100|].
      split; [apply Z.mul_nonneg_nonneg; lia|].
      apply Z.mul_le_mono_nonneg_r; lia. }
    assert (Hnn : 0 <= round_units (u * one_u) u100).
    { apply round_units_nonneg; [exact H100|].
      apply Z.mul_nonneg_nonneg; lia. }
    unfold sv in Hsv. unfold of_ratio. destruct s.
    + pose proof (Hmono (- lo) ltac:(lia)).
      destruct (Z.ltb_spec (round_units (u * one_u) u100) huge); [|lia].
      cbn [bounded]. unfold sv. lia.
    + pose proof (Hmono hi ltac:(lia)).
      destruct (Z.ltb_spec (round_units (u * one_u) u100) huge); [|lia].
      cbn [bounded]. unfold sv. lia.
Qed.

Section Prices.
Context {host : Host}.

(** X22.  For a typed record with a reorder level and a price that are
    not negative, the base price and the final unit price of an approved
    result are not negative. *)
Theorem unit_price_is_not_negative month o q s r p out :
  typed_record o s r p ->
  0 <= r ->
  nonneg p ->
  calculate month (JObj o) q = Ok out ->
  approved out ->
  exists base unit_price,
    field out "base_single_unit_price" = Some (JFloat base)
    /\ field out "final_single_unit_price" = Some (JFloat unit_price)
    /\ nonneg base /\ nonneg unit_price.
Proof.
  intros (Hmiss & Hs & Hr & Hp) Hr0 Hpos Hcalc Happ.
  unfold calculate in Hcalc. rewrite (init_of_dict o q p Hp) in Hcalc.
  cbn [bind] in Hcalc.
  destruct (calculate_price month (fresh o q p)) as [[out' self']|e] eqn:Hrun;
    [|discriminate Hcalc].
  cbn [bind fst] in Hcalc. apply Ok_inj in Hcalc. subst out'.
  destruct (calculate_price_priced _ _ _ _ Hrun Happ)
    as (self1 & net & fraction & factor & unit_price & total
        & _ & _ & _ & Hinv & Hself' & Hnet & Hfr & Hfa & Hun & _ & ->).
  assert (Hs0 : get_or o "Quantity_in_Stock" (JInt 0) = JInt s)
    by (apply get_or_present; [exact Hs|discriminate]).
  assert (Hbase : base_price self' = p).
  { subst self'.
    destruct (factor_rules_keeps month (_apply_order_value_rules self1))
      as (_ & _ & ->).
    destruct (order_value_rules_keeps self1) as (_ & _ & ->).
    apply inventory_rules_keeps in Hinv. destruct Hinv as (_ & _ & ->).
    reflexivity. }
  rewrite Hself' in Hnet.
  pose proof (net_of_fresh_engine month (fresh o q p) self1 s r net
                eq_refl Hs0 Hr Hr0 Hinv Hnet) as Hb.
  destruct (fraction_bounded net fraction Hb Hfr) as (f & -> & Hf).
  destruct hundredth_bounds as (_ & _ & _ & E1 & X1 & X2 & Hlow & _).
  rewrite num_add_1 in Hfa. apply Ok_inj in Hfa. subst factor.
  assert (Hone : bounded one_u one_u (NFloat (of_Z 1))).
  { rewrite E1. cbn [bounded]. unfold sv. pose proof one_u_pos. lia. }
  pose proof (fadd_bounded _ _ _ _ _ _ Hone Hf X1 X2) as Hfactor.
  clear Hone E1 X1 X2 Hb Hf.
  rewrite Hbase, num_mul_floats in Hun. apply Ok_inj in Hun. subst unit_price.
  exists (round2 p), (round2 (fmul p (fadd (of_Z 1) f))).
  unfold priced, py_round2.
  cbn [field dict_get String.eqb Ascii.eqb Bool.eqb json_of_num].
  rewrite Hbase.
  split; [reflexivity|]. split; [reflexivity|].
  split; [apply round2_nonneg, Hpos|].
  apply round2_nonneg.
  destruct (fadd (of_Z 1) f) as [| |t v]; cbn [bounded] in Hfactor;
    [destruct Hfactor | destruct Hfactor |].
  destruct Hfactor as (Hv & Hsv). unfold sv in Hsv.
  destruct t; [lia|]. apply fmul_nonneg; [exact Hpos|lia].
Qed.

(** X23.  For an approved item whose reasons are strings: a null net
    adjustment is not compared, so the item is judged by its "Capped"
    reasons alone; a net adjustment that is neither null nor a number
    makes the tool raise [TypeError]. *)
Theorem risk_reads_the_net_only_when_it_is_a_number data reasons :
  truthy (get_or data "approved_for_quote" (JBool false)) = true ->
  get_or data "reasoning_breakdown" (JArr []) = JArr (map JStr reasons) ->
  (get_or data "net_price_adjustment_percentage" (JInt 0) = JNull ->
   RiskAssessmentTool._run (JObj data)
   = Ok match filter (contains "Capped") reasons with
        | [] =>
            JObj
              [ ("risk_level", JStr "Low");
                ("summary",
                 JStr ("Item '" ++ py_str (get_or data "product_name" JNull)
                       ++ "' passed all checks.")) ]
        | capped =>
            JObj
              [ ("risk_level", JStr "High");
                ("summary", JStr "High risk detected.");
                ("reasons",
                 JArr (map JStr
                         (map (fun _ => RiskAssessmentTool.capped_flag data)
                            capped))) ]
        end)
  /\ (as_num (get_or data "net_price_adjustment_percentage" (JInt 0)) = None ->
      get_or data "net_price_adjustment_percentage" (JInt 0) <> JNull ->
      RiskAssessmentTool._run (JObj data) = Raise TypeError).
Proof.
  intros Happ Hreasons. split.
  - intros Hnet. unfold RiskAssessmentTool._run. cbn [py_get bind].
    rewrite Happ. cbn [negb]. rewrite Hnet, Hreasons.
    cbn [is_none bind py_iter]. rewrite capped_flags_strings. cbn [bind app].
    destruct (filter (contains "Capped") reasons); reflexivity.
  - intros Hnum Hnull. unfold RiskAssessmentTool._run. cbn [py_get bind].
    rewrite Happ. cbn [negb]. unfold py_lt_float. rewrite Hnum.
    destruct (get_or data "net_price_adjustment_percentage" (JInt 0));
      try reflexivity; try discriminate Hnum. contradiction.
Qed.

End Prices.

(** * The range of the inventory discount *)

Lemma discount_at_ratio_one :
  fmul (fmin (fmul (Ffin false one_u) (of_dec false 5 100))
          (of_dec false 20 100))
    (of_Z 100) = of_Z 5.
Proof. vm_compute. reflexivity. Qed.

Section Range.
Context {host : Host}.

(** X24.  With an int reorder level [r > 0] and an int stock
    [2 * r < s <= 2^1023] the inventory rule appends a discount between
    [5.0] and [20.0] per cent: the rule fires from a ratio of stock to
    twice the reorder level above one, which is worth five per cent. *)
Theorem inventory_discount_is_between_5_and_20 self s r :
  get_or (product self) "Quantity_in_Stock" (JInt 0) = JInt s ->
  get_or (product self) "Reorder_Level" (JInt 1) = JInt r ->
  0 < r ->
  2 * r < s ->
  s <= 2 ^ 1023 ->
  exists d,
    _apply_inventory_rules self
    = Ok (append self
            {| type := discount; value := NFloat d;
               reason := inventory_reason (JInt s) |})
    /\ fleb (of_Z 5) d = true
    /\ fleb d (of_Z 20) = true.
Proof.
  intros Hs Hr Hr0 Hhigh Hsb. pose proof one_u_pos as Hone.
  rewrite (inventory_rules_int self s r Hs Hr).
  replace ((r =? 0) || negb (2 * r <? s)) with false.
  2:{ symmetry. apply orb_false_iff. split.
      - apply Z.eqb_neq. lia.
      - apply negb_false_iff, Z.ltb_lt. lia. }
  unfold inventory_discount.
  destruct (int_truediv_ok s (2 * r) ltac:(lia) ltac:(lia)) as (ratio & Hratio).
  rewrite Hratio. cbn [bind].
  destruct (int_truediv_pos s (2 * r) ratio ltac:(lia) ltac:(lia) Hratio)
    as (-> & _).
  assert (Hn : nonneg (Ffin false (round_units (s * one_u) (2 * r)))).
  { unfold nonneg. apply round_units_nonneg; [lia|].
    apply Z.mul_nonneg_nonneg; lia. }
  assert (Hge : one_u <= round_units (s * one_u) (2 * r)).
  { pose proof (round_units_pow2 (2 * r) 1074 ltac:(lia) ltac:(lia)) as Hp.
    rewrite <- one_u_eq in Hp.
    assert (Hle : 0 <= 2 * r * one_u <= s * one_u).
    { split; [apply Z.mul_nonneg_nonneg; lia|].
      apply Z.mul_le_mono_nonneg_r; lia. }
    pose proof (round_units_mono _ _ (2 * r) ltac:(lia) Hle). lia. }
  eexists. split; [reflexivity|]. split.
  - rewrite <- discount_at_ratio_one.
    apply discount_of_ratio_mono; [unfold nonneg; lia|exact Hn|].
    rewrite fleb_fin. apply Z.leb_le. exact Hge.
  - apply discount_of_ratio_capped, Hn.
Qed.

End Range.

(** * The cache stays well formed *)

Section CacheInvariant.
Import MemoryCache.

Lemma keys_of_assign c key e :
  map fst (assign c key e)
  = if existsb (String.eqb key) (map fst c) then map fst c
    else (map fst c ++ [key])%list.
Proof.
  induction c as [|[k v] c IH]; [reflexivity|].
  cbn [assign map fst existsb].
  destruct (String.eqb_spec k key) as [->|Hk].
  - rewrite String.eqb_refl. reflexivity.
  - cbn [map fst]. rewrite IH.
    destruct (String.eqb_spec key k) as [->|_]; [contradiction|].
    cbn [orb]. destruct (existsb _ _); reflexivity.
Qed.

Lemma nodup_assign c key e :
  NoDup (map fst c) -> NoDup (map fst (assign c key e)).
Proof.
  intros Hnd. rewrite keys_of_assign.
  destruct (existsb (String.eqb key) (map fst c)) eqn:Hin; [exact Hnd|].
  apply NoDup_app; [exact Hnd|constructor; [intros []|constructor]|].
  intros k Hk [Heq|[]]. subst k.
  assert (existsb (String.eqb key) (map fst c) = true)
    by (apply existsb_exists; exists key; split;
        [exact Hk|apply String.eqb_refl]).
  congruence.
Qed.

Lemma nodup_filter (f : string * entry -> bool) c :
  NoDup (map fst c) -> NoDup (map fst (filter f c)).
Proof.
  induction c as [|kv c IH]; intros Hnd; [constructor|].
  cbn [map] in Hnd. inversion Hnd as [|? ? Hnotin Hnd']; subst.
  cbn [filter]. destruct (f kv); [|apply IH, Hnd'].
  cbn [map]. constructor; [|apply IH, Hnd'].
  intros Hin. apply Hnotin. apply in_map_iff in Hin.
  destruct Hin as (x & Hx & Hin). apply filter_In in Hin.
  rewrite <- Hx. apply in_map. tauto.
Qed.

Lemma forall_assign (P : string * entry -> Prop) c key e :
  Forall P c -> (forall k, P (k, e)) -> Forall P (assign c key e).
Proof.
  intros Hall He. induction Hall as [|[k v] c Hkv Hc IH]; cbn [assign].
  - constructor; [apply He|constructor].
  - destruct (String.eqb k key); constructor; auto.
Qed.

Lemma forall_filter {A : Type} (P : A -> Prop) (f : A -> bool) l :
  Forall P l -> Forall P (filter f l).
Proof.
  intros Hall. apply Forall_forall. intros x Hin.
  apply filter_In in Hin. rewrite Forall_forall in Hall. apply Hall. tauto.
Qed.

Lemma well_formed_filter self (f : string * entry -> bool) :
  well_formed self -> well_formed (with_cache self (filter f (cache self))).
Proof.
  intros (Hnd & Hnum). split; cbn [cache with_cache].
  - apply nodup_filter, Hnd.
  - apply forall_filter, Hnum.
Qed.

Lemma number_plus_int now d :
  num_compare (NFloat now) (NFloat now) = Some Eq ->
  forall z, float_of_int z = Ok d ->
  num_compare (NFloat (fadd now d)) (NFloat (fadd now d)) = Some Eq.
Proof.
  intros Hnow z Hd.
  assert (Hfin : exists t v, d = Ffin t v).
  { unfold float_of_int, of_Z, of_ratio in Hd.
    destruct (_ <? huge); [|discriminate Hd].
    apply Ok_inj in Hd. eauto. }
  destruct Hfin as (t & v & ->).
  assert (Hnum : forall x, x <> Fnan -> fcompare x x = Some Eq).
  { intros [| b | b u] Hx; [contradiction| |]; unfold fcompare.
    - rewrite Bool.eqb_reflx. reflexivity.
    - rewrite Z.compare_refl. reflexivity. }
  unfold num_compare in *. apply Hnum.
  destruct now as [| b | b u]; [discriminate Hnow| |]; unfold fadd.
  - discriminate.
  - destruct (_ =? 0); [discriminate|].
    unfold of_ratio. destruct (_ <? huge); discriminate.
Qed.

(** X25.  The methods keep a cache well formed: after [set] (at a clock
    reading that is a number), [get], [delete], [cleanup_expired] and
    [clear] the keys are distinct and the expiry times are numbers, as
    they are in a new cache. *)
Theorem cache_stays_well_formed self :
  well_formed self ->
  (forall now now' key v ttl self',
     num_compare (NFloat now) (NFloat now) = Some Eq ->
     set now now' self key v ttl = Ok self' ->
     well_formed self')
  /\ (forall now key, well_formed (snd (get now self key)))
  /\ (forall key, well_formed (snd (delete self key)))
  /\ (forall t, well_formed (snd (cleanup_expired t self)))
  /\ well_formed (clear self)
  /\ forall ttl, well_formed (__init__ ttl).
Proof.
  intros Hwf. split; [|split; [|split; [|split; [|split]]]].
  - intros now now' key v ttl self' Hnow Hset.
    apply set_inv in Hset. destruct Hset as (expires & Hexp & ->).
    apply float_plus_int in Hexp. destruct Hexp as (d & Hd & ->).
    destruct Hwf as (Hnd & Hnum). split; cbn [cache with_cache].
    + apply nodup_assign, Hnd.
    + apply forall_assign; [exact Hnum|]. intros k. cbn [snd expires_at].
      apply (number_plus_int now d Hnow _ Hd).
  - intros now key. unfold get.
    destruct (lookup (cache self) key) as [e|]; [|exact Hwf].
    destruct (num_gtb _ _); [|exact Hwf].
    cbn [snd]. apply well_formed_filter, Hwf.
  - intros key. unfold delete.
    destruct (lookup (cache self) key) as [e|]; [|exact Hwf].
    cbn [snd]. apply well_formed_filter, Hwf.
  - intros t. unfold cleanup_expired. cbn [snd].
    rewrite fold_left_remove. apply well_formed_filter, Hwf.
  - split; cbn [clear cache with_cache]; constructor.
  - intros ttl. split; cbn [__init__ cache]; constructor.
Qed.

End CacheInvariant.

(** * Further runs on concrete inputs *)

Lemma same_season_same_result_witness :
  existsb (Z.eqb 1) [5; 6; 7; 8] = existsb (Z.eqb 12) [5; 6; 7; 8]
  /\ @calculate_price bare_host 1 (fresh seasonal 30 (of_Z 100))
     = @calculate_price bare_host 12 (fresh seasonal 30 (of_Z 100)).
Proof.
  split; [reflexivity|].
  apply (proj1 (@same_season_same_result bare_host 1 12 eq_refl)).
Defined.

Lemma unseasonal_product_ignores_the_month_witness :
  mem "Weather & Seasons"
    (@factors_of bare_host (fresh scenario_1 30 (of_Z 100))) = false
  /\ @calculate_price bare_host 6 (fresh scenario_1 30 (of_Z 100))
     = @calculate_price bare_host 12 (fresh scenario_1 30 (of_Z 100)).
Proof.
  assert (H : mem "Weather & Seasons"
                (@factors_of bare_host (fresh scenario_1 30 (of_Z 100)))
              = false) by (vm_compute; reflexivity).
  split; [exact H|].
  apply (@unseasonal_product_ignores_the_month bare_host 6 12
           (fresh scenario_1 30 (of_Z 100)) (or_introl H)).
Defined.

Lemma incomplete_record_is_reported_witness :
  missing_keys draft <> []
  /\ @py_float bare_host (get_or draft "Min_Selling_Price_Rs" (JInt 0))
     = Ok (Ffin false 0)
  /\ @calculate bare_host 1 (JObj draft) 5
     = Ok (JObj
             [ ("product_name", JStr "Widget");
               ("approved_for_quote", JBool false);
               ("status",
                JStr "Product data incomplete. Missing required fields: Quantity_in_Stock, Stock_Status, Min_Selling_Price_Rs") ]).
Proof.
  assert (Hmiss : missing_keys draft <> []) by (vm_compute; discriminate).
  assert (Hp : @py_float bare_host
                 (get_or draft "Min_Selling_Price_Rs" (JInt 0))
               = Ok (Ffin false 0)) by (vm_compute; reflexivity).
  split; [exact Hmiss|]. split; [exact Hp|].
  apply (@incomplete_record_is_reported bare_host 1 draft 5 _ Hmiss Hp).
Defined.

Lemma out_of_stock_is_rejected_unseen_witness :
  missing_keys sold_out = []
  /\ py_eq (get_or sold_out "Stock_Status" JNull) (JStr "Out of Stock") = true
  /\ get_or sold_out "Quantity_in_Stock" JNull = JStr "n/a"
  /\ @py_float bare_host (get_or sold_out "Min_Selling_Price_Rs" (JInt 0))
     = Ok (of_Z 100)
  /\ @calculate bare_host 1 (JObj sold_out) 5
     = Ok (JObj
             [ ("product_name", JStr "Widget");
               ("quantity_requested", JInt 5);
               ("approved_for_quote", JBool false);
               ("status", JStr "Product is out of stock.") ]).
Proof.
  assert (Hp : @py_float bare_host
                 (get_or sold_out "Min_Selling_Price_Rs" (JInt 0))
               = Ok (of_Z 100)) by (vm_compute; reflexivity).
  split; [reflexivity|]. split; [reflexivity|]. split; [reflexivity|].
  split; [exact Hp|].
  apply (@out_of_stock_is_rejected_unseen bare_host 1 sold_out 5 _
           eq_refl eq_refl Hp).
Defined.

Lemma insufficient_stock_is_rejected_witness :
  missing_keys scenario_1 = []
  /\ py_eq (get_or scenario_1 "Stock_Status" JNull) (JStr "Out of Stock")
     = false
  /\ get_or scenario_1 "Quantity_in_Stock" JNull = JInt 50
  /\ 50 < 60
  /\ printable 50
  /\ printable 60
  /\ @py_float bare_host (get_or scenario_1 "Min_Selling_Price_Rs" (JInt 0))
     = Ok (of_Z 100)
  /\ @calculate bare_host 1 (JObj scenario_1) 60
     = Ok (JObj
             [ ("product_name", JStr "Widget");
               ("quantity_requested", JInt 60);
               ("approved_for_quote", JBool false);
               ("status",
                JStr ("Insufficient stock. Requested: " ++ dec 60
                      ++ ", Available: " ++ dec 50 ++ ".")) ]).
Proof.
  assert (Hp : @py_float bare_host
                 (get_or scenario_1 "Min_Selling_Price_Rs" (JInt 0))
               = Ok (of_Z 100)) by (vm_compute; reflexivity).
  assert (Hlt : 50 < 60) by lia.
  assert (Hs : printable 50) by (vm_compute; reflexivity).
  assert (Hq : printable 60) by (vm_compute; reflexivity).
  split; [reflexivity|]. split; [reflexivity|]. split; [reflexivity|].
  split; [exact Hlt|]. split; [exact Hs|]. split; [exact Hq|].
  split; [exact Hp|].
  apply (@insufficient_stock_is_rejected bare_host 1 scenario_1 60 _ 50
           eq_refl eq_refl eq_refl Hlt Hs Hq Hp).
Defined.

Lemma calculate_price_keeps_the_engine_witness :
  exists out self',
    @calculate_price bare_host 1 (fresh scenario_1 30 (of_Z 100))
    = Ok (out, self')
    /\ product self' = scenario_1
    /\ quantity self' = 30
    /\ base_price self' = of_Z 100
    /\ final_price self' = of_Z 100
    /\ (~ approved out -> self' = fresh scenario_1 30 (of_Z 100))
    /\ (0 <= List.length (adjustments self') <= 0 + 4)%nat.
Proof.
  eexists. eexists. split; [vm_compute; reflexivity|].
  apply (@calculate_price_keeps_the_engine bare_host 1
           (fresh scenario_1 30 (of_Z 100))).
  vm_compute. reflexivity.
Defined.

Lemma unpriced_result_is_low_risk_witness :
  exists out self',
    @calculate_price bare_host 1 (fresh sold_out 5 (of_Z 100))
    = Ok (out, self')
    /\ ~ approved out
    /\ exists name status,
         field out "product_name" = Some name
         /\ field out "status" = Some (JStr status)
         /\ @RiskAssessmentTool._run bare_host out
            = Ok (JObj
                    [ ("risk_level", JStr "Low");
                      ("summary",
                       JStr ("Item '" ++ @py_str bare_host name
                             ++ "' poses no pricing risk as it is not being quoted. Reason: "
                             ++ status)) ]).
Proof.
  eexists. eexists. split; [vm_compute; reflexivity|].
  assert (Hnot : ~ approved
                     (JObj
                        [ ("product_name", JStr "Widget");
                          ("quantity_requested", JInt 5);
                          ("approved_for_quote", JBool false);
                          ("status", JStr "Product is out of stock.") ]))
    by (vm_compute; discriminate).
  split; [exact Hnot|].
  apply (@unpriced_result_is_low_risk bare_host 1
           (fresh sold_out 5 (of_Z 100)) _ _ eq_refl Hnot).
Defined.

Lemma batch_answers_every_record_witness :
  Forall record_entry
    [ JObj [("product_json", JObj sold_out); ("quantity", JInt 5)];
      JObj [("quantity", JInt 2)] ]
  /\ exists entries,
       @PricingCalculatorTool._run bare_host 1
         (JArr [ JObj [("product_json", JObj sold_out); ("quantity", JInt 5)];
                 JObj [("quantity", JInt 2)] ])
       = Ok (JArr entries)
       /\ Forall2
            (fun item entry =>
               @PricingCalculatorTool.process_item bare_host 1 item
               = Ok entry)
            [ JObj [("product_json", JObj sold_out); ("quantity", JInt 5)];
              JObj [("quantity", JInt 2)] ]
            entries.
Proof.
  assert (Hall : Forall record_entry
                   [ JObj [("product_json", JObj sold_out);
                           ("quantity", JInt 5)];
                     JObj [("quantity", JInt 2)] ]).
  { constructor.
    - eexists. split; [reflexivity|]. right. eexists. reflexivity.
    - constructor; [|constructor].
      eexists. split; [reflexivity|]. left. reflexivity. }
  split; [exact Hall|].
  apply (@batch_answers_every_record bare_host 1 _ Hall).
Defined.

Lemma fractional_quantity_is_truncated_witness :
  get_or [("product_json", JObj scenario_1);
          ("quantity", JFloat (Ffin false (round_units (299 * one_u) 10)))]
    "quantity" JNull
  = JFloat (Ffin false (round_units (299 * one_u) 10))
  /\ trunc false (round_units (299 * one_u) 10) = 29
  /\ @PricingCalculatorTool.process_item bare_host 1
       (JObj [("product_json", JObj scenario_1);
              ("quantity",
               JFloat (Ffin false (round_units (299 * one_u) 10)))])
     = @PricingCalculatorTool.process_item bare_host 1
         (JObj [("product_json", JObj scenario_1);
                ("quantity",
                 JInt (trunc false (round_units (299 * one_u) 10)))]).
Proof.
  split; [reflexivity|]. split; [vm_compute; reflexivity|].
  apply (@fractional_quantity_is_truncated bare_host 1
           [("product_json", JObj scenario_1);
            ("quantity", JFloat (Ffin false (round_units (299 * one_u) 10)))]
           [("product_json", JObj scenario_1);
            ("quantity", JInt (trunc false (round_units (299 * one_u) 10)))]
           false (round_units (299 * one_u) 10) eq_refl eq_refl eq_refl).
Defined.

Lemma scenario_1_is_typed :
  @typed_record bare_host scenario_1 50 10 (of_Z 100).
Proof.
  split; [reflexivity|]. split; [reflexivity|]. split; [reflexivity|].
  vm_compute. reflexivity.
Defined.

Lemma typed_record_is_answered_witness :
  @typed_record bare_host scenario_1 50 10 (of_Z 100)
  /\ plain_factors scenario_1
  /\ 0 <= 50 <= 2 ^ 1023
  /\ - 2 ^ 1023 <= 30
  /\ printable 30
  /\ exists out,
       @calculate bare_host 1 (JObj scenario_1) 30 = Ok out
       /\ field out "approved_for_quote"
          = Some (JBool
                    (negb (py_eq (get_or scenario_1 "Stock_Status" JNull)
                             (JStr "Out of Stock"))
                     && (30 <=? 50))).
Proof.
  assert (Hs : 0 <= 50 <= 2 ^ 1023) by lia.
  assert (Hq : - 2 ^ 1023 <= 30) by lia.
  assert (Hf : plain_factors scenario_1) by (repeat constructor).
  assert (Hd : printable 30) by (vm_compute; reflexivity).
  split; [exact scenario_1_is_typed|]. split; [exact Hf|].
  split; [exact Hs|]. split; [exact Hq|]. split; [exact Hd|].
  apply (@typed_record_is_answered bare_host 1 scenario_1 30 50 10 (of_Z 100)
           scenario_1_is_typed Hf Hs Hq Hd).
Defined.

Lemma net_adjustment_is_bounded_witness :
  exists out,
    @typed_record bare_host scenario_1 50 10 (of_Z 100)
    /\ 0 <= 10
    /\ @calculate bare_host 1 (JObj scenario_1) 30 = Ok out
    /\ approved out
    /\ exists net,
         field out "net_price_adjustment_percentage"
         = Some (json_of_num net)
         /\ num_leb (NFloat (of_dec true 275 10)) net = true
         /\ num_leb net (NFloat (of_Z 13)) = true.
Proof.
  assert (Hr : 0 <= 10) by lia.
  eexists. split; [exact scenario_1_is_typed|]. split; [exact Hr|].
  split; [vm_compute; reflexivity|]. split; [reflexivity|].
  apply (@net_adjustment_is_bounded bare_host 1 scenario_1 30 50 10 (of_Z 100)
           _ scenario_1_is_typed Hr);
    [vm_compute; reflexivity | reflexivity].
Defined.

Lemma priced_result_is_judged_by_its_net_witness :
  exists out self',
    adjustments (fresh scenario_1 30 (of_Z 100)) = []
    /\ get_or scenario_1 "Quantity_in_Stock" (JInt 0) = JInt 50
    /\ @calculate_price bare_host 1 (fresh scenario_1 30 (of_Z 100))
       = Ok (out, self')
    /\ approved out
    /\ existsb (contains "Capped") (reasoning_breakdown (adjustments self'))
       = false.
Proof.
  eexists. eexists. split; [reflexivity|]. split; [reflexivity|].
  split; [vm_compute; reflexivity|]. split; [reflexivity|].
  refine (match @priced_result_is_judged_by_its_net bare_host 1
                  (fresh scenario_1 30 (of_Z 100)) _ _ 50 eq_refl eq_refl
                  _ _
          with
          | ex_intro _ data (ex_intro _ net (conj _ (conj _ (conj H _)))) => H
          end); [vm_compute; reflexivity | reflexivity].
Defined.

Lemma negative_reorder_level_is_no_discount_witness :
  get_or backordered "Quantity_in_Stock" (JInt 0) = JInt 50
  /\ get_or backordered "Reorder_Level" (JInt 1) = JInt (-5)
  /\ -5 < 0
  /\ 0 <= 50 <= 2 ^ 1023
  /\ @_apply_inventory_rules bare_host (fresh backordered 1 (of_Z 100))
     = Ok (append (fresh backordered 1 (of_Z 100))
             {| type := discount; value := NFloat (of_Z (-25));
                reason := @inventory_reason bare_host (JInt 50) |})
  /\ exists d,
       @_apply_inventory_rules bare_host (fresh backordered 1 (of_Z 100))
       = Ok (append (fresh backordered 1 (of_Z 100))
               {| type := discount; value := NFloat d;
                  reason := @inventory_reason bare_host (JInt 50) |})
       /\ fleb d (Ffin false 0) = true.
Proof.
  assert (Hr : -5 < 0) by lia.
  assert (Hs : 0 <= 50 <= 2 ^ 1023) by lia.
  split; [reflexivity|]. split; [reflexivity|]. split; [exact Hr|].
  split; [exact Hs|]. split; [vm_compute; reflexivity|].
  apply (@negative_reorder_level_is_no_discount bare_host
           (fresh backordered 1 (of_Z 100)) 50 (-5) eq_refl eq_refl Hr Hs).
Defined.

Lemma unit_price_is_not_negative_witness :
  exists out,
    @typed_record bare_host scenario_1 50 10 (of_Z 100)
    /\ 0 <= 10
    /\ nonneg (of_Z 100)
    /\ @calculate bare_host 1 (JObj scenario_1) 30 = Ok out
    /\ approved out
    /\ exists base unit_price,
         field out "base_single_unit_price" = Some (JFloat base)
         /\ field out "final_single_unit_price" = Some (JFloat unit_price)
         /\ nonneg base /\ nonneg unit_price.
Proof.
  assert (Hr : 0 <= 10) by lia.
  assert (Hp : nonneg (of_Z 100)) by (vm_compute; discriminate).
  eexists. split; [exact scenario_1_is_typed|]. split; [exact Hr|].
  split; [exact Hp|].
  split; [vm_compute; reflexivity|]. split; [reflexivity|].
  apply (@unit_price_is_not_negative bare_host 1 scenario_1 30 50 10
           (of_Z 100) _ scenario_1_is_typed Hr Hp);
    [vm_compute; reflexivity | reflexivity].
Defined.

Lemma risk_reads_the_net_only_when_it_is_a_number_witness :
  truthy
    (get_or [ ("product_name", JStr "Widget");
              ("approved_for_quote", JBool true);
              ("net_price_adjustment_percentage", JStr "-30") ]
       "approved_for_quote" (JBool false)) = true
  /\ get_or [ ("product_name", JStr "Widget");
              ("approved_for_quote", JBool true);
              ("net_price_adjustment_percentage", JStr "-30") ]
       "reasoning_breakdown" (JArr [])
     = JArr (map JStr [])
  /\ @RiskAssessmentTool._run bare_host
       (JObj [ ("product_name", JStr "Widget");
               ("approved_for_quote", JBool true);
               ("net_price_adjustment_percentage", JStr "-30") ])
     = Raise TypeError.
Proof.
  split; [reflexivity|]. split; [reflexivity|].
  apply (proj2 (@risk_reads_the_net_only_when_it_is_a_number bare_host
                  [ ("product_name", JStr "Widget");
                    ("approved_for_quote", JBool true);
                    ("net_price_adjustment_percentage", JStr "-30") ]
                  [] eq_refl eq_refl));
    [reflexivity | discriminate].
Defined.

(** ** The cache *)

Lemma entry_is_served_until_it_expires_witness :
  exists self',
    60 <> 0
    /\ MemoryCache.set (of_Z 100) (of_Z 100) (MemoryCache.__init__ 3600)
         "dates" (JStr "2026-01-01") (Some 60) = Ok self'
    /\ MemoryCache.get (of_Z 160) self' "dates" = (JStr "2026-01-01", self').
Proof.
  assert (Hz : 60 <> 0) by discriminate.
  eexists. split; [exact Hz|]. split; [vm_compute; reflexivity|].
  refine (match entry_is_served_until_it_expires (of_Z 100) (of_Z 100)
                  (MemoryCache.__init__ 3600) "dates" (JStr "2026-01-01") 60
                  _ Hz _
          with
          | ex_intro _ d (conj Hd H) => _
          end); [vm_compute; reflexivity|].
  apply H.
  assert (Hd' : d = of_Z 60).
  { apply Ok_inj. rewrite <- Hd. vm_compute. reflexivity. }
  rewrite Hd'. vm_compute. reflexivity.
Defined.

Lemma expired_entry_is_dropped_on_read_witness :
  exists self',
    60 <> 0
    /\ MemoryCache.set (of_Z 100) (of_Z 100) (MemoryCache.__init__ 3600)
         "dates" (JStr "2026-01-01") (Some 60) = Ok self'
    /\ exists d,
         float_of_int 60 = Ok d
         /\ forall later,
              num_gtb (NFloat later) (NFloat (fadd (of_Z 100) d)) = true ->
              exists self'',
                MemoryCache.get later self' "dates" = (JNull, self'')
                /\ (forall t,
                      MemoryCache.get t self'' "dates" = (JNull, self''))
                /\ MemoryCache.delete self'' "dates" = (false, self'').
Proof.
  assert (Hz : 60 <> 0) by discriminate.
  eexists. split; [exact Hz|]. split; [vm_compute; reflexivity|].
  apply (expired_entry_is_dropped_on_read (of_Z 100) (of_Z 100)
           (MemoryCache.__init__ 3600) "dates" (JStr "2026-01-01") 60 _ Hz).
  vm_compute. reflexivity.
Defined.

Lemma other_keys_are_left_alone_witness :
  "rates" <> "dates"
  /\ fst (MemoryCache.get (of_Z 120)
            (snd (MemoryCache.delete one_entry "dates")) "rates")
     = fst (MemoryCache.get (of_Z 120) one_entry "rates").
Proof.
  assert (Hne : "rates" <> "dates") by discriminate.
  split; [exact Hne|].
  apply (proj2 (proj2 (other_keys_are_left_alone one_entry "dates" "rates"
                         (of_Z 120) Hne))).
Defined.

Lemma one_entry_is_well_formed : well_formed one_entry.
Proof.
  split.
  - constructor; [intros []|constructor].
  - constructor; [vm_compute; reflexivity|constructor].
Defined.

Lemma cleanup_removes_what_the_statistics_call_expired_witness :
  well_formed one_entry
  /\ num_compare (NFloat (of_Z 200)) (NFloat (of_Z 200)) = Some Eq
  /\ fst (MemoryCache.cleanup_expired (of_Z 200) one_entry) = 1
  /\ exists total live : nat,
       MemoryCache.get_stats (of_Z 200) one_entry
       = JObj [ ("total_entries", JInt (Z.of_nat total));
                ("active_entries", JInt (Z.of_nat live));
                ("expired_entries",
                 JInt (fst (MemoryCache.cleanup_expired (of_Z 200)
                              one_entry))) ]
       /\ MemoryCache.cache
            (snd (MemoryCache.cleanup_expired (of_Z 200) one_entry))
          = filter (fun kv => negb (MemoryCache.expired (of_Z 200) kv))
              (MemoryCache.cache one_entry)
       /\ MemoryCache.get_stats (of_Z 200)
            (snd (MemoryCache.cleanup_expired (of_Z 200) one_entry))
          = JObj [ ("total_entries", JInt (Z.of_nat live));
                   ("active_entries", JInt (Z.of_nat live));
                   ("expired_entries", JInt 0) ]
       /\ (total
           = live
             + Z.to_nat (fst (MemoryCache.cleanup_expired (of_Z 200)
                                one_entry)))%nat.
Proof.
  assert (Ht : num_compare (NFloat (of_Z 200)) (NFloat (of_Z 200)) = Some Eq)
    by (vm_compute; reflexivity).
  split; [exact one_entry_is_well_formed|]. split; [exact Ht|].
  split; [vm_compute; reflexivity|].
  apply (cleanup_removes_what_the_statistics_call_expired (of_Z 200)
           one_entry one_entry_is_well_formed Ht).
Defined.

Lemma cached_result_is_served_without_a_call_witness :
  exists cache1,
    fst (MemoryCache.get (of_Z 100) (MemoryCache.__init__ 3600) "dates")
    = JNull
    /\ MemoryCache.set (of_Z 100) (of_Z 100)
         (snd (MemoryCache.get (of_Z 100) (MemoryCache.__init__ 3600)
                 "dates"))
         "dates" (JStr "2026-01-01") (Some 60) = Ok cache1
    /\ MemoryCache.wrapper 60
         (fun calls : nat => Ok (JStr "2026-01-01", S calls))
         "dates" (of_Z 100) (of_Z 100) (of_Z 100)
         (MemoryCache.__init__ 3600) 0%nat
       = Ok (JStr "2026-01-01", (cache1, 1%nat)).
Proof.
  eexists. split; [reflexivity|]. split; [vm_compute; reflexivity|].
  apply (proj1 (cached_result_is_served_without_a_call 60
                  (fun calls : nat => Ok (JStr "2026-01-01", S calls))
                  "dates" (of_Z 100) (of_Z 100) (of_Z 100)
                  (MemoryCache.__init__ 3600) 0%nat (JStr "2026-01-01")
                  1%nat _ eq_refl eq_refl ltac:(vm_compute; reflexivity))).
Defined.
Lemma cache_stays_well_formed_witness :
  well_formed one_entry
  /\ well_formed (snd (MemoryCache.get (of_Z 200) one_entry "dates"))
  /\ well_formed (snd (MemoryCache.cleanup_expired (of_Z 200) one_entry)).
Proof.
  split; [exact one_entry_is_well_formed|]. split.
  - apply (proj1 (proj2 (cache_stays_well_formed one_entry
                           one_entry_is_well_formed))).
  - apply (proj1 (proj2 (proj2 (proj2 (cache_stays_well_formed one_entry
                                         one_entry_is_well_formed))))).
Defined.

Lemma inventory_discount_is_between_5_and_20_witness :
  get_or scenario_1 "Quantity_in_Stock" (JInt 0) = JInt 50
  /\ get_or scenario_1 "Reorder_Level" (JInt 1) = JInt 10
  /\ 0 < 10
  /\ 2 * 10 < 50
  /\ 50 <= 2 ^ 1023
  /\ exists d,
       @_apply_inventory_rules bare_host (fresh scenario_1 30 (of_Z 100))
       = Ok (append (fresh scenario_1 30 (of_Z 100))
               {| type := discount; value := NFloat d;
                  reason := @inventory_reason bare_host (JInt 50) |})
       /\ fleb (of_Z 5) d = true
       /\ fleb d (of_Z 20) = true.
Proof.
  assert (Hr : 0 < 10) by lia.
  assert (Hhigh : 2 * 10 < 50) by lia.
  assert (Hs : 50 <= 2 ^ 1023) by lia.
  split; [reflexivity|]. split; [reflexivity|]. split; [exact Hr|].
  split; [exact Hhigh|]. split; [exact Hs|].
  apply (@inventory_discount_is_between_5_and_20 bare_host
           (fresh scenario_1 30 (of_Z 100)) 50 10 eq_refl eq_refl Hr Hhigh Hs).
Defined.
